(** * Agentic RAG query pipeline: a shallow embedding and its properties

    The development follows the query-time core of the repository:
    - [app/agents/aggregator.py]      ([ContextAggregator])
    - [app/agents/query_analyzer.py]  ([QueryAnalyzer])
    - [app/agents/decomposer.py]      ([QueryDecomposer])
    - [app/agents/synthesizer.py]     ([AnswerSynthesizer])
    - [app/retrieval/retriever.py]    ([SemanticRetriever])
    - [app/main.py]                   ([query_documents])

    Python values are modelled by small inductive types, dictionaries that
    are iterated in insertion order by association lists, exceptions by an
    explicit result type, and the external collaborators (language model,
    embedder, chunk store, JSON parser, response validation) by a record of
    oracles that see the history of external calls made so far.  A string
    is a sequence of code points below 256; a float is the rational value
    of a double, and float arithmetic rounds to the nearest double. *)

From Stdlib Require Import List String Ascii ZArith QArith Bool Lia Lqa.
From Stdlib Require Import Sorted Permutation DecimalString Qabs Qpower.
Import ListNotations.

Set Warnings "-register-all".

Local Open Scope string_scope.
Local Open Scope Z_scope.

(** ** Python values *)

(** The values [json.loads] can produce, which are also the values the
    agents pass around.  A float is held as the rational value of a finite
    double; [nan] and the infinities are not represented. *)
Inductive pyval : Type :=
| PyNone
| PyBool (b : bool)
| PyInt (n : Z)
| PyFloat (q : Q)
| PyStr (s : string)
| PyList (items : list pyval)
| PyDict (fields : list (string * pyval)).

(** Truth value of a Python object, as tested by [if x:]. *)
Definition truthy (v : pyval) : bool :=
  match v with
  | PyNone => false
  | PyBool b => b
  | PyInt n => negb (n =? 0)
  | PyFloat q => negb (Qeq_bool q 0)
  | PyStr s => negb (String.eqb s "")
  | PyList items => match items with [] => false | _ => true end
  | PyDict fields => match fields with [] => false | _ => true end
  end.

(** [str(n)] for an integer. *)
Definition str_int (n : Z) : string := NilZero.string_of_int (Z.to_int n).

(** The line feed character. *)
Definition nl : string := String (ascii_of_nat 10) EmptyString.

(** ** Chunks

    A chunk is a dictionary.  [content] is read with [chunk['content']];
    the other four keys are read with [chunk.get(key, default)], so each
    of them may be missing: [None] stands for a missing key.  The value of
    [page_number] is an integer, Python's [None], or any other object shown
    by its text. *)
Inductive py_page : Type :=
| PgInt (n : Z)
| PgNone
| PgStr (s : string).

Record Chunk : Type := mkChunk {
  content : string;
  document_name : option string;
  page_number : option py_page;
  content_type : option string;
  similarity : option Q
}.

(** [d.get(key, default)] on a key that may be missing. *)
Definition get_default {A : Type} (field : option A) (default : A) : A :=
  match field with
  | Some v => v
  | None => default
  end.

(** [str(page)] as an f-string renders it. *)
Definition str_page (p : py_page) : string :=
  match p with
  | PgInt n => str_int n
  | PgNone => "None"
  | PgStr s => s
  end.

(** [len(chunk['content'])]; a character of the text is one [ascii]. *)
Definition chunk_chars (chunk : Chunk) : Z :=
  Z.of_nat (String.length (content chunk)).

(** The sort key [lambda x: x.get('similarity', 0)]. *)
Definition sort_key (x : Chunk) : Q := get_default (similarity x) 0%Q.

(** A result map is a [dict] from query to chunks; [items()] walks it in
    insertion order. *)
Definition ResultMap : Type := list (string * list Chunk).

(** ** The context aggregator *)

Module ContextAggregator.

Record t : Type := mk { max_context_tokens : Z }.

(** [ContextAggregator()] uses the default budget. *)
Definition default : t := mk 2048.

(** [content not in seen_content]. *)
Definition seen (content0 : string) (seen_content : list string) : bool :=
  existsb (String.eqb content0) seen_content.

(** Body of the inner loop of [aggregate] (the state is
    [(seen_content, all_chunks)]). *)
Definition collect_chunk (st : list string * list Chunk) (chunk : Chunk)
  : list string * list Chunk :=
  let '(seen_content, all_chunks) := st in
  if seen (content chunk) seen_content
  then st
  else (content chunk :: seen_content, (all_chunks ++ [chunk])%list).

(** The two nested loops over [results_by_query.items()]. *)
Definition collect (results_by_query : ResultMap) : list string * list Chunk :=
  fold_left
    (fun st (item : string * list Chunk) => fold_left collect_chunk (snd item) st)
    results_by_query ([], []).

(** [list.sort(key=..., reverse=True)]: a stable sort, largest key first.
    An element moves past the elements with a strictly larger key only. *)
Fixpoint insert_desc (x : Chunk) (l : list Chunk) : list Chunk :=
  match l with
  | [] => [x]
  | y :: l' =>
      if Qlt_le_dec (sort_key x) (sort_key y)
      then y :: insert_desc x l'
      else x :: l
  end.

Definition sort_desc (l : list Chunk) : list Chunk :=
  fold_right insert_desc [] l.

(** The packing loop with its [break]. *)
Fixpoint pack (max_chars total_chars : Z) (aggregated_chunks all_chunks : list Chunk)
  : list Chunk :=
  match all_chunks with
  | [] => aggregated_chunks
  | chunk :: rest =>
      if total_chars + chunk_chars chunk <=? max_chars
      then pack max_chars (total_chars + chunk_chars chunk)
                (aggregated_chunks ++ [chunk])%list rest
      else aggregated_chunks
  end.

(** The chunks after deduplication, before sorting. *)
Definition deduplicated (results_by_query : ResultMap) : list Chunk :=
  snd (collect results_by_query).

Definition aggregate (self : t) (results_by_query : ResultMap) : list Chunk :=
  let all_chunks := sort_desc (deduplicated results_by_query) in
  let max_chars := max_context_tokens self * 4 in
  pack max_chars 0 [] all_chunks.

(** One entry of [context_parts]. *)
Definition source_block (i : Z) (chunk : Chunk) : string :=
  let doc_name := get_default (document_name chunk) "Unknown" in
  let page_num := get_default (page_number chunk) (PgStr "N/A") in
  let content_type0 := get_default (content_type chunk) "text" in
  "[Source " ++ str_int i ++ "] Document: " ++ doc_name
    ++ ", Page: " ++ str_page page_num
    ++ ", Type: " ++ content_type0 ++ nl ++ content chunk.

(** The loop over [enumerate(chunks, 1)]. *)
Fixpoint format_parts (i : Z) (chunks : list Chunk) (context_parts : list string)
  : list string :=
  match chunks with
  | [] => context_parts
  | chunk :: rest =>
      format_parts (i + 1) rest (context_parts ++ [source_block i chunk])%list
  end.

Definition separator : string := nl ++ nl ++ "---" ++ nl ++ nl.

Definition format_context (chunks : list Chunk) : string :=
  match chunks with
  | [] => "No relevant context found."
  | _ => String.concat separator (format_parts 1 chunks [])
  end.

End ContextAggregator.

(** Total number of characters of a list of chunks. *)
Definition total_chars (l : list Chunk) : Z :=
  fold_right (fun c acc => chunk_chars c + acc) 0 l.

(** All chunks of a result map, in iteration order. *)
Definition flatten (results_by_query : ResultMap) : list Chunk :=
  List.concat (map snd results_by_query).

(** The first chunk of a list with the given content. *)
Definition first_with_content (s : string) (l : list Chunk) : option Chunk :=
  find (fun c => String.eqb (content c) s) l.

(** The blocks of [chunks], numbered from [i]. *)
Fixpoint numbered_blocks (i : Z) (chunks : list Chunk) : list string :=
  match chunks with
  | [] => []
  | chunk :: rest =>
      ContextAggregator.source_block i chunk :: numbered_blocks (i + 1) rest
  end.

(** The state of [aggregate] after its loops have seen the chunks [p]. *)
Definition run (p : list Chunk) : list string * list Chunk :=
  fold_left ContextAggregator.collect_chunk p ([], []).

(** The chunks of [l] whose sort key equals [s]. *)
Definition with_key (s : Q) (l : list Chunk) : list Chunk :=
  filter (fun c => Qeq_bool (sort_key c) s) l.

(** Largest similarity first. *)
Definition descending (a b : Chunk) : Prop := (sort_key b <= sort_key a)%Q.

(** ** Exceptions, results and the history of external calls *)

(** Exception classes that occur; all of them are subclasses of
    [Exception], and [OtherError] stands for any further subclass an
    external library raises. *)
Inductive exn_class : Type :=
| JSONDecodeError
| KeyError
| TypeError
| AttributeError
| UnboundLocalError
| HTTPException (status_code : Z)
| OtherError (name : string).

(** An exception with the text [str(e)] gives (for [HTTPException] the
    text is its [detail]). *)
Record exn : Type := mkExn { class_of : exn_class; exn_str : string }.

Inductive result (A : Type) : Type :=
| Return (a : A)
| Raise (e : exn).
Arguments Return {A} a.
Arguments Raise {A} e.

Definition is_JSONDecodeError (e : exn) : bool :=
  match class_of e with
  | JSONDecodeError => true
  | _ => false
  end.

Definition embedding : Type := list Q.

(** The three prompt chains that share the language model. *)
Inductive agent : Type := Classifier | Decomposer | Synthesizer.

(** One call to an external collaborator. *)
Inductive event : Type :=
| EvInvoke (a : agent) (inputs : list (string * string))
| EvEmbed (text : pyval)
| EvSearch (query_embedding : embedding) (top_k : Z)
           (document_filter : option string) (similarity_threshold : Q).

Definition history : Type := list event.

(** The external collaborators.  Each answer may depend on every call made
    before it, so two calls with equal arguments may answer differently.
    [chain_invoke] gives [response.content] or the exception raised by
    [chain.invoke]; [json_loads] is [json.loads]; [coerce_bool] and
    [coerce_str_list] are what response validation makes of a value that is
    not already of the declared type, and [validation_error] is the
    exception it raises when it rejects the two checked fields. *)
Record services : Type := mkServices {
  chain_invoke : history -> agent -> list (string * string) -> result string;
  json_loads : string -> result pyval;
  generate_single_embedding : history -> pyval -> result embedding;
  vector_store_search :
    history -> embedding -> Z -> option string -> Q -> result (list Chunk);
  coerce_bool : pyval -> option bool;
  coerce_str_list : pyval -> option (list string);
  validation_error : pyval -> pyval -> exn
}.

(** Computations that call collaborators and may raise. *)
Definition M (A : Type) : Type := history -> result A * history.

Definition ret {A : Type} (a : A) : M A := fun h => (Return a, h).

Definition lift {A : Type} (r : result A) : M A := fun h => (r, h).

Definition bind {A B : Type} (m : M A) (f : A -> M B) : M B :=
  fun h =>
    match m h with
    | (Return a, h') => f a h'
    | (Raise e, h') => (Raise e, h')
    end.

Notation "x <- m ;; k" := (bind m (fun x => k))
  (at level 61, m at next level, right associativity).

Definition rbind {A B : Type} (r : result A) (f : A -> result B) : result B :=
  match r with
  | Return a => f a
  | Raise e => Raise e
  end.

Definition invoke (svc : services) (a : agent) (inputs : list (string * string))
  : M string :=
  fun h => (chain_invoke svc h a inputs, (h ++ [EvInvoke a inputs])%list).

Definition embed (svc : services) (text : pyval) : M embedding :=
  fun h => (generate_single_embedding svc h text, (h ++ [EvEmbed text])%list).

Definition search (svc : services) (query_embedding : embedding) (top_k : Z)
  (document_filter : option string) (similarity_threshold : Q) : M (list Chunk) :=
  fun h =>
    (vector_store_search svc h query_embedding top_k document_filter
       similarity_threshold,
     (h ++ [EvSearch query_embedding top_k document_filter similarity_threshold])%list).

(** ** Operations on Python values *)

Definition type_name (v : pyval) : string :=
  match v with
  | PyNone => "NoneType"
  | PyBool _ => "bool"
  | PyInt _ => "int"
  | PyFloat _ => "float"
  | PyStr _ => "str"
  | PyList _ => "list"
  | PyDict _ => "dict"
  end.

Fixpoint lookup (key : string) (fields : list (string * pyval)) : option pyval :=
  match fields with
  | [] => None
  | (k, v) :: rest => if String.eqb k key then Some v else lookup key rest
  end.

(** [v[key]] for a string key (messages as CPython 3.11 words them). *)
Definition py_getitem (v : pyval) (key : string) : result pyval :=
  match v with
  | PyDict fields =>
      match lookup key fields with
      | Some x => Return x
      | None => Raise (mkExn KeyError ("'" ++ key ++ "'"))
      end
  | PyList _ =>
      Raise (mkExn TypeError "list indices must be integers or slices, not str")
  | PyStr _ =>
      Raise (mkExn TypeError "string indices must be integers, not 'str'")
  | _ =>
      Raise (mkExn TypeError ("'" ++ type_name v ++ "' object is not subscriptable"))
  end.

(** [v.get(key, default)]: only a [dict] has the method. *)
Definition py_get (v : pyval) (key : string) (default : pyval) : result pyval :=
  match v with
  | PyDict fields => Return (get_default (lookup key fields) default)
  | _ =>
      Raise (mkExn AttributeError
               ("'" ++ type_name v ++ "' object has no attribute 'get'"))
  end.

(** [len(v)]. *)
Definition py_len (v : pyval) : result Z :=
  match v with
  | PyList items => Return (Z.of_nat (List.length items))
  | PyStr s => Return (Z.of_nat (String.length s))
  | PyDict fields => Return (Z.of_nat (List.length fields))
  | _ =>
      Raise (mkExn TypeError ("object of type '" ++ type_name v ++ "' has no len()"))
  end.

(** The characters of a string, each as a string of length one. *)
Fixpoint chars (s : string) : list pyval :=
  match s with
  | EmptyString => []
  | String c s' => PyStr (String c EmptyString) :: chars s'
  end.

(** The elements [for x in v] walks through. *)
Definition py_iter (v : pyval) : result (list pyval) :=
  match v with
  | PyList items => Return items
  | PyStr s => Return (chars s)
  | PyDict fields => Return (map (fun kv => PyStr (fst kv)) fields)
  | _ => Raise (mkExn TypeError ("'" ++ type_name v ++ "' object is not iterable"))
  end.

(** [c.isspace()].  A character of a string is a code point below 256
    (one [ascii]); the white space among them is the code points 9 to 13,
    28 to 32, 133 (next line) and 160 (no-break space). *)
Definition is_space (c : ascii) : bool :=
  let n := nat_of_ascii c in
  (Nat.leb 9 n && Nat.leb n 13) || (Nat.leb 28 n && Nat.leb n 32)
  || Nat.eqb n 133 || Nat.eqb n 160.

(** [s.lstrip()], [s.rstrip()] and [s.strip()]. *)

Fixpoint lstrip (s : string) : string :=
  match s with
  | EmptyString => EmptyString
  | String c s' => if is_space c then lstrip s' else s
  end.

Fixpoint rstrip (s : string) : string :=
  match s with
  | EmptyString => EmptyString
  | String c s' =>
      match rstrip s' with
      | EmptyString => if is_space c then EmptyString else String c EmptyString
      | r => String c r
      end
  end.

Definition strip (s : string) : string := rstrip (lstrip s).

(** Nearest integer, ties to the even one. *)
Definition round_half_even (q : Q) : Z :=
  let n := Qnum q in
  let d := Zpos (Qden q) in
  let fl := n / d in
  let twice_rest := 2 * (n mod d) in
  if twice_rest <? d then fl
  else if d <? twice_rest then fl + 1
  else if Z.even fl then fl else fl + 1.

(** ** Floating point

    A Python [float] is an IEEE binary64 number; a finite one is the
    rational [m * 2 ^ e] with [|m| <= 2 ^ 53] and [-1074 <= e].  The
    result of an arithmetic operation is the double nearest to the exact
    result, ties to the even significand.  The magnitudes that occur here
    are far below the overflow threshold, so no upper bound on the
    exponent is modelled. *)

(** The integer [z] with [2 ^ z <= q < 2 ^ (z + 1)], for [0 < q]. *)
Definition floor_log2 (q : Q) : Z :=
  let z0 := Z.log2 (Qnum q) - Z.log2 (Zpos (Qden q)) in
  if Qle_bool (2 ^ z0) q then z0 else z0 - 1.

(** The multiple of [2 ^ e] nearest to [q], ties to the even multiple. *)
Definition round_to_grid (e : Z) (q : Q) : Q :=
  (inject_Z (round_half_even (q / 2 ^ e)) * 2 ^ e)%Q.

(** The double nearest to [q], for [0 <= q]: 53 significant bits, and the
    subnormal spacing [2 ^ -1074] below [2 ^ -1022]. *)
Definition nearest_positive (q : Q) : Q :=
  round_to_grid (Z.max (-1074) (floor_log2 q - 52)) q.

Definition nearest_double (q : Q) : Q :=
  if Qle_bool 0 q then nearest_positive q else (- nearest_positive (- q))%Q.

(** [a - b] on floats. *)
Definition float_sub (a b : Q) : Q := nearest_double (a - b).

(** [round(x, 3)] on a float: the decimal with three places nearest to the
    exact value of [x], ties to the even last digit, then the double
    nearest to that decimal. *)
Definition round3 (x : Q) : Q :=
  nearest_double (inject_Z (round_half_even (x * 1000)) / 1000).

(** ** The complexity classifier *)

Module QueryAnalyzer.

(** The statements of the [try] block after the model has answered:
    [json.loads], then the log line that reads both fields. *)
Definition parse (svc : services) (response : string) : result pyval :=
  rbind (json_loads svc response) (fun result0 =>
  rbind (py_getitem result0 "is_complex") (fun _ =>
  rbind (py_getitem result0 "reasoning") (fun _ =>
  Return result0))).

Definition parse_failure : pyval :=
  PyDict [("is_complex", PyBool false);
          ("reasoning", PyStr "Failed to parse response")].

Definition error_result (e : exn) : pyval :=
  PyDict [("is_complex", PyBool false);
          ("reasoning", PyStr ("Error: " ++ exn_str e))].

(** The two [except] clauses.  [response] is the local variable of that
    name: [None] while it has not been assigned.  The first clause reads
    [response.content] for its log line. *)
Definition handlers (response : option string) (e : exn) : result pyval :=
  if is_JSONDecodeError e
  then match response with
       | Some _ => Return parse_failure
       | None =>
           Raise (mkExn UnboundLocalError
             "cannot access local variable 'response' where it is not associated with a value")
       end
  else Return (error_result e).

Definition analyze (svc : services) (query : string) : M pyval :=
  fun h =>
    match invoke svc Classifier [("query", query)] h with
    | (Raise e, h1) => (handlers None e, h1)
    | (Return response, h1) =>
        match parse svc response with
        | Return result0 => (Return result0, h1)
        | Raise e => (handlers (Some response) e, h1)
        end
    end.

End QueryAnalyzer.

(** ** The query decomposer *)

Module QueryDecomposer.

(** After the model has answered: [json.loads], [result.get], and the
    log lines, which take [len(sub_questions)] and walk through it. *)
Definition parse (svc : services) (response : string) : result pyval :=
  rbind (json_loads svc response) (fun result0 =>
  rbind (py_get result0 "sub_questions" (PyList [])) (fun sub_questions =>
  rbind (py_len sub_questions) (fun _ =>
  rbind (py_iter sub_questions) (fun _ =>
  Return sub_questions)))).

(** Both [except] clauses return [[query]]; the first one reads
    [response.content] before it does. *)
Definition handlers (query : string) (response : option string) (e : exn)
  : result pyval :=
  if is_JSONDecodeError e
  then match response with
       | Some _ => Return (PyList [PyStr query])
       | None =>
           Raise (mkExn UnboundLocalError
             "cannot access local variable 'response' where it is not associated with a value")
       end
  else Return (PyList [PyStr query]).

Definition decompose (svc : services) (query : string) : M pyval :=
  fun h =>
    match invoke svc Decomposer [("query", query)] h with
    | (Raise e, h1) => (handlers query None e, h1)
    | (Return response, h1) =>
        match parse svc response with
        | Return sub_questions => (Return sub_questions, h1)
        | Raise e => (handlers query (Some response) e, h1)
        end
    end.

End QueryDecomposer.

(** ** The retriever *)

Module SemanticRetriever.

Record t : Type := mk { top_k : Z; similarity_threshold : Q }.

(** [top_k or self.top_k]. *)
Definition effective_top_k (self : t) (top_k0 : option Z) : Z :=
  match top_k0 with
  | Some n => if n =? 0 then top_k self else n
  | None => top_k self
  end.

Definition retrieve (svc : services) (self : t) (query : string)
  (top_k0 : option Z) (document_filter : option string) : M (list Chunk) :=
  let k := effective_top_k self top_k0 in
  query_embedding <- embed svc (PyStr query) ;;
  results <- search svc query_embedding k document_filter
               (similarity_threshold self) ;;
  ret results.

(** [results_by_query[query] = results]: an existing key keeps its place
    and takes the new value, a new key goes last. *)
Fixpoint dict_set (d : ResultMap) (key : string) (value : list Chunk) : ResultMap :=
  match d with
  | [] => [(key, value)]
  | (k, v) :: d' =>
      if String.eqb k key then (k, value) :: d'
      else (k, v) :: dict_set d' key value
  end.

(** What stops the loop at a query that is not a string: a list passes
    [query[:50]] and cannot be a key; any other value fails at
    [query[:50]]. *)
Definition non_string_error (query : pyval) : exn :=
  match query with
  | PyList _ => mkExn TypeError "unhashable type: 'list'"
  | PyDict _ => mkExn TypeError "unhashable type: 'slice'"
  | _ => mkExn TypeError ("'" ++ type_name query ++ "' object is not subscriptable")
  end.

(** [retrieve] and the assignment for a query that is not a string: the
    collaborators are called as usual, then the exception above ends the
    iteration. *)
Definition retrieve_non_string (svc : services) (self : t) (query : pyval)
  (top_k0 : option Z) (document_filter : option string) : M ResultMap :=
  let k := effective_top_k self top_k0 in
  query_embedding <- embed svc query ;;
  _ <- search svc query_embedding k document_filter (similarity_threshold self) ;;
  lift (Raise (non_string_error query)).

(** The loop of [retrieve_for_multiple_queries]. *)
Fixpoint retrieve_loop (svc : services) (self : t) (queries : list pyval)
  (top_k0 : option Z) (document_filter : option string)
  (results_by_query : ResultMap) : M ResultMap :=
  match queries with
  | [] => ret results_by_query
  | PyStr query :: rest =>
      results <- retrieve svc self query top_k0 document_filter ;;
      retrieve_loop svc self rest top_k0 document_filter
        (dict_set results_by_query query results)
  | query :: _ =>
      retrieve_non_string svc self query top_k0 document_filter
  end.

Definition retrieve_for_multiple_queries (svc : services) (self : t)
  (queries : list pyval) (top_k0 : option Z) (document_filter : option string)
  : M ResultMap :=
  retrieve_loop svc self queries top_k0 document_filter [].

End SemanticRetriever.

(** ** The answer synthesizer *)

Module AnswerSynthesizer.

Record Source : Type := mkSource {
  src_document_name : string;
  src_page_number : py_page;
  src_content_type : string;
  src_similarity : Q
}.

Record SynthesisResult : Type := mkResult {
  answer : string;
  sources : list Source;
  context_used : Z
}.

Definition format_source (chunk : Chunk) : Source :=
  mkSource (get_default (document_name chunk) "Unknown")
           (get_default (page_number chunk) (PgStr "N/A"))
           (get_default (content_type chunk) "text")
           (round3 (get_default (similarity chunk) 0%Q)).

(** The loop of [_format_sources], appending to [sources]. *)
Fixpoint format_sources_loop (chunks : list Chunk) (sources0 : list Source)
  : list Source :=
  match chunks with
  | [] => sources0
  | chunk :: rest => format_sources_loop rest (sources0 ++ [format_source chunk])%list
  end.

Definition _format_sources (chunks : list Chunk) : list Source :=
  format_sources_loop chunks [].

Definition error_result (e : exn) : SynthesisResult :=
  mkResult ("Error generating answer: " ++ exn_str e) [] 0.

Definition synthesize (svc : services) (question context : string)
  (sources0 : list Chunk) : M SynthesisResult :=
  fun h =>
    match invoke svc Synthesizer [("context", context); ("question", question)] h with
    | (Return response, h1) =>
        (Return (mkResult (strip response) (_format_sources sources0)
                          (Z.of_nat (List.length sources0))), h1)
    | (Raise e, h1) => (Return (error_result e), h1)
    end.

End AnswerSynthesizer.

(** ** The query endpoint *)

Module Main.

Record QueryRequest : Type := mkRequest {
  question : string;
  document_filter : option string
}.

Record QueryResponse : Type := mkResponse {
  resp_question : string;
  resp_answer : string;
  resp_is_complex : bool;
  resp_sub_questions : option (list string);
  resp_sources : list AnswerSynthesizer.Source;
  resp_total_chunks_retrieved : Z;
  resp_analysis_reasoning : pyval
}.

(** The components wired at start-up that carry settings. *)
Record components : Type := mkComponents {
  retriever : SemanticRetriever.t;
  context_aggregator : ContextAggregator.t
}.

(** [startup_event] with the default settings of [config.py]; the
    threshold is the float literal [0.7]. *)
Definition startup : components :=
  mkComponents (SemanticRetriever.mk 5 (nearest_double (7 # 10)))
               (ContextAggregator.mk 2048).

Fixpoint all_str (items : list pyval) : option (list string) :=
  match items with
  | [] => Some []
  | PyStr s :: rest => option_map (cons s) (all_str rest)
  | _ :: _ => None
  end.

(** Validation of the field [is_complex: bool]. *)
Definition validate_bool (svc : services) (v : pyval) : option bool :=
  match v with
  | PyBool b => Some b
  | _ => coerce_bool svc v
  end.

(** Validation of the field [sub_questions: Optional[List[str]]]. *)
Definition validate_sub_questions (svc : services) (v : pyval)
  : option (option (list string)) :=
  match v with
  | PyNone => Some None
  | PyList items =>
      match all_str items with
      | Some l => Some (Some l)
      | None => option_map Some (coerce_str_list svc v)
      end
  | _ => option_map Some (coerce_str_list svc v)
  end.

(** Steps 1 and 2: classify, then decompose a complex question. *)
Definition plan (svc : services) (question0 : string) : M (pyval * pyval * pyval) :=
  analysis <- QueryAnalyzer.analyze svc question0 ;;
  is_complex <- lift (py_getitem analysis "is_complex") ;;
  if truthy is_complex
  then
    sub_questions <- QueryDecomposer.decompose svc question0 ;;
    _ <- lift (py_len sub_questions) ;;
    ret (analysis, is_complex, sub_questions)
  else ret (analysis, is_complex, PyList [PyStr question0]).

(** The construction of [QueryResponse(...)]: the arguments are
    evaluated, then the fields are validated together. *)
Definition respond (svc : services) (question0 : string)
  (analysis is_complex sub_questions : pyval) (aggregated_chunks : list Chunk)
  (synthesis_result : AnswerSynthesizer.SynthesisResult) : result QueryResponse :=
  let subs_arg := if truthy is_complex then sub_questions else PyNone in
  rbind (py_getitem analysis "reasoning") (fun reasoning =>
  match validate_bool svc is_complex, validate_sub_questions svc subs_arg with
  | Some is_complex0, Some subs =>
      Return (mkResponse question0
                (AnswerSynthesizer.answer synthesis_result)
                is_complex0 subs
                (AnswerSynthesizer.sources synthesis_result)
                (Z.of_nat (List.length aggregated_chunks))
                reasoning)
  | _, _ => Raise (validation_error svc is_complex subs_arg)
  end).

(** The [try] block of [query_documents]. *)
Definition query_body (svc : services) (app : components) (request : QueryRequest)
  : M QueryResponse :=
  let question0 := question request in
  planned <- plan svc question0 ;;
  let '(analysis, is_complex, sub_questions) := planned in
  queries <- lift (py_iter sub_questions) ;;
  results_by_query <-
    SemanticRetriever.retrieve_for_multiple_queries svc (retriever app) queries
      None (document_filter request) ;;
  let aggregated_chunks :=
    ContextAggregator.aggregate (context_aggregator app) results_by_query in
  let formatted_context := ContextAggregator.format_context aggregated_chunks in
  synthesis_result <-
    AnswerSynthesizer.synthesize svc question0 formatted_context aggregated_chunks ;;
  lift (respond svc question0 analysis is_complex sub_questions aggregated_chunks
          synthesis_result).

(** [query_documents]: any exception of the block becomes a response with
    status 500. *)
Definition query_documents (svc : services) (app : components)
  (request : QueryRequest) : M QueryResponse :=
  fun h =>
    match query_body svc app request h with
    | (Return response, h') => (Return response, h')
    | (Raise e, h') =>
        (Raise (mkExn (HTTPException 500) ("Query failed: " ++ exn_str e)), h')
    end.

End Main.

(** ** Reading result maps and histories *)

(** [d.get(key)] on a result map. *)
Fixpoint dict_get (key : string) (d : ResultMap) : option (list Chunk) :=
  match d with
  | [] => None
  | (k, v) :: d' => if String.eqb k key then Some v else dict_get key d'
  end.

(** The texts handed to the embedder, in call order. *)
Fixpoint embedded_texts (evs : list event) : list pyval :=
  match evs with
  | [] => []
  | EvEmbed text :: rest => text :: embedded_texts rest
  | _ :: rest => embedded_texts rest
  end.

(** The number of searches sent to the chunk store. *)
Fixpoint search_count (evs : list event) : nat :=
  match evs with
  | [] => 0%nat
  | EvSearch _ _ _ _ :: rest => S (search_count rest)
  | _ :: rest => search_count rest
  end.

(** ** Sample data *)

Module Samples.

(** A text of [n] copies of one character. *)
Definition text_of (c : ascii) (n : nat) : string :=
  string_of_list_ascii (repeat c n).

Definition long_a : Chunk :=
  mkChunk (text_of "a" 5000) (Some "a.pdf") (Some (PgInt 1)) (Some "text")
          (Some (9 # 10)).

Definition long_b : Chunk :=
  mkChunk (text_of "b" 5000) (Some "b.pdf") (Some (PgInt 2)) (Some "text")
          (Some (8 # 10)).

(** Two chunks that do not fit together in 8192 characters. *)
Definition over_budget : ResultMap := [("q1", [long_a]); ("q2", [long_b])].

(** The content of [long_a] again, from another document and with a
    higher score. *)
Definition long_a_again : Chunk :=
  mkChunk (text_of "a" 5000) (Some "c.pdf") (Some (PgInt 7)) (Some "table")
          (Some (95 # 100)).

(** The second question finds the content of the first again, and one
    more long chunk. *)
Definition duplicated_over_budget : ResultMap :=
  [("q1", [long_a]); ("q2", [long_a_again; long_b])].

Definition same_low : Chunk :=
  mkChunk "same text" (Some "a.pdf") (Some (PgInt 4)) (Some "text") (Some (75 # 100)).

Definition same_high : Chunk :=
  mkChunk "same text" (Some "b.pdf") (Some (PgInt 9)) (Some "table") (Some (95 # 100)).

Definition other : Chunk :=
  mkChunk "other text" (Some "a.pdf") None (Some "text") (Some (8 # 10)).

Definition tie : Chunk :=
  mkChunk "tie text" (Some "c.pdf") (Some PgNone) (Some "image") (Some (4 # 5)).

(** A similarity with four decimals, and one half way between two
    decimals of three places. *)
Definition unrounded : Chunk :=
  mkChunk "unrounded" (Some "d.pdf") (Some (PgInt 3)) (Some "text")
          (Some (7126 # 10000)).

Definition half_way : Chunk :=
  mkChunk "half way" (Some "d.pdf") None (Some "table") (Some (625 # 10000)).

(** Under a budget of two tokens (eight characters): after the first
    chunk the second does not fit, the third would. *)
Definition gap : ResultMap :=
  [("q", [mkChunk "aaaaa" None None None (Some (9 # 10));
          mkChunk "bbbbbb" None None None (Some (8 # 10));
          mkChunk "cc" None None None (Some (7 # 10))])].

(** The content of [same_low] comes again, with a higher score, under the
    second question. *)
Definition duplicated : ResultMap :=
  [("What is X?", [same_low; other]); ("What is Y?", [same_high; tie])].

(** The double quote character. *)
Definition dq : string := String (ascii_of_nat 34) EmptyString.

(** The text [{"is_complex": b, "reasoning": "r"}]. *)
Definition classification_text (b r : string) : string :=
  "{" ++ dq ++ "is_complex" ++ dq ++ ": " ++ b ++ ", "
      ++ dq ++ "reasoning" ++ dq ++ ": " ++ dq ++ r ++ dq ++ "}".

Definition simple_text : string := classification_text "false" "one question".
Definition complex_text : string := classification_text "true" "two questions".

(** The text [{"sub_questions": []}]. *)
Definition empty_decomposition_text : string :=
  "{" ++ dq ++ "sub_questions" ++ dq ++ ": []}".

(** [json.loads] on the texts above; any other text is not JSON here. *)
Definition loads (s : string) : result pyval :=
  if String.eqb s simple_text then
    Return (PyDict [("is_complex", PyBool false); ("reasoning", PyStr "one question")])
  else if String.eqb s complex_text then
    Return (PyDict [("is_complex", PyBool true); ("reasoning", PyStr "two questions")])
  else if String.eqb s empty_decomposition_text then
    Return (PyDict [("sub_questions", PyList [])])
  else Raise (mkExn JSONDecodeError "Expecting value: line 1 column 1 (char 0)").

Definition connection_error : exn :=
  mkExn (OtherError "APIConnectionError") "Connection error.".

Definition decode_error : exn :=
  mkExn JSONDecodeError "Expecting value: line 1 column 1 (char 0)".

(** The store answers the first search with one chunk and every later
    search with none. *)
Definition store_once (h : history) (_ : embedding) (_ : Z) (_ : option string)
  (_ : Q) : result (list Chunk) :=
  if Nat.leb (search_count h) 0 then Return [same_low] else Return [].

(** The classifier finds the question simple, retrieval works, and the
    model call of the synthesizer fails. *)
Definition synthesis_down : services :=
  mkServices
    (fun _ a _ =>
       match a with
       | Classifier => Return simple_text
       | Decomposer => Return empty_decomposition_text
       | Synthesizer => Raise connection_error
       end)
    loads
    (fun _ _ => Return [1%Q; 0%Q])
    store_once
    (fun _ => None) (fun _ => None)
    (fun _ _ => mkExn (OtherError "ValidationError") "validation error for QueryResponse").

(** As above, with an embedder that cannot be reached. *)
Definition embedder_down : services :=
  mkServices
    (chain_invoke synthesis_down) loads
    (fun _ _ => Raise connection_error)
    store_once
    (fun _ => None) (fun _ => None)
    (validation_error synthesis_down).

(** The classifier finds the question complex and the decomposer model
    answers with an empty list. *)
Definition empty_decomposition : services :=
  mkServices
    (fun _ a _ =>
       match a with
       | Classifier => Return complex_text
       | Decomposer => Return empty_decomposition_text
       | Synthesizer => Return "The information is not available in the provided documents"
       end)
    loads
    (fun _ _ => Return [1%Q; 0%Q])
    store_once
    (fun _ => None) (fun _ => None)
    (validation_error synthesis_down).

(** The client of the language model fails to decode the body of the
    reply it received and raises [json.JSONDecodeError] itself. *)
Definition client_decode_failure : services :=
  mkServices
    (fun _ _ _ => Raise decode_error)
    loads
    (fun _ _ => Return [1%Q; 0%Q])
    store_once
    (fun _ => None) (fun _ => None)
    (validation_error synthesis_down).

Definition request : Main.QueryRequest :=
  Main.mkRequest "What is X and what is Y?" None.





End Samples.

(** ** Further notions used by the properties below *)

(** The strings of [qs] not in [seen], each once, in the order of their
    first occurrence. *)
Fixpoint first_occurrences_from (seen : list string) (qs : list string) : list string :=
  match qs with
  | [] => []
  | q :: rest =>
      if existsb (String.eqb q) seen
      then first_occurrences_from seen rest
      else q :: first_occurrences_from (seen ++ [q])%list rest
  end.

Definition first_occurrences (qs : list string) : list string :=
  first_occurrences_from [] qs.

Definition agent_eqb (a b : agent) : bool :=
  match a, b with
  | Classifier, Classifier => true
  | Decomposer, Decomposer => true
  | Synthesizer, Synthesizer => true
  | _, _ => false
  end.

(** The number of calls made to the chain of agent [a]. *)
Fixpoint invocations (a : agent) (evs : list event) : nat :=
  match evs with
  | [] => 0%nat
  | EvInvoke b _ :: rest =>
      if agent_eqb a b then S (invocations a rest) else invocations a rest
  | _ :: rest => invocations a rest
  end.

(** A value [len] and [for] accept. *)
Definition sized (v : pyval) : Prop :=
  match v with
  | PyList _ | PyStr _ | PyDict _ => True
  | _ => False
  end.

Module MoreSamples.

(** No call to the language model gets through. *)
Definition model_down : services :=
  mkServices
    (fun _ _ _ => Raise Samples.connection_error)
    Samples.loads
    (fun _ _ => Return [1%Q; 0%Q])
    Samples.store_once
    (fun _ => None) (fun _ => None)
    (validation_error Samples.synthesis_down).

(** The embedder answers the first call and fails from the second on. *)
Definition embedder_fails_later : services :=
  mkServices
    (chain_invoke Samples.synthesis_down) Samples.loads
    (fun h _ =>
       match embedded_texts h with
       | [] => Return [1%Q; 0%Q]
       | _ => Raise Samples.connection_error
       end)
    Samples.store_once
    (fun _ => None) (fun _ => None)
    (validation_error Samples.synthesis_down).

End MoreSamples.

(** ** Ingestion: chunking

    [app/ingestion/chunker.py].  A content block and the metadata of a
    chunk are dictionaries with string keys. *)

Definition pydict : Type := list (string * pyval).

(** [d[key] = value]: an existing key keeps its place. *)
Fixpoint pydict_set (d : pydict) (key : string) (value : pyval) : pydict :=
  match d with
  | [] => [(key, value)]
  | (k, v) :: d' =>
      if String.eqb k key then (k, value) :: d'
      else (k, v) :: pydict_set d' key value
  end.

(** [{**d, **extra}]: the entries of [extra] are set one after the other. *)
Definition pydict_update (d extra : pydict) : pydict :=
  fold_left (fun acc kv => pydict_set acc (fst kv) (snd kv)) extra d.

(** The argument of [**] in a dictionary display has to be a mapping. *)
Definition as_mapping (v : pyval) : result pydict :=
  match v with
  | PyDict m => Return m
  | _ => Raise (mkExn TypeError ("'" ++ type_name v ++ "' object is not a mapping"))
  end.

(** A chunk as the chunker builds it: [{'content': ..., 'metadata': {...}}]. *)
Record RawChunk : Type := mkRaw {
  raw_content : pyval;
  raw_metadata : pydict
}.

Module DocumentChunker.

(** [split_text] is the method of the text splitter held by the chunker. *)
Record t : Type := mk {
  chunk_size : Z;
  chunk_overlap : Z;
  split_text : pyval -> result (list string)
}.

(** [content_type == 'table']. *)
Definition is_table (content_type : pyval) : bool :=
  match content_type with
  | PyStr s => String.eqb s "table"
  | _ => false
  end.

(** The metadata display of a table chunk. *)
Definition table_metadata (document_name : string) (page_number content_type : pyval)
  (extra : pydict) : pydict :=
  pydict_update
    [("document_name", PyStr document_name); ("page_number", page_number);
     ("content_type", content_type); ("chunk_index", PyInt 0);
     ("is_table", PyBool true)]
    extra.

(** The metadata display of a chunk of split text. *)
Definition text_metadata (document_name : string) (page_number content_type : pyval)
  (idx : Z) (extra : pydict) : pydict :=
  pydict_update
    [("document_name", PyStr document_name); ("page_number", page_number);
     ("content_type", content_type); ("chunk_index", PyInt idx)]
    extra.

(** The loop over [enumerate(text_chunks)]; each round takes the metadata
    of the block anew. *)
Fixpoint split_loop (document_name : string) (page_number content_type : pyval)
  (block_metadata : pyval) (idx : Z) (text_chunks : list string)
  (all_chunks : list RawChunk) : result (list RawChunk) :=
  match text_chunks with
  | [] => Return all_chunks
  | chunk_text :: rest =>
      rbind (as_mapping block_metadata) (fun extra =>
      split_loop document_name page_number content_type block_metadata (idx + 1) rest
        (all_chunks
           ++ [mkRaw (PyStr chunk_text)
                 (text_metadata document_name page_number content_type idx extra)])%list)
  end.

(** One round of the loop over the content blocks. *)
Definition chunk_block (self : t) (document_name : string) (block : pydict)
  (all_chunks : list RawChunk) : result (list RawChunk) :=
  rbind (py_getitem (PyDict block) "content") (fun content0 =>
  rbind (py_getitem (PyDict block) "content_type") (fun content_type0 =>
  let page_number0 := get_default (lookup "page_number" block) PyNone in
  let block_metadata := get_default (lookup "metadata" block) (PyDict []) in
  if is_table content_type0
  then
    rbind (as_mapping block_metadata) (fun extra =>
    Return (all_chunks
              ++ [mkRaw content0
                    (table_metadata document_name page_number0 content_type0 extra)])%list)
  else
    rbind (split_text self content0) (fun text_chunks =>
    split_loop document_name page_number0 content_type0 block_metadata 0
      text_chunks all_chunks))).

Fixpoint blocks_loop (self : t) (document_name : string) (content_blocks : list pydict)
  (all_chunks : list RawChunk) : result (list RawChunk) :=
  match content_blocks with
  | [] => Return all_chunks
  | block :: rest =>
      rbind (chunk_block self document_name block all_chunks) (fun all_chunks' =>
      blocks_loop self document_name rest all_chunks')
  end.

(** [chunk['metadata']['total_chunks'] = total_chunks]. *)
Definition set_total (total_chunks : Z) (chunk : RawChunk) : RawChunk :=
  mkRaw (raw_content chunk)
        (pydict_set (raw_metadata chunk) "total_chunks" (PyInt total_chunks)).

Definition chunk_content_blocks (self : t) (content_blocks : list pydict)
  (document_name : string) : result (list RawChunk) :=
  rbind (blocks_loop self document_name content_blocks []) (fun all_chunks =>
  let total_chunks := Z.of_nat (List.length all_chunks) in
  Return (map (set_total total_chunks) all_chunks)).

End DocumentChunker.

(** ** Ingestion and search: the vector store

    [app/retrieval/vector_store.py], without the Weaviate client, whose
    calls are parameters. *)

Module WeaviateVectorStore.

(** An entry of [objects_to_insert]. *)
Record data_object : Type := mkObject {
  obj_properties : pydict;
  obj_vector : embedding
}.

(** [x or 0]. *)
Definition or_zero (x : pyval) : pyval := if truthy x then x else PyInt 0.

(** The dictionary display [data_object] of [add_chunks]. *)
Definition prepare_object (chunk : RawChunk) (vector : embedding) : result data_object :=
  let metadata := PyDict (raw_metadata chunk) in
  rbind (py_getitem metadata "document_name") (fun document_name0 =>
  let page_number0 :=
    or_zero (get_default (lookup "page_number" (raw_metadata chunk)) (PyInt 0)) in
  rbind (py_getitem metadata "content_type") (fun content_type0 =>
  rbind (py_getitem metadata "chunk_index") (fun chunk_index =>
  rbind (py_getitem metadata "total_chunks") (fun total_chunks =>
  Return (mkObject
            [("content", raw_content chunk); ("document_name", document_name0);
             ("page_number", page_number0); ("content_type", content_type0);
             ("chunk_index", chunk_index); ("total_chunks", total_chunks)]
            vector))))).

(** The loop over [zip(chunks, embeddings)]. *)
Fixpoint prepare_objects (chunks : list RawChunk) (embeddings : list embedding)
  (objects_to_insert : list data_object) : result (list data_object) :=
  match chunks, embeddings with
  | chunk :: chunks', vector :: embeddings' =>
      rbind (prepare_object chunk vector) (fun obj =>
      prepare_objects chunks' embeddings' (objects_to_insert ++ [obj])%list)
  | _, _ => Return objects_to_insert
  end.

(** [add_chunks]: [collections_get] is the outcome of
    [client.collections.get], [batch_insert] that of the batch; an
    exception is logged and raised again. *)
Definition add_chunks (collections_get : result unit)
  (batch_insert : list data_object -> result unit)
  (chunks : list RawChunk) (embeddings : list embedding) : result unit :=
  rbind collections_get (fun _ =>
  rbind (prepare_objects chunks embeddings []) (fun objects_to_insert =>
  batch_insert objects_to_insert)).

(** An object of [response.objects] with its distance. *)
Record found : Type := mkFound {
  found_content : string;
  found_document_name : string;
  found_page_number : py_page;
  found_content_type : string;
  found_distance : Q
}.

(** The loop of [search] over [response.objects]. *)
Fixpoint process_results (objects : list found) (similarity_threshold : Q)
  (results : list Chunk) : list Chunk :=
  match objects with
  | [] => results
  | obj :: rest =>
      let similarity0 := float_sub 1 (found_distance obj) in
      if Qle_bool similarity_threshold similarity0
      then process_results rest similarity_threshold
             (results
                ++ [mkChunk (found_content obj) (Some (found_document_name obj))
                      (Some (found_page_number obj)) (Some (found_content_type obj))
                      (Some similarity0)])%list
      else process_results rest similarity_threshold results
  end.

(** [if document_filter:] decides whether the query carries a filter. *)
Definition effective_filter (document_filter : option string) : option string :=
  match document_filter with
  | Some f => if String.eqb f "" then None else Some f
  | None => None
  end.

(** [search]: [near_vector] stands for getting the collection and sending
    the query to Weaviate, with the limit and the filter; an exception is
    logged and raised again. *)
Definition search
  (near_vector : embedding -> Z -> option string -> result (list found))
  (query_embedding : embedding) (top_k : Z) (document_filter : option string)
  (similarity_threshold : Q) : result (list Chunk) :=
  rbind (near_vector query_embedding top_k (effective_filter document_filter))
    (fun objects => Return (process_results objects similarity_threshold [])).

End WeaviateVectorStore.

(** ** Ingestion: extraction

    [app/ingestion/extractors.py].  What the PDF libraries deliver is a
    parameter: for each page or table either a value or the exception
    raised while it is read. *)

Module DocumentExtractor.

Definition text_block (page_num : Z) (text : string) : pydict :=
  [("content", PyStr (strip text)); ("content_type", PyStr "text");
   ("page_number", PyInt page_num);
   ("metadata", PyDict [("extraction_method", PyStr "pypdf")])].

(** The loop of [_extract_text]; an exception ends it and the blocks
    collected so far are returned. *)
Fixpoint text_loop (page_num : Z) (pages : list (result string))
  (text_blocks : list pydict) : list pydict :=
  match pages with
  | [] => text_blocks
  | Raise _ :: _ => text_blocks
  | Return text :: rest =>
      if negb (String.eqb text "") && negb (String.eqb (strip text) "")
      then text_loop (page_num + 1) rest (text_blocks ++ [text_block page_num text])%list
      else text_loop (page_num + 1) rest text_blocks
  end.

(** [reader] is the outcome of [PdfReader(pdf_path)]: the pages, each with
    the outcome of [extract_text]. *)
Definition _extract_text (reader : result (list (result string))) : list pydict :=
  match reader with
  | Return pages => text_loop 1 pages []
  | Raise _ => []
  end.

(** A data frame read by tabula. *)
Record table_df : Type := mkTable {
  df_empty : bool;
  df_markdown : result string;
  df_rows : Z;
  df_columns : Z
}.

Definition table_block (idx : Z) (markdown : string) (rows columns : Z) : pydict :=
  [("content", PyStr markdown); ("content_type", PyStr "table");
   ("page_number", PyNone);
   ("metadata",
    PyDict [("extraction_method", PyStr "tabula"); ("table_index", PyInt idx);
            ("rows", PyInt rows); ("columns", PyInt columns)])].

Fixpoint table_loop (idx : Z) (tables : list table_df) (table_blocks : list pydict)
  : list pydict :=
  match tables with
  | [] => table_blocks
  | table :: rest =>
      if df_empty table then table_loop (idx + 1) rest table_blocks
      else
        match df_markdown table with
        | Raise _ => table_blocks
        | Return markdown =>
            table_loop (idx + 1) rest
              (table_blocks
                 ++ [table_block idx markdown (df_rows table) (df_columns table)])%list
        end
  end.

Definition _extract_tables (tables : result (list table_df)) : list pydict :=
  match tables with
  | Return l => table_loop 0 l []
  | Raise _ => []
  end.

(** An entry of the [/XObject] dictionary of a page: not an image, one
    whose subtype cannot be read, or an image with the outcome of the inner
    [try] block (width, height and recognised text). *)
Inductive xobject : Type :=
| NotImage
| Unreadable (e : exn)
| ImageObject (outcome : result (pyval * pyval * string)).

(** A page as [_extract_images] sees it. *)
Inductive image_page : Type :=
| PageFault (e : exn)
| NoXObject
| XObjects (objs : list xobject).

Definition image_block (page_num : Z) (width height : pyval) (ocr_text : string)
  : pydict :=
  [("content", PyStr (strip ocr_text)); ("content_type", PyStr "image");
   ("page_number", PyInt page_num);
   ("metadata",
    PyDict [("extraction_method", PyStr "pytesseract");
            ("image_size", PyList [width; height])])].

(** The loop over the objects of one page: [inl] when an exception left
    the loops, [inr] otherwise, each with the blocks collected. *)
Fixpoint object_loop (page_num : Z) (objs : list xobject) (image_blocks : list pydict)
  : list pydict + list pydict :=
  match objs with
  | [] => inr image_blocks
  | NotImage :: rest => object_loop page_num rest image_blocks
  | Unreadable _ :: _ => inl image_blocks
  | ImageObject (Raise _) :: rest => object_loop page_num rest image_blocks
  | ImageObject (Return (width, height, ocr_text)) :: rest =>
      if negb (String.eqb ocr_text "")
         && (20 <? Z.of_nat (String.length (strip ocr_text)))
      then object_loop page_num rest
             (image_blocks ++ [image_block page_num width height ocr_text])%list
      else object_loop page_num rest image_blocks
  end.

Fixpoint image_loop (page_num : Z) (pages : list image_page) (image_blocks : list pydict)
  : list pydict :=
  match pages with
  | [] => image_blocks
  | PageFault _ :: _ => image_blocks
  | NoXObject :: rest => image_loop (page_num + 1) rest image_blocks
  | XObjects objs :: rest =>
      match object_loop page_num objs image_blocks with
      | inl blocks => blocks
      | inr blocks => image_loop (page_num + 1) rest blocks
      end
  end.

Definition _extract_images (reader : result (list image_page)) : list pydict :=
  match reader with
  | Return pages => image_loop 1 pages []
  | Raise _ => []
  end.

(** What the libraries deliver for one file. *)
Record pdf : Type := mkPdf {
  text_reader : result (list (result string));
  tabula_tables : result (list table_df);
  image_reader : result (list image_page)
}.

(** [extract_from_pdf]: the three helpers raise nothing, so neither does
    it. *)
Definition extract_from_pdf (file : pdf) : list pydict :=
  let content_blocks := [] in
  let content_blocks := (content_blocks ++ _extract_text (text_reader file))%list in
  let content_blocks := (content_blocks ++ _extract_tables (tabula_tables file))%list in
  (content_blocks ++ _extract_images (image_reader file))%list.

End DocumentExtractor.

(** ** The ingestion endpoint *)

Module Ingest.

(** [s.endswith(suffix)]. *)
Fixpoint endswith (s suffix : string) : bool :=
  String.eqb s suffix
  || match s with
     | EmptyString => false
     | String _ s' => endswith s' suffix
     end.

(** The collaborators of one call of [ingest_document]. *)
Record env : Type := mkEnv {
  save_upload : result unit;
  file : DocumentExtractor.pdf;
  chunker : DocumentChunker.t;
  encode : list pyval -> result (list embedding);
  collections_get : result unit;
  batch_insert : list WeaviateVectorStore.data_object -> result unit
}.

Record IngestResponse : Type := mkResponse {
  status : string;
  document_name : string;
  total_chunks : Z;
  message : string
}.

(** [EmbeddingGenerator.generate_embeddings]: an empty list is answered
    without the model. *)
Definition generate_embeddings (e : env) (texts : list pyval) : result (list embedding) :=
  match texts with
  | [] => Return []
  | _ => encode e texts
  end.

(** The [try] block of [ingest_document]. *)
Definition ingest_body (e : env) (filename : string) : result IngestResponse :=
  if negb (endswith filename ".pdf")
  then Raise (mkExn (HTTPException 400) "Only PDF files are supported")
  else
    rbind (save_upload e) (fun _ =>
    let content_blocks := DocumentExtractor.extract_from_pdf (file e) in
    match content_blocks with
    | [] => Raise (mkExn (HTTPException 400) "No content extracted from PDF")
    | _ =>
        rbind (DocumentChunker.chunk_content_blocks (chunker e) content_blocks filename)
          (fun chunks =>
        let chunk_texts := map raw_content chunks in
        rbind (generate_embeddings e chunk_texts) (fun embeddings =>
        rbind (WeaviateVectorStore.add_chunks (collections_get e) (batch_insert e)
                 chunks embeddings) (fun _ =>
        let n := Z.of_nat (List.length chunks) in
        Return (mkResponse "success" filename n
                  ("Successfully ingested " ++ filename ++ " with " ++ str_int n
                     ++ " chunks")))))
    end).

(** [ingest_document]: an [HTTPException] is raised again, any other
    exception becomes one with status 500. *)
Definition ingest_document (e : env) (filename : string) : result IngestResponse :=
  match ingest_body e filename with
  | Return response => Return response
  | Raise ex =>
      match class_of ex with
      | HTTPException _ => Raise ex
      | _ => Raise (mkExn (HTTPException 500) ("Ingestion failed: " ++ exn_str ex))
      end
  end.

End Ingest.

(** ** Notions used by the properties of ingestion *)

(** The chunks made of the pieces [texts] of one block, numbered from
    [idx]. *)
Fixpoint text_group (document_name : string) (page_number content_type : pyval)
  (extra : pydict) (idx : Z) (texts : list string) : list RawChunk :=
  match texts with
  | [] => []
  | chunk_text :: rest =>
      mkRaw (PyStr chunk_text)
            (DocumentChunker.text_metadata document_name page_number content_type
               idx extra)
      :: text_group document_name page_number content_type extra (idx + 1) rest
  end.

(** [group] holds the chunks made of [block], before [total_chunks] is
    set. *)
Definition block_chunks (self : DocumentChunker.t) (document_name : string)
  (block : pydict) (group : list RawChunk) : Prop :=
  exists content0 content_type0,
    lookup "content" block = Some content0 /\
    lookup "content_type" block = Some content_type0 /\
    let page_number0 := get_default (lookup "page_number" block) PyNone in
    let block_metadata := get_default (lookup "metadata" block) (PyDict []) in
    if DocumentChunker.is_table content_type0
    then
      exists extra,
        block_metadata = PyDict extra /\
        group = [mkRaw content0
                   (DocumentChunker.table_metadata document_name page_number0
                      content_type0 extra)]
    else
      exists texts,
        DocumentChunker.split_text self content0 = Return texts /\
        ((texts = [] /\ group = []) \/
         exists extra,
           block_metadata = PyDict extra /\
           group = text_group document_name page_number0 content_type0 extra 0 texts).

(** The chunk [search] builds from a found object. *)
Definition found_chunk (obj : WeaviateVectorStore.found) : Chunk :=
  mkChunk (WeaviateVectorStore.found_content obj)
          (Some (WeaviateVectorStore.found_document_name obj))
          (Some (WeaviateVectorStore.found_page_number obj))
          (Some (WeaviateVectorStore.found_content_type obj))
          (Some (float_sub 1 (WeaviateVectorStore.found_distance obj))).

(** Nearest first. *)
Definition by_distance (a b : WeaviateVectorStore.found) : Prop :=
  (WeaviateVectorStore.found_distance a <= WeaviateVectorStore.found_distance b)%Q.

(** The page number of a content block ([0] when it has none). *)
Definition block_page (block : pydict) : Z :=
  match lookup "page_number" block with
  | Some (PyInt n) => n
  | _ => 0
  end.

(** A content block as the extractor builds them: a text under
    ['content'], a string under ['content_type'] and a dictionary under
    ['metadata']. *)
Definition extracted_block (block : pydict) : Prop :=
  (exists text, lookup "content" block = Some (PyStr text)) /\
  (exists kind, lookup "content_type" block = Some (PyStr kind)) /\
  (exists extra, lookup "metadata" block = Some (PyDict extra)).

(** The keys [add_chunks] reads with a subscript. *)
Definition stored_keys : list string :=
  ["document_name"; "content_type"; "chunk_index"; "total_chunks"].

Module IngestSamples.

(** A splitter that cuts at every line feed. *)
Fixpoint lines_from (current : string) (s : string) : list string :=
  match s with
  | EmptyString => [current]
  | String c s' =>
      if Ascii.eqb c (ascii_of_nat 10)
      then current :: lines_from EmptyString s'
      else lines_from (current ++ String c EmptyString) s'
  end.

Definition line_splitter (v : pyval) : result (list string) :=
  match v with
  | PyStr s => Return (lines_from EmptyString s)
  | _ => Raise (mkExn TypeError "expected string or bytes-like object")
  end.

Definition chunker : DocumentChunker.t := DocumentChunker.mk 512 50 line_splitter.

Definition two_lines : string := "first line" ++ nl ++ "second line".

Definition page_block : pydict := DocumentExtractor.text_block 1 two_lines.

Definition table : pydict := DocumentExtractor.table_block 0 "| a | b |" 1 2.

(** Two pages of text, then a page that cannot be read. *)
Definition reader : result (list (result string)) :=
  Return [Return two_lines; Return "   "; Return " page three ";
          Raise Samples.connection_error; Return "page five"].

Definition readable : DocumentExtractor.pdf :=
  DocumentExtractor.mkPdf
    reader
    (Return [DocumentExtractor.mkTable false (Return "| a | b |") 1 2])
    (Return [DocumentExtractor.NoXObject]).

Definition unreadable : DocumentExtractor.pdf :=
  DocumentExtractor.mkPdf (Raise Samples.connection_error)
    (Raise Samples.connection_error) (Raise Samples.connection_error).

(** Everything works; every text gets the same vector. *)
Definition working : Ingest.env :=
  Ingest.mkEnv (Return tt) readable chunker
    (fun texts => Return (map (fun _ => [1%Q; 0%Q]) texts))
    (Return tt) (fun _ => Return tt).

Definition nothing_to_read : Ingest.env :=
  Ingest.mkEnv (Return tt) unreadable chunker
    (fun texts => Return (map (fun _ => [1%Q; 0%Q]) texts))
    (Return tt) (fun _ => Return tt).

Definition second_chunk : RawChunk :=
  mkRaw (PyStr "second line")
    [("document_name", PyStr "doc.pdf"); ("page_number", PyInt 1);
     ("content_type", PyStr "text"); ("chunk_index", PyInt 1);
     ("extraction_method", PyStr "pypdf"); ("total_chunks", PyInt 3)].

Definition table_chunk : RawChunk :=
  mkRaw (PyStr "| a | b |")
    [("document_name", PyStr "doc.pdf"); ("page_number", PyNone);
     ("content_type", PyStr "table"); ("chunk_index", PyInt 0);
     ("is_table", PyBool true); ("extraction_method", PyStr "tabula");
     ("table_index", PyInt 0); ("rows", PyInt 1); ("columns", PyInt 2);
     ("total_chunks", PyInt 3)].

(** The chunks of [page_block] and [table] for the file doc.pdf. *)
Definition chunked : list RawChunk :=
  [mkRaw (PyStr "first line")
     [("document_name", PyStr "doc.pdf"); ("page_number", PyInt 1);
      ("content_type", PyStr "text"); ("chunk_index", PyInt 0);
      ("extraction_method", PyStr "pypdf"); ("total_chunks", PyInt 3)];
   second_chunk; table_chunk].

Definition near : WeaviateVectorStore.found :=
  WeaviateVectorStore.mkFound "near text" "a.pdf" (PgInt 2) "text" (1 # 10).

Definition far : WeaviateVectorStore.found :=
  WeaviateVectorStore.mkFound "far text" "b.pdf" (PgInt 0) "table" (4 # 10).

End IngestSamples.

(** ** White space, on the side of the specification *)

(** The white space of Python among the code points below 256. *)
Definition white_codes : list nat :=
  [9; 10; 11; 12; 13; 28; 29; 30; 31; 32; 133; 160]%nat.

(** [s] is made of white space only. *)
Definition white (s : string) : Prop :=
  Forall (fun c => In (nat_of_ascii c) white_codes) (list_ascii_of_string s).

(** [kept] is [text] without the white space at its two ends. *)
Definition stripped_of (text kept : string) : Prop :=
  exists before after,
    text = before ++ kept ++ after /\
    white before /\ white after /\
    (forall c rest, kept = String c rest -> ~ In (nat_of_ascii c) white_codes) /\
    (forall init c, kept = init ++ String c "" -> ~ In (nat_of_ascii c) white_codes).

(** ** Doubles, on the side of the specification *)

(** [x] is a finite double. *)
Definition binary64 (x : Q) : Prop :=
  exists m e : Z, Z.abs m <= 2 ^ 53 /\ -1074 <= e /\ (x == inject_Z m * 2 ^ e)%Q.

(** [x] is a double nearest to [q]: no double is nearer. *)
Definition nearest_binary64 (q x : Q) : Prop :=
  binary64 x /\ forall y, binary64 y -> (Qabs (x - q) <= Qabs (y - q))%Q.

(** * Properties *)

(** ** Rounding and doubles *)

Section Float.
Local Open Scope Q_scope.

Lemma round_half_even_bounds (q : Q) :
  q - (1 # 2) <= inject_Z (round_half_even q) /\
  inject_Z (round_half_even q) <= q + (1 # 2).
Proof.
  unfold round_half_even.
  pose proof (Z.div_mod (Qnum q) (Zpos (Qden q)) ltac:(lia)) as Hdm.
  pose proof (Z.mod_pos_bound (Qnum q) (Zpos (Qden q)) ltac:(lia)) as Hb.
  destruct q as [n d]. cbn [Qnum Qden] in *.
  set (fl := (n / Zpos d)%Z) in *. set (r := (n mod Zpos d)%Z) in *.
  unfold Qle, Qminus, Qplus, Qopp, inject_Z. cbn [Qnum Qden].
  rewrite !Pos2Z.inj_mul.
  destruct (2 * r <? Zpos d)%Z eqn:E1.
  - apply Z.ltb_lt in E1. split; nia.
  - apply Z.ltb_ge in E1. destruct (Zpos d <? 2 * r)%Z eqn:E2.
    + apply Z.ltb_lt in E2. split; nia.
    + apply Z.ltb_ge in E2. destruct (Z.even fl); split; nia.
Qed.

Lemma round_half_even_tie (q : Q) :
  inject_Z (round_half_even q) == q + (1 # 2) \/
  inject_Z (round_half_even q) == q - (1 # 2) ->
  Z.even (round_half_even q) = true.
Proof.
  unfold round_half_even.
  pose proof (Z.div_mod (Qnum q) (Zpos (Qden q)) ltac:(lia)) as Hdm.
  pose proof (Z.mod_pos_bound (Qnum q) (Zpos (Qden q)) ltac:(lia)) as Hb.
  destruct q as [n d]. cbn [Qnum Qden] in *.
  set (fl := (n / Zpos d)%Z) in *. set (r := (n mod Zpos d)%Z) in *.
  unfold Qeq, Qminus, Qplus, Qopp, inject_Z. cbn [Qnum Qden].
  rewrite !Pos2Z.inj_mul.
  destruct (2 * r <? Zpos d)%Z eqn:E1.
  - apply Z.ltb_lt in E1. intros [H|H]; nia.
  - apply Z.ltb_ge in E1. destruct (Zpos d <? 2 * r)%Z eqn:E2.
    + apply Z.ltb_lt in E2. intros [H|H]; nia.
    + apply Z.ltb_ge in E2. destruct (Z.even fl) eqn:Ev; [intros _; exact Ev|].
      intros _. rewrite Z.even_add, Ev. reflexivity.
Qed.

Lemma inject_Z_succ_le (a b : Z) : (a < b)%Z -> inject_Z a + 1 <= inject_Z b.
Proof.
  intros H. change 1 with (inject_Z 1). rewrite <- inject_Z_plus.
  rewrite <- Zle_Qle. lia.
Qed.

Lemma round_half_even_mono (q1 q2 : Q) :
  q1 <= q2 -> (round_half_even q1 <= round_half_even q2)%Z.
Proof.
  intros Hle. destruct (Z_le_gt_dec (round_half_even q1) (round_half_even q2))
    as [H|H]; [exact H|exfalso].
  pose proof (round_half_even_bounds q1) as [_ Hu1]. pose proof (round_half_even_bounds q2) as [Hl2 _].
  assert (Hs : inject_Z (round_half_even q2) + 1 <= inject_Z (round_half_even q1))
    by (apply inject_Z_succ_le; lia).
  assert (H1 : inject_Z (round_half_even q1) == q1 + (1 # 2)) by lra.
  assert (H2 : inject_Z (round_half_even q2) == q2 - (1 # 2)) by lra.
  pose proof (round_half_even_tie q1 (or_introl H1)) as E1.
  pose proof (round_half_even_tie q2 (or_intror H2)) as E2.
  assert (Heq : inject_Z (round_half_even q1) == inject_Z (round_half_even q2 + 1)).
  { rewrite inject_Z_plus. change (inject_Z 1) with 1. lra. }
  assert (Hz : round_half_even q1 = (round_half_even q2 + 1)%Z)
    by (apply inject_Z_injective; exact Heq).
  rewrite Hz, Z.even_add, E2 in E1. discriminate.
Qed.

Lemma round_half_even_integer (q : Q) (m : Z) : q == inject_Z m -> round_half_even q = m.
Proof.
  intros Hq. pose proof (round_half_even_bounds q) as [Hl Hu].
  assert (H1 : (round_half_even q < m + 1)%Z).
  { rewrite Zlt_Qlt, inject_Z_plus. change (inject_Z 1) with 1. lra. }
  assert (H2 : (m < round_half_even q + 1)%Z).
  { rewrite Zlt_Qlt, inject_Z_plus. change (inject_Z 1) with 1. lra. }
  lia.
Qed.

(** No integer is nearer to [q] than [round_half_even q]. *)
Lemma round_half_even_nearest (q : Q) (m : Z) :
  Qabs (inject_Z (round_half_even q) - q) <= Qabs (inject_Z m - q).
Proof.
  pose proof (round_half_even_bounds q) as [Hl Hu].
  destruct (Z.lt_trichotomy m (round_half_even q)) as [H|[H|H]].
  - apply inject_Z_succ_le in H.
    apply Qabs_case; intros; apply Qabs_case; intros; lra.
  - subst m. apply Qle_refl.
  - apply inject_Z_succ_le in H.
    apply Qabs_case; intros; apply Qabs_case; intros; lra.
Qed.

Lemma pow2_pos (e : Z) : 0 < 2 ^ e.
Proof. apply Qpower_0_lt. reflexivity. Qed.

Lemma pow2_add (a b : Z) : 2 ^ (a + b) == 2 ^ a * 2 ^ b.
Proof. apply Qpower_plus. discriminate. Qed.

Lemma pow2_le (a b : Z) : (a <= b)%Z -> 2 ^ a <= 2 ^ b.
Proof. intros H. apply Qpower_le_compat_l; [exact H|discriminate]. Qed.

Lemma pow2_lt (a b : Z) : (a < b)%Z -> 2 ^ a < 2 ^ b.
Proof. intros H. apply Qpower_lt_compat_l; [exact H|reflexivity]. Qed.

Lemma pow2_lt_inv (a b : Z) : 2 ^ a < 2 ^ b -> (a < b)%Z.
Proof. intros H. apply (Qpower_lt_compat_l_inv 2); [exact H|reflexivity]. Qed.

Lemma pow2_inject (n : Z) : (0 <= n)%Z -> inject_Z (2 ^ n) == 2 ^ n.
Proof. intros H. now rewrite Zpower_Qpower. Qed.

Lemma floor_log2_spec (q : Q) :
  0 < q -> 2 ^ floor_log2 q <= q /\ q < 2 ^ (floor_log2 q + 1).
Proof.
  intros Hq. destruct q as [n d].
  assert (Hn : (0 < n)%Z) by (unfold Qlt in Hq; simpl in Hq; lia).
  pose proof (Z.log2_spec n Hn) as [Hn1 Hn2].
  pose proof (Z.log2_spec (Zpos d) ltac:(lia)) as [Hd1 Hd2].
  pose proof (Z.log2_nonneg n) as Hln. pose proof (Z.log2_nonneg (Zpos d)) as Hld.
  set (ln := Z.log2 n) in *. set (ld := Z.log2 (Zpos d)) in *.
  assert (Hpn : (0 < 2 ^ ln)%Z) by (apply Z.pow_pos_nonneg; lia).
  assert (Hpd : (0 < 2 ^ ld)%Z) by (apply Z.pow_pos_nonneg; lia).
  assert (Hup : n # d < 2 ^ (ln - ld + 1)).
  { replace (ln - ld + 1)%Z with (Z.succ ln - ld)%Z by lia.
    rewrite Qpower_minus by discriminate.
    rewrite <- (pow2_inject (Z.succ ln)), <- (pow2_inject ld) by lia.
    apply Qlt_shift_div_l.
    - rewrite <- (Zlt_Qlt 0). exact Hpd.
    - unfold Qlt, Qmult, inject_Z. cbn [Qnum Qden]. rewrite Pos2Z.inj_mul. nia. }
  assert (Hlow : 2 ^ (ln - ld - 1) < n # d).
  { replace (ln - ld - 1)%Z with (ln - Z.succ ld)%Z by lia.
    rewrite Qpower_minus by discriminate.
    rewrite <- (pow2_inject ln), <- (pow2_inject (Z.succ ld)) by lia.
    apply Qlt_shift_div_r.
    - rewrite <- (Zlt_Qlt 0). apply Z.pow_pos_nonneg; lia.
    - unfold Qlt, Qmult, inject_Z. cbn [Qnum Qden]. nia. }
  unfold floor_log2. cbn [Qnum Qden]. fold ln ld.
  destruct (Qle_bool (2 ^ (ln - ld)) (n # d)) eqn:E.
  - apply Qle_bool_iff in E. split; assumption.
  - split; [now apply Qlt_le_weak|].
    replace (ln - ld - 1 + 1)%Z with (ln - ld)%Z by lia.
    apply Qnot_le_lt. intros H. apply Qle_bool_iff in H. congruence.
Qed.

Lemma floor_log2_mono (q1 q2 : Q) :
  0 < q1 -> q1 <= q2 -> (floor_log2 q1 <= floor_log2 q2)%Z.
Proof.
  intros H1 Hle.
  destruct (floor_log2_spec q1 H1) as [Hl1 _].
  destruct (floor_log2_spec q2 (Qlt_le_trans _ _ _ H1 Hle)) as [_ Hu2].
  assert (H : 2 ^ floor_log2 q1 < 2 ^ (floor_log2 q2 + 1)).
  { eapply Qle_lt_trans; [exact Hl1|]. eapply Qle_lt_trans; eassumption. }
  apply pow2_lt_inv in H. lia.
Qed.

Lemma grid_mono (e : Z) (q1 q2 : Q) :
  q1 <= q2 -> round_to_grid e q1 <= round_to_grid e q2.
Proof.
  intros H. unfold round_to_grid.
  apply Qmult_le_compat_r; [|apply Qlt_le_weak, pow2_pos].
  rewrite <- Zle_Qle. apply round_half_even_mono.
  unfold Qdiv. apply Qmult_le_compat_r; [exact H|].
  apply Qlt_le_weak, Qinv_lt_0_compat, pow2_pos.
Qed.

Lemma pow2_neq (e : Z) : ~ 2 ^ e == 0.
Proof. intros H. pose proof (pow2_pos e) as Hp. rewrite H in Hp. discriminate. Qed.

(** A point of a coarser grid is a point of the finer grid. *)
Lemma grid_fix (e e' : Z) (x : Q) (m : Z) :
  (e <= e')%Z -> x == inject_Z m * 2 ^ e' -> round_to_grid e x == x.
Proof.
  intros He Hx. unfold round_to_grid.
  assert (Hp : 2 ^ e' == inject_Z (2 ^ (e' - e)) * 2 ^ e).
  { rewrite pow2_inject by lia. rewrite <- pow2_add. now replace (e' - e + e)%Z with e' by lia. }
  assert (Ht : x / 2 ^ e == inject_Z (m * 2 ^ (e' - e))).
  { rewrite Hx, Hp, inject_Z_mult. field. apply pow2_neq. }
  rewrite (round_half_even_integer _ _ Ht), Hx, Hp, inject_Z_mult. ring.
Qed.

Lemma Qabs_scale (a p : Q) : 0 <= p -> Qabs (a * p) == Qabs a * p.
Proof. intros Hp. rewrite Qabs_Qmult, (Qabs_pos p Hp). reflexivity. Qed.

(** No point of the grid is nearer. *)
Lemma grid_nearest (e : Z) (q : Q) (m : Z) :
  Qabs (round_to_grid e q - q) <= Qabs (inject_Z m * 2 ^ e - q).
Proof.
  unfold round_to_grid. pose proof (pow2_pos e) as Hp.
  pose proof (round_half_even_nearest (q / 2 ^ e) m) as H.
  assert (Hq : forall z, inject_Z z * 2 ^ e - q == (inject_Z z - q / 2 ^ e) * 2 ^ e).
  { intros z. field. apply pow2_neq. }
  rewrite !Hq, !Qabs_scale by (now apply Qlt_le_weak).
  apply Qmult_le_compat_r; [exact H|now apply Qlt_le_weak].
Qed.

Lemma nearest_positive_zero (q : Q) : q == 0 -> nearest_positive q == 0.
Proof.
  intros Hq. unfold nearest_positive.
  apply Qeq_trans with q; [|exact Hq].
  apply (grid_fix _ (Z.max (-1074) (floor_log2 q - 52)) q 0); [lia|].
  apply Qeq_trans with 0; [exact Hq|ring].
Qed.

Lemma nearest_positive_nonneg (q : Q) : 0 <= q -> 0 <= nearest_positive q.
Proof.
  intros Hq. unfold nearest_positive.
  set (e := Z.max (-1074) (floor_log2 q - 52)).
  assert (H0 : round_to_grid e 0 == 0).
  { apply (grid_fix e e 0 0); [lia|ring]. }
  rewrite <- H0. now apply grid_mono.
Qed.

Lemma nearest_positive_mono (q1 q2 : Q) :
  0 < q1 -> q1 <= q2 -> nearest_positive q1 <= nearest_positive q2.
Proof.
  intros H1 Hle. unfold nearest_positive.
  pose proof (floor_log2_mono q1 q2 H1 Hle) as Hf.
  set (e1 := Z.max (-1074) (floor_log2 q1 - 52)).
  set (e2 := Z.max (-1074) (floor_log2 q2 - 52)).
  destruct (Z.eq_dec e1 e2) as [Heq|Hne].
  - rewrite Heq. now apply grid_mono.
  - assert (He : (e1 < e2)%Z) by lia.
    assert (He2 : e2 = (floor_log2 q2 - 52)%Z) by lia.
    destruct (floor_log2_spec q1 H1) as [_ Hu1].
    destruct (floor_log2_spec q2 (Qlt_le_trans _ _ _ H1 Hle)) as [Hl2 _].
    set (b := 2 ^ floor_log2 q2) in *.
    assert (Hb1 : q1 <= b).
    { apply Qlt_le_weak. eapply Qlt_le_trans; [exact Hu1|]. apply pow2_le. lia. }
    assert (Hbm : b == inject_Z 1 * 2 ^ floor_log2 q2) by (unfold b; ring).
    apply Qle_trans with b.
    + rewrite <- (grid_fix e1 (floor_log2 q2) b 1 ltac:(lia) Hbm).
      now apply grid_mono.
    + rewrite <- (grid_fix e2 (floor_log2 q2) b 1 ltac:(lia) Hbm) at 1.
      now apply grid_mono.
Qed.

Lemma nearest_double_mono (q1 q2 : Q) :
  q1 <= q2 -> nearest_double q1 <= nearest_double q2.
Proof.
  intros Hle. unfold nearest_double.
  destruct (Qle_bool 0 q1) eqn:E1; destruct (Qle_bool 0 q2) eqn:E2.
  - apply Qle_bool_iff in E1, E2.
    destruct (Qlt_le_dec 0 q1) as [Hp|Hz].
    + now apply nearest_positive_mono.
    + rewrite (nearest_positive_zero q1) by (apply Qle_antisym; assumption).
      now apply nearest_positive_nonneg.
  - apply Qle_bool_iff in E1. exfalso.
    assert (H : 0 <= q2) by (eapply Qle_trans; eassumption).
    apply Qle_bool_iff in H. congruence.
  - apply Qle_bool_iff in E2.
    assert (H1 : q1 < 0).
    { apply Qnot_le_lt. intros H. apply Qle_bool_iff in H. congruence. }
    pose proof (nearest_positive_nonneg (- q1) ltac:(lra)) as Hn1.
    pose proof (nearest_positive_nonneg q2 E2) as Hn2. lra.
  - assert (H2 : q2 < 0).
    { apply Qnot_le_lt. intros H. apply Qle_bool_iff in H. congruence. }
    pose proof (nearest_positive_mono (- q2) (- q1) ltac:(lra) ltac:(lra)). lra.
Qed.

Lemma binary64_opp (x : Q) : binary64 x -> binary64 (- x).
Proof.
  intros (m & e & Hm & He & Hx). exists (- m)%Z, e.
  split; [lia|]. split; [exact He|].
  rewrite Hx, inject_Z_opp. ring.
Qed.

Lemma binary64_zero (x : Q) : x == 0 -> binary64 x.
Proof.
  intros Hx. exists 0%Z, 0%Z. split; [simpl; lia|]. split; [lia|].
  rewrite Hx. reflexivity.
Qed.

Lemma round_half_even_zero : round_half_even 0 = 0%Z.
Proof. apply round_half_even_integer. reflexivity. Qed.

Lemma nearest_positive_binary64 (q : Q) : 0 < q -> binary64 (nearest_positive q).
Proof.
  intros Hq. unfold nearest_positive.
  set (e := Z.max (-1074) (floor_log2 q - 52)).
  exists (round_half_even (q / 2 ^ e)), e.
  pose proof (pow2_pos e) as Hp.
  destruct (floor_log2_spec q Hq) as [_ Hu].
  split; [|split; [lia|reflexivity]].
  assert (H0 : (0 <= round_half_even (q / 2 ^ e))%Z).
  { rewrite <- round_half_even_zero. apply round_half_even_mono.
    apply Qle_shift_div_l; [exact Hp|]. lra. }
  assert (H1 : (round_half_even (q / 2 ^ e) <= 2 ^ 53)%Z).
  { rewrite <- (round_half_even_integer (inject_Z (2 ^ 53)) (2 ^ 53)) by reflexivity.
    apply round_half_even_mono. apply Qle_shift_div_r; [exact Hp|].
    rewrite pow2_inject by lia. rewrite <- pow2_add.
    apply Qlt_le_weak. eapply Qlt_le_trans; [exact Hu|]. apply pow2_le. lia. }
  lia.
Qed.

Lemma nearest_positive_nearest (q y : Q) :
  0 < q -> binary64 y -> Qabs (nearest_positive q - q) <= Qabs (y - q).
Proof.
  intros Hq (my & ey & Hmy & Hey & Hy). unfold nearest_positive.
  set (e := Z.max (-1074) (floor_log2 q - 52)).
  destruct (Z_le_gt_dec e ey) as [Hge|Hlt].
  - assert (Hy' : y == inject_Z (my * 2 ^ (ey - e)) * 2 ^ e).
    { rewrite Hy, inject_Z_mult, pow2_inject by lia.
      rewrite <- Qmult_assoc, <- pow2_add.
      now replace (ey - e + e)%Z with ey by lia. }
    rewrite Hy'. apply grid_nearest.
  - assert (He : e = (floor_log2 q - 52)%Z) by lia.
    destruct (floor_log2_spec q Hq) as [Hl _].
    set (b := 2 ^ floor_log2 q) in *.
    assert (Hb : b == inject_Z (2 ^ 52) * 2 ^ e).
    { unfold b. rewrite pow2_inject by lia. rewrite <- pow2_add.
      now replace (52 + e)%Z with (floor_log2 q) by lia. }
    assert (Hyb : y <= b).
    { rewrite Hy. apply Qle_trans with (inject_Z (2 ^ 53) * 2 ^ ey).
      - apply Qmult_le_compat_r; [|apply Qlt_le_weak, pow2_pos].
        rewrite <- Zle_Qle. lia.
      - unfold b. rewrite pow2_inject by lia. rewrite <- pow2_add.
        apply pow2_le. lia. }
    eapply Qle_trans; [apply (grid_nearest e q (2 ^ 52))|].
    rewrite <- Hb.
    rewrite (Qabs_neg (b - q)) by lra. rewrite (Qabs_neg (y - q)) by lra. lra.
Qed.

(** [nearest_double] returns a double, and no double is nearer. *)
Lemma nearest_double_nearest (q : Q) : nearest_binary64 q (nearest_double q).
Proof.
  unfold nearest_binary64, nearest_double.
  destruct (Qle_bool 0 q) eqn:E.
  - apply Qle_bool_iff in E. destruct (Qlt_le_dec 0 q) as [Hp|Hz].
    + split; [now apply nearest_positive_binary64|].
      intros y Hy. now apply nearest_positive_nearest.
    + assert (H0 : q == 0) by (apply Qle_antisym; assumption).
      pose proof (nearest_positive_zero q H0) as Hn.
      split; [now apply binary64_zero|].
      intros y _. rewrite Hn, H0. setoid_replace (0 - 0) with 0 by ring.
      apply (Qabs_nonneg (y - 0)).
  - assert (Hq : 0 < - q).
    { assert (q < 0); [|lra].
      apply Qnot_le_lt. intros H. apply Qle_bool_iff in H. congruence. }
    split; [now apply binary64_opp, nearest_positive_binary64|].
    intros y Hy.
    pose proof (nearest_positive_nearest (- q) (- y) Hq (binary64_opp y Hy)) as H.
    setoid_replace (- nearest_positive (- q) - q)
      with (- (nearest_positive (- q) - - q)) by ring.
    setoid_replace (y - q) with (- (- y - - q)) by ring.
    now rewrite !Qabs_opp.
Qed.

(** Two nearest doubles of one rational are equally near. *)
Lemma nearest_binary64_distance (q x y : Q) :
  nearest_binary64 q x -> nearest_binary64 q y -> Qabs (x - q) == Qabs (y - q).
Proof.
  intros [Hx Hxn] [Hy Hyn]. apply Qle_antisym; auto.
Qed.

Lemma nearest_double_fix (x : Q) : binary64 x -> nearest_double x == x.
Proof.
  intros Hx. destruct (nearest_double_nearest x) as [_ Hn].
  assert (H : Qabs (nearest_double x - x) <= 0).
  { eapply Qle_trans; [apply Hn, Hx|].
    setoid_replace (x - x) with 0 by ring. apply Qle_refl. }
  revert H. apply Qabs_case; intros; lra.
Qed.

Lemma grid_error (e : Z) (q : Q) :
  Qabs (round_to_grid e q - q) <= 2 ^ e / 2.
Proof.
  unfold round_to_grid. pose proof (pow2_pos e) as Hp.
  destruct (round_half_even_bounds (q / 2 ^ e)) as [Hl Hu].
  assert (Hq : inject_Z (round_half_even (q / 2 ^ e)) * 2 ^ e - q
               == (inject_Z (round_half_even (q / 2 ^ e)) - q / 2 ^ e) * 2 ^ e).
  { field. apply pow2_neq. }
  rewrite Hq, Qabs_scale by (now apply Qlt_le_weak).
  setoid_replace (2 ^ e / 2) with ((1 # 2) * 2 ^ e) by field.
  apply Qmult_le_compat_r; [|now apply Qlt_le_weak].
  apply Qabs_case; intros; lra.
Qed.

(** On the unit interval the nearest double is within [2 ^ -53]. *)
Lemma nearest_double_unit_error (q : Q) :
  0 <= q <= 1 -> Qabs (nearest_double q - q) <= 2 ^ (-53).
Proof.
  intros [H0 H1]. unfold nearest_double.
  apply Qle_bool_iff in H0 as Hb. rewrite Hb.
  destruct (Qlt_le_dec 0 q) as [Hp|Hz].
  - unfold nearest_positive.
    set (e := Z.max (-1074) (floor_log2 q - 52)).
    destruct (floor_log2_spec q Hp) as [Hl _].
    assert (Hf : (floor_log2 q <= 0)%Z).
    { assert (H : 2 ^ floor_log2 q < 2 ^ 1).
      { eapply Qle_lt_trans; [exact Hl|]. eapply Qle_lt_trans; [exact H1|]. reflexivity. }
      apply pow2_lt_inv in H. lia. }
    eapply Qle_trans; [apply grid_error|].
    setoid_replace (2 ^ e / 2) with (2 ^ e * 2 ^ (-1)) by (simpl; field).
    rewrite <- pow2_add. apply pow2_le. lia.
  - assert (Hq : q == 0) by (apply Qle_antisym; assumption).
    rewrite (nearest_positive_zero q Hq), Hq. vm_compute. discriminate.
Qed.

Lemma nearest_double_zero : nearest_double 0 == 0.
Proof. apply nearest_double_fix, binary64_zero. reflexivity. Qed.

Lemma nearest_double_one : nearest_double 1 == 1.
Proof.
  apply nearest_double_fix. exists 1%Z, 0%Z.
  split; [simpl; lia|]. split; [lia|reflexivity].
Qed.

Lemma nearest_double_unit (q : Q) :
  0 <= q <= 1 -> 0 <= nearest_double q <= 1.
Proof.
  intros [H0 H1]. split.
  - rewrite <- nearest_double_zero. now apply nearest_double_mono.
  - rewrite <- nearest_double_one. now apply nearest_double_mono.
Qed.

Lemma nearest_double_wd (q1 q2 : Q) : q1 == q2 -> nearest_double q1 == nearest_double q2.
Proof.
  intros H. apply Qle_antisym; apply nearest_double_mono; rewrite H; apply Qle_refl.
Qed.

(** [round(x, 3)] is the double nearest to a decimal [k / 1000] that is
    nearest to [x], with [k] even when [x] lies half way. *)
Lemma round3_spec (x : Q) :
  exists k : Z,
    Qabs (inject_Z k / 1000 - x) <= 1 # 2000 /\
    (Qabs (inject_Z k / 1000 - x) == 1 # 2000 -> Z.even k = true) /\
    nearest_binary64 (inject_Z k / 1000) (round3 x).
Proof.
  exists (round_half_even (x * 1000)).
  destruct (round_half_even_bounds (x * 1000)) as [Hl Hu].
  assert (Hd : inject_Z (round_half_even (x * 1000)) / 1000
               == inject_Z (round_half_even (x * 1000)) * (1 # 1000))
    by reflexivity.
  split; [|split].
  - rewrite Hd. apply Qabs_case; intros _; lra.
  - rewrite Hd. intros Heq. apply round_half_even_tie.
    revert Heq. apply Qabs_case; intros _ Heq; [left|right]; lra.
  - apply nearest_double_nearest.
Qed.

End Float.


(** ** Deduplication *)

Section Deduplication.

Import ContextAggregator.

Lemma seen_In (s : string) (l : list string) : seen s l = true <-> In s l.
Proof.
  unfold seen. rewrite existsb_exists. split.
  - intros [x [Hin Heq]]. apply String.eqb_eq in Heq. now subst.
  - intros Hin. exists s. split; [assumption | apply String.eqb_refl].
Qed.

Lemma nested_loops_flatten (results : ResultMap) (st : list string * list Chunk) :
  fold_left (fun st0 (item : string * list Chunk) =>
               fold_left collect_chunk (snd item) st0) results st
  = fold_left collect_chunk (flatten results) st.
Proof.
  revert st. induction results as [|item results IH]; intros st.
  - reflexivity.
  - unfold flatten in *. simpl. rewrite fold_left_app. apply IH.
Qed.

Lemma collect_flatten (results : ResultMap) : collect results = run (flatten results).
Proof. unfold collect, run. apply nested_loops_flatten. Qed.

Lemma run_snoc (p : list Chunk) (x : Chunk) :
  run (p ++ [x]) = collect_chunk (run p) x.
Proof. unfold run. now rewrite fold_left_app. Qed.

Lemma find_app_l {A : Type} (f : A -> bool) (l1 l2 : list A) (a : A) :
  find f l1 = Some a -> find f (l1 ++ l2) = Some a.
Proof.
  induction l1 as [|y l1 IH]; simpl; [discriminate|].
  destruct (f y); [trivial | exact IH].
Qed.

Lemma find_app_r {A : Type} (f : A -> bool) (l1 l2 : list A) :
  (forall y, In y l1 -> f y = false) -> find f (l1 ++ l2) = find f l2.
Proof.
  induction l1 as [|y l1 IH]; simpl; intros H; [reflexivity|].
  rewrite (H y (or_introl eq_refl)). apply IH. intros z Hz. apply H. now right.
Qed.

Lemma content_not_in (s : string) (p : list Chunk) :
  ~ In s (map content p) ->
  forall y, In y p -> String.eqb (content y) s = false.
Proof.
  intros Hn y Hy. apply String.eqb_neq. intros Heq. apply Hn.
  rewrite <- Heq. now apply in_map.
Qed.

(** What the loops maintain: [seen_content] is the set of contents kept,
    no content is kept twice, each kept chunk is the first chunk of its
    content, and no content is lost. *)
Lemma run_invariant (p : list Chunk) :
  (forall s, In s (fst (run p)) <-> In s (map content (snd (run p)))) /\
  NoDup (map content (snd (run p))) /\
  (forall c, In c (snd (run p)) -> first_with_content (content c) p = Some c) /\
  (forall s, In s (map content p) <-> In s (map content (snd (run p)))).
Proof.
  induction p as [|x p IH] using rev_ind.
  - cbn. repeat split; try tauto. constructor.
  - destruct IH as (Hseen & Hnd & Hfirst & Hall).
    rewrite run_snoc. destruct (run p) as [sn al] eqn:Erun.
    cbn [fst snd] in *. unfold collect_chunk.
    destruct (seen (content x) sn) eqn:Es; cbn [fst snd].
    + apply seen_In in Es. repeat split; try assumption; try apply Hseen.
      * intros c Hc. apply find_app_l. now apply Hfirst.
      * rewrite map_app, in_app_iff. cbn. intros [H|[H|[]]].
        -- now apply Hall.
        -- subst s. now apply Hseen.
      * intros H. rewrite map_app, in_app_iff. left. now apply Hall.
    + assert (Hnot : ~ In (content x) (map content al)).
      { intros H. apply Hseen, seen_In in H. congruence. }
      repeat split.
      * cbn. rewrite map_app, in_app_iff. cbn. rewrite Hseen. tauto.
      * rewrite map_app, in_app_iff. cbn. intros [H|[H|[]]].
        -- right. now apply Hseen.
        -- now left.
      * rewrite map_app. cbn.
        apply (Permutation_NoDup (l := content x :: map content al)).
        -- apply Permutation_cons_append.
        -- now constructor.
      * intros c Hc. apply in_app_iff in Hc. destruct Hc as [Hc|[Hc|[]]].
        -- apply find_app_l. now apply Hfirst.
        -- subst c. unfold first_with_content. rewrite find_app_r.
           ++ cbn. now rewrite String.eqb_refl.
           ++ apply content_not_in. intros H. apply Hnot. now apply Hall.
      * rewrite !map_app, !in_app_iff. cbn. rewrite Hall. tauto.
      * rewrite !map_app, !in_app_iff. cbn. rewrite Hall. tauto.
Qed.

Lemma deduplicated_run (results : ResultMap) :
  deduplicated results = snd (run (flatten results)).
Proof. unfold deduplicated. now rewrite collect_flatten. Qed.

Lemma deduplicated_NoDup (results : ResultMap) :
  NoDup (map content (deduplicated results)).
Proof. rewrite deduplicated_run. apply run_invariant. Qed.

Lemma deduplicated_first (results : ResultMap) (c : Chunk) :
  In c (deduplicated results) ->
  first_with_content (content c) (flatten results) = Some c.
Proof. rewrite deduplicated_run. apply run_invariant. Qed.

Lemma deduplicated_complete (results : ResultMap) (s : string) :
  In s (map content (flatten results)) <-> In s (map content (deduplicated results)).
Proof. rewrite deduplicated_run. apply run_invariant. Qed.

End Deduplication.

(** ** Sorting *)

Section Sorting.

Import ContextAggregator.

Lemma insert_desc_perm (x : Chunk) (l : list Chunk) :
  Permutation (insert_desc x l) (x :: l).
Proof.
  induction l as [|y l IH]; simpl.
  - apply Permutation_refl.
  - destruct (Qlt_le_dec (sort_key x) (sort_key y)).
    + eapply perm_trans; [apply perm_skip, IH | apply perm_swap].
    + apply Permutation_refl.
Qed.

Lemma sort_desc_perm (l : list Chunk) : Permutation (sort_desc l) l.
Proof.
  induction l as [|x l IH]; simpl.
  - apply perm_nil.
  - eapply perm_trans; [apply insert_desc_perm | now apply perm_skip].
Qed.

Lemma insert_desc_sorted (x : Chunk) (l : list Chunk) :
  StronglySorted descending l -> StronglySorted descending (insert_desc x l).
Proof.
  induction l as [|y l IH]; simpl; intros Hs.
  - repeat constructor.
  - inversion Hs as [|? ? Hl Hy]; subst.
    destruct (Qlt_le_dec (sort_key x) (sort_key y)) as [Hlt|Hle].
    + constructor; [now apply IH|].
      apply Forall_forall. intros z Hz.
      apply (Permutation_in _ (insert_desc_perm x l)) in Hz.
      destruct Hz as [Hz|Hz].
      * subst z. unfold descending. now apply Qlt_le_weak.
      * rewrite Forall_forall in Hy. now apply Hy.
    + constructor; [assumption|].
      constructor; [exact Hle|].
      apply Forall_forall. intros z Hz. rewrite Forall_forall in Hy.
      unfold descending in *. eapply Qle_trans; [apply (Hy z Hz) | exact Hle].
Qed.

Lemma sort_desc_sorted (l : list Chunk) : StronglySorted descending (sort_desc l).
Proof.
  induction l as [|x l IH]; simpl.
  - constructor.
  - now apply insert_desc_sorted.
Qed.

(** Inserting does not change the order among chunks of one key. *)
Lemma with_key_insert (s : Q) (x : Chunk) (l : list Chunk) :
  with_key s (insert_desc x l) = with_key s (x :: l).
Proof.
  induction l as [|y l IH]; [reflexivity|].
  simpl insert_desc.
  destruct (Qlt_le_dec (sort_key x) (sort_key y)) as [Hlt|Hle]; [|reflexivity].
  unfold with_key in *. simpl in *. rewrite IH.
  destruct (Qeq_bool (sort_key y) s) eqn:Ey;
    destruct (Qeq_bool (sort_key x) s) eqn:Ex; try reflexivity.
  apply Qeq_bool_iff in Ey, Ex. exfalso.
  apply (Qlt_irrefl s). rewrite <- Ex at 1. now rewrite <- Ey.
Qed.

(** Stability: the chunks of one key come out in the order they went in. *)
Lemma sort_desc_stable (s : Q) (l : list Chunk) :
  with_key s (sort_desc l) = with_key s l.
Proof.
  induction l as [|x l IH]; [reflexivity|].
  simpl sort_desc. rewrite with_key_insert.
  unfold with_key in *. simpl. now rewrite IH.
Qed.

Lemma with_key_app (s : Q) (l1 l2 : list Chunk) :
  with_key s (l1 ++ l2) = (with_key s l1 ++ with_key s l2)%list.
Proof. apply filter_app. Qed.

(** A list whose filtered image shows [a] has [a] at the matching place. *)
Lemma filter_split {A : Type} (f : A -> bool) (l f1 f2 : list A) (a : A) :
  filter f l = (f1 ++ a :: f2)%list ->
  exists m1 m2, l = (m1 ++ a :: m2)%list /\ filter f m1 = f1 /\ filter f m2 = f2.
Proof.
  revert f1. induction l as [|y l IH]; intros f1 H; simpl in H.
  - destruct f1; discriminate.
  - destruct (f y) eqn:Ey.
    + destruct f1 as [|z f1]; simpl in H.
      * injection H as -> Hf. exists [], l. simpl. auto.
      * injection H as -> Hf. destruct (IH f1 Hf) as (m1 & m2 & -> & H1 & H2).
        exists (z :: m1), m2. simpl. rewrite Ey, H1. auto.
    + destruct (IH f1 H) as (m1 & m2 & -> & H1 & H2).
      exists (y :: m1), m2. simpl. rewrite Ey. auto.
Qed.

End Sorting.

(** ** Packing *)

Section Packing.

Import ContextAggregator.

Lemma chunk_chars_nonneg (c : Chunk) : 0 <= chunk_chars c.
Proof. unfold chunk_chars. lia. Qed.

Lemma total_chars_nonneg (l : list Chunk) : 0 <= total_chars l.
Proof.
  induction l as [|c l IH]; simpl; [lia|].
  pose proof (chunk_chars_nonneg c). lia.
Qed.

Lemma total_chars_app (l1 l2 : list Chunk) :
  total_chars (l1 ++ l2) = total_chars l1 + total_chars l2.
Proof. induction l1 as [|c l1 IH]; simpl; lia. Qed.

Lemma total_chars_perm (l1 l2 : list Chunk) :
  Permutation l1 l2 -> total_chars l1 = total_chars l2.
Proof. induction 1; simpl; lia. Qed.

(** The loop keeps an initial segment and stops at the first chunk that
    does not fit. *)
Lemma pack_spec (max_chars : Z) (l : list Chunk) :
  forall (total : Z) (acc : list Chunk),
  exists taken rest,
    l = (taken ++ rest)%list /\
    pack max_chars total acc l = (acc ++ taken)%list /\
    (total <= max_chars -> total + total_chars taken <= max_chars) /\
    match rest with
    | [] => True
    | c :: _ => max_chars < total + total_chars taken + chunk_chars c
    end.
Proof.
  induction l as [|c l IH]; intros total acc.
  - exists [], []. simpl. rewrite app_nil_r. repeat split; lia.
  - simpl. destruct (total + chunk_chars c <=? max_chars) eqn:E.
    + apply Z.leb_le in E.
      destruct (IH (total + chunk_chars c) (acc ++ [c])%list)
        as (taken & rest & -> & Hp & Hb & Hr).
      exists (c :: taken), rest. simpl. repeat split.
      * rewrite Hp, <- app_assoc. reflexivity.
      * intros _. specialize (Hb E). lia.
      * destruct rest; [trivial|]. lia.
    + apply Z.leb_gt in E.
      exists [], (c :: l). simpl. rewrite app_nil_r. repeat split; lia.
Qed.

Lemma pack_all (max_chars : Z) (l : list Chunk) :
  forall (total : Z) (acc : list Chunk),
  total + total_chars l <= max_chars ->
  pack max_chars total acc l = (acc ++ l)%list.
Proof.
  induction l as [|c l IH]; intros total acc H; simpl in *.
  - now rewrite app_nil_r.
  - pose proof (total_chars_nonneg l).
    destruct (total + chunk_chars c <=? max_chars) eqn:E.
    + rewrite IH by lia. now rewrite <- app_assoc.
    + apply Z.leb_gt in E. lia.
Qed.

(** The result of [aggregate] is an initial segment of the sorted
    deduplicated chunks. *)
Lemma aggregate_prefix (self : t) (results : ResultMap) :
  exists rest,
    sort_desc (deduplicated results) = (aggregate self results ++ rest)%list /\
    (0 <= max_context_tokens self * 4 ->
     total_chars (aggregate self results) <= max_context_tokens self * 4) /\
    match rest with
    | [] => True
    | c :: _ =>
        max_context_tokens self * 4
        < total_chars (aggregate self results) + chunk_chars c
    end.
Proof.
  unfold aggregate.
  destruct (pack_spec (max_context_tokens self * 4)
              (sort_desc (deduplicated results)) 0 [])
    as (taken & rest & Hl & Hp & Hb & Hr).
  rewrite Hp. simpl. exists rest. repeat split.
  - exact Hl.
  - intros H. specialize (Hb H). lia.
  - destruct rest; [trivial|]. lia.
Qed.

End Packing.

(** ** The aggregator: claims *)

Section AggregatorClaims.

Import ContextAggregator.

Lemma StronglySorted_app_l {A : Type} (R : A -> A -> Prop) (l1 l2 : list A) :
  StronglySorted R (l1 ++ l2) -> StronglySorted R l1.
Proof.
  induction l1 as [|x l1 IH]; simpl; intros H; [constructor|].
  inversion H as [|? ? Hs Hf]; subst. constructor; [now apply IH|].
  apply Forall_app in Hf. tauto.
Qed.

Lemma NoDup_map_perm (l1 l2 : list Chunk) :
  Permutation l1 l2 -> NoDup (map content l1) -> NoDup (map content l2).
Proof. intros Hp. apply Permutation_NoDup. now apply Permutation_map. Qed.

Lemma aggregate_incl_deduplicated (self : t) (results : ResultMap) (c : Chunk) :
  In c (aggregate self results) -> In c (deduplicated results).
Proof.
  intros Hc. destruct (aggregate_prefix self results) as (rest & Hs & _).
  apply (Permutation_in _ (sort_desc_perm (deduplicated results))).
  rewrite Hs. apply in_app_iff. now left.
Qed.

Lemma aggregate_NoDup (self : t) (results : ResultMap) :
  NoDup (map content (aggregate self results)).
Proof.
  destruct (aggregate_prefix self results) as (rest & Hs & _).
  assert (H : NoDup (map content (sort_desc (deduplicated results)))).
  { apply (NoDup_map_perm (deduplicated results)).
    - apply Permutation_sym, sort_desc_perm.
    - apply deduplicated_NoDup. }
  rewrite Hs, map_app in H. now apply NoDup_app_remove_r in H.
Qed.

Lemma aggregate_within_budget (self : t) (results : ResultMap) :
  total_chars (deduplicated results) <= max_context_tokens self * 4 ->
  aggregate self results = sort_desc (deduplicated results).
Proof.
  intros H. unfold aggregate. rewrite pack_all; [reflexivity|].
  rewrite (total_chars_perm _ _ (sort_desc_perm (deduplicated results))). lia.
Qed.

(** C1 (as amended).  No content occurs twice in the result of
    [aggregate]; every chunk of the result is the first chunk with its
    content in iteration order over the result map, with the metadata and
    similarity of that first chunk, whatever the similarity of later
    duplicates; and when the deduplicated chunks fit in the budget of
    [4 * max_context_tokens] characters, every content of the input
    occurs exactly once in the result. *)
Theorem aggregate_first_seen_wins (self : t) (results : ResultMap) :
  NoDup (map content (aggregate self results)) /\
  (forall c, In c (aggregate self results) ->
             first_with_content (content c) (flatten results) = Some c) /\
  (total_chars (deduplicated results) <= max_context_tokens self * 4 ->
   forall s, In s (map content (flatten results)) ->
             count_occ string_dec (map content (aggregate self results)) s = 1%nat).
Proof.
  split; [apply aggregate_NoDup|]. split.
  - intros c Hc. apply deduplicated_first.
    now apply (aggregate_incl_deduplicated self).
  - intros Hfit s Hs.
    apply NoDup_count_occ'; [apply aggregate_NoDup|].
    rewrite (aggregate_within_budget self results Hfit).
    apply deduplicated_complete in Hs.
    apply (Permutation_in s
             (Permutation_map content
                (Permutation_sym (sort_desc_perm (deduplicated results))))).
    exact Hs.
Qed.

(** On [Samples.duplicated] the content of [same_low] is kept once, as
    the chunk seen first, although the later duplicate scores higher. *)
Lemma aggregate_first_seen_wins_witness :
  first_with_content "same text" (flatten Samples.duplicated) = Some Samples.same_low /\
  count_occ string_dec (map content (aggregate default Samples.duplicated))
    "same text" = 1%nat.
Proof.
  destruct (aggregate_first_seen_wins default Samples.duplicated) as (_ & Hfirst & Hone).
  split.
  - apply (Hfirst Samples.same_low). vm_compute. tauto.
  - apply Hone.
    + apply Z.leb_le. vm_compute. reflexivity.
    + vm_compute. tauto.
Defined.

(** C1 as written fails.  In [Samples.duplicated_over_budget] the second
    question finds the content of the first again, so the map holds
    chunks of equal content under different sub-questions; the content
    of [long_b] is in the map, and with the default budget it is not
    returned at all. *)
Lemma aggregate_drops_content_over_budget :
  Samples.duplicated_over_budget
  = [("q1", [Samples.long_a]); ("q2", [Samples.long_a_again; Samples.long_b])] /\
  content Samples.long_a_again = content Samples.long_a /\
  Samples.long_a_again <> Samples.long_a /\
  In (content Samples.long_b) (map content (flatten Samples.duplicated_over_budget)) /\
  count_occ string_dec (map content (aggregate default Samples.duplicated_over_budget))
    (content Samples.long_b) = 0%nat.
Proof.
  split; [reflexivity|]. split; [reflexivity|]. split; [discriminate|]. split.
  - right. right. left. reflexivity.
  - vm_compute. reflexivity.
Qed.





(** Packing stops at the chunk that does not fit: the smaller chunk after
    it, which would fit, is not taken. *)
Example aggregate_leaves_gap :
  map content (aggregate (mk 2) Samples.gap) = ["aaaaa"].
Proof. reflexivity. Qed.


Lemma StronglySorted_split {A : Type} (R : A -> A -> Prop) (l1 l2 l3 : list A) (a b : A) :
  StronglySorted R (l1 ++ a :: l2 ++ b :: l3) -> R a b.
Proof.
  induction l1 as [|x l1 IH]; simpl; intros H.
  - inversion H as [|? ? _ Hf]; subst. rewrite Forall_forall in Hf.
    apply Hf. apply in_app_iff. right. now left.
  - inversion H; subst. now apply IH.
Qed.

(** C3.  Write [sim c] for the value of [c.get('similarity', 0)].  The
    result of [aggregate] is sorted by similarity, largest first: of two
    chunks of the result, the later one has no larger similarity.  Chunks
    of equal similarity keep the order they had after deduplication:
    whenever [a] comes before [b] in the result with equal similarity,
    [a] comes before [b] in the deduplicated sequence; and for each
    similarity the chunks of the result carrying it are an initial
    segment of the deduplicated chunks carrying it. *)
Theorem aggregate_sorted_stable (self : t) (results : ResultMap) :
  let sim := fun c : Chunk =>
               match similarity c with Some q => q | None => 0%Q end in
  (forall a b l1 l2 l3,
      aggregate self results = (l1 ++ a :: l2 ++ b :: l3)%list ->
      (sim b <= sim a)%Q) /\
  (forall a b l1 l2 l3,
      aggregate self results = (l1 ++ a :: l2 ++ b :: l3)%list ->
      (sim a == sim b)%Q ->
      exists m1 m2 m3, deduplicated results = (m1 ++ a :: m2 ++ b :: m3)%list) /\
  (forall s, exists tail,
      filter (fun c => Qeq_bool (sim c) s) (deduplicated results)
      = (filter (fun c => Qeq_bool (sim c) s) (aggregate self results) ++ tail)%list).
Proof.
  intros sim.
  destruct (aggregate_prefix self results) as (rest & Hs & _).
  assert (Hkey : forall s,
             with_key s (deduplicated results)
             = (with_key s (aggregate self results) ++ with_key s rest)%list).
  { intros s. rewrite <- with_key_app, <- Hs. symmetry. apply sort_desc_stable. }
  split; [|split].
  - intros a b l1 l2 l3 Hout.
    assert (Hsorted : StronglySorted descending (aggregate self results)).
    { apply (StronglySorted_app_l descending _ rest). rewrite <- Hs.
      apply sort_desc_sorted. }
    rewrite Hout in Hsorted. apply StronglySorted_split in Hsorted.
    exact Hsorted.
  - intros a b l1 l2 l3 Hout Hab.
    specialize (Hkey (sort_key a)). rewrite Hout in Hkey.
    unfold with_key in Hkey.
    rewrite filter_app in Hkey. simpl in Hkey.
    rewrite filter_app in Hkey. simpl in Hkey.
    assert (Ea : Qeq_bool (sort_key a) (sort_key a) = true)
      by (apply Qeq_bool_iff; reflexivity).
    assert (Eb : Qeq_bool (sort_key b) (sort_key a) = true)
      by (apply Qeq_bool_iff; symmetry; exact Hab).
    rewrite Ea, Eb in Hkey. rewrite <- app_assoc in Hkey. simpl in Hkey.
    apply filter_split in Hkey. destruct Hkey as (m1 & m' & Hd & _ & Hm').
    rewrite <- app_assoc in Hm'. simpl in Hm'.
    apply filter_split in Hm'. destruct Hm' as (m2 & m3 & -> & _ & _).
    now exists m1, m2, m3.
  - intros s. exists (with_key s rest). apply Hkey.
Qed.

(** On [Samples.duplicated] the chunk seen first has the lowest score and
    comes out last; the two chunks of score 0.8 come out in the order
    they went in. *)
Lemma aggregate_sorted_stable_witness :
  map similarity (flatten Samples.duplicated)
  = [Some (75 # 100); Some (8 # 10); Some (95 # 100); Some (4 # 5)] /\
  map similarity (aggregate default Samples.duplicated)
  = [Some (8 # 10); Some (4 # 5); Some (75 # 100)] /\
  (75 # 100 <= 8 # 10)%Q /\
  exists m1 m2 m3,
    deduplicated Samples.duplicated
    = (m1 ++ Samples.other :: m2 ++ Samples.tie :: m3)%list.
Proof.
  split; [reflexivity|]. split; [vm_compute; reflexivity|].
  destruct (aggregate_sorted_stable default Samples.duplicated) as (Hd & Hst & _).
  split.
  - apply (Hd Samples.other Samples.same_low [] [Samples.tie] []).
    vm_compute. reflexivity.
  - apply (Hst Samples.other Samples.tie [] [] [Samples.same_low]).
    + vm_compute. reflexivity.
    + vm_compute. reflexivity.
Defined.

End AggregatorClaims.

(** ** Rendering the context *)

Section Rendering.

Import ContextAggregator.

Lemma format_parts_blocks (chunks : list Chunk) :
  forall (i : Z) (context_parts : list string),
    format_parts i chunks context_parts
    = (context_parts ++ numbered_blocks i chunks)%list.
Proof.
  induction chunks as [|chunk rest IH]; intros i parts; simpl.
  - now rewrite app_nil_r.
  - rewrite IH, <- app_assoc. reflexivity.
Qed.

Lemma numbered_blocks_length (chunks : list Chunk) (i : Z) :
  List.length (numbered_blocks i chunks) = List.length chunks.
Proof.
  revert i. induction chunks as [|chunk rest IH]; intros i; simpl; [reflexivity|].
  now rewrite IH.
Qed.

Lemma numbered_blocks_nth (chunks : list Chunk) :
  forall (i : Z) (n : nat) (chunk : Chunk),
    nth_error chunks n = Some chunk ->
    nth_error (numbered_blocks i chunks) n
    = Some (source_block (i + Z.of_nat n) chunk).
Proof.
  induction chunks as [|c rest IH]; intros i n chunk H.
  - destruct n; discriminate.
  - destruct n as [|n]; simpl in *.
    + injection H as ->. now rewrite Z.add_0_r.
    + rewrite (IH (i + 1) n chunk H). do 2 f_equal. lia.
Qed.

(** C8.  [format_context] of the empty sequence is the fixed sentence
    "No relevant context found."; for a sequence that is not empty the
    result is the blocks of the chunks joined by the separator (two line
    feeds, three dashes, two line feeds): there are as many blocks as
    chunks, and the block at position [n] is "[Source n+1]" followed by
    the document name ("Unknown" when the key is missing), the page (the
    decimal numeral of a page number, "N/A" when the key is missing,
    "None" for a stored [None], the text of any other value), the content
    type ("text" when the key is missing) and, after a line feed, the
    text of the chunk at position [n]. *)
Theorem format_context_blocks :
  let line_feed := String (ascii_of_nat 10) EmptyString in
  let numeral := fun n : Z => NilZero.string_of_int (Z.to_int n) in
  let document := fun chunk : Chunk =>
    match document_name chunk with Some name => name | None => "Unknown" end in
  let page := fun chunk : Chunk =>
    match page_number chunk with
    | Some (PgInt n) => numeral n
    | Some PgNone => "None"
    | Some (PgStr s) => s
    | None => "N/A"
    end in
  let type := fun chunk : Chunk =>
    match content_type chunk with Some name => name | None => "text" end in
  format_context [] = "No relevant context found." /\
  forall chunks : list Chunk, chunks <> [] ->
    exists parts : list string,
      List.length parts = List.length chunks /\
      (forall (n : nat) (chunk : Chunk),
          nth_error chunks n = Some chunk ->
          nth_error parts n
          = Some ("[Source " ++ numeral (Z.of_nat n + 1) ++ "] Document: "
                    ++ document chunk ++ ", Page: " ++ page chunk
                    ++ ", Type: " ++ type chunk
                    ++ line_feed ++ content chunk)) /\
      format_context chunks
      = String.concat (line_feed ++ line_feed ++ "---" ++ line_feed ++ line_feed)
          parts.
Proof.
  intros line_feed numeral document page type.
  split; [reflexivity|].
  intros chunks Hne. exists (numbered_blocks 1 chunks). split; [|split].
  - apply numbered_blocks_length.
  - intros n chunk Hn. rewrite (numbered_blocks_nth chunks 1 n chunk Hn).
    unfold source_block, document, page, type, get_default, str_page, str_int.
    replace (1 + Z.of_nat n) with (Z.of_nat n + 1) by lia.
    destruct (document_name chunk), (page_number chunk) as [[| |]|],
      (content_type chunk); reflexivity.
  - destruct chunks as [|c rest]; [contradiction|].
    unfold format_context. now rewrite format_parts_blocks.
Qed.

(** Three sources: one with the page number 4, one without the key
    [page_number], and one whose stored page is [None]. *)
Lemma format_context_blocks_witness :
  exists parts : list string,
    List.length parts = 3%nat /\
    nth_error parts 0
    = Some ("[Source 1] Document: a.pdf, Page: 4, Type: text"
              ++ String (ascii_of_nat 10) "same text") /\
    nth_error parts 1
    = Some ("[Source 2] Document: a.pdf, Page: N/A, Type: text"
              ++ String (ascii_of_nat 10) "other text") /\
    nth_error parts 2
    = Some ("[Source 3] Document: c.pdf, Page: None, Type: image"
              ++ String (ascii_of_nat 10) "tie text") /\
    format_context [Samples.same_low; Samples.other; Samples.tie]
    = String.concat (String (ascii_of_nat 10) (String (ascii_of_nat 10) "---")
                       ++ String (ascii_of_nat 10) (String (ascii_of_nat 10) ""))
        parts.
Proof.
  destruct (proj2 format_context_blocks [Samples.same_low; Samples.other; Samples.tie])
    as (parts & Hlen & Hnth & Hfmt).
  - discriminate.
  - exists parts. split; [exact Hlen|].
    split; [exact (Hnth 0%nat Samples.same_low eq_refl)|].
    split; [exact (Hnth 1%nat Samples.other eq_refl)|].
    split; [exact (Hnth 2%nat Samples.tie eq_refl)|exact Hfmt].
Defined.

End Rendering.

(** ** Retrieval *)

Section Retrieval.

Import SemanticRetriever.

Variable svc : services.
Variable self : t.
Variable top_k0 : option Z.
Variable document_filter : option string.

Let k : Z := effective_top_k self top_k0.

(** [retrieve] unfolded: one call to the embedder, then, if it answered,
    one call to the store; what they raise is what [retrieve] raises. *)
Lemma retrieve_unfold (query : string) (h : history) :
  retrieve svc self query top_k0 document_filter h
  = match generate_single_embedding svc h (PyStr query) with
    | Raise e => (Raise e, (h ++ [EvEmbed (PyStr query)])%list)
    | Return emb =>
        (vector_store_search svc (h ++ [EvEmbed (PyStr query)])%list emb k
           document_filter (similarity_threshold self),
         ((h ++ [EvEmbed (PyStr query)])
            ++ [EvSearch emb k document_filter (similarity_threshold self)])%list)
    end.
Proof.
  unfold retrieve, bind, embed, search, ret, k.
  destruct (generate_single_embedding svc h (PyStr query)) as [emb|e]; [|reflexivity].
  destruct (vector_store_search svc _ emb _ _ _); reflexivity.
Qed.

Lemma retrieve_events (query : string) (h h' : history) (r : list Chunk) :
  retrieve svc self query top_k0 document_filter h = (Return r, h') ->
  exists emb,
    h' = (h ++ [EvEmbed (PyStr query);
                EvSearch emb k document_filter (similarity_threshold self)])%list.
Proof.
  rewrite retrieve_unfold.
  destruct (generate_single_embedding svc h (PyStr query)) as [emb|e]; [|discriminate].
  intros H. injection H as _ <-. exists emb. now rewrite <- app_assoc.
Qed.

Lemma retrieve_non_string_raises (query : pyval) (h : history) :
  exists e h', retrieve_non_string svc self query top_k0 document_filter h
               = (Raise e, h').
Proof.
  unfold retrieve_non_string, bind, embed, search, lift.
  destruct (generate_single_embedding svc h query) as [emb|e]; [|eauto].
  destruct (vector_store_search svc _ emb _ _ _); eauto.
Qed.

(** The loop over a concatenation is the loop over the first part
    followed, when that part raised nothing, by the loop over the rest. *)
Lemma retrieve_loop_app (pre rest : list pyval) :
  forall (d0 : ResultMap) (h : history),
    retrieve_loop svc self (pre ++ rest) top_k0 document_filter d0 h
    = match retrieve_loop svc self pre top_k0 document_filter d0 h with
      | (Return d, h') => retrieve_loop svc self rest top_k0 document_filter d h'
      | (Raise e, h') => (Raise e, h')
      end.
Proof.
  induction pre as [|x pre IH]; intros d0 h; [reflexivity|].
  destruct x as [|b|n|q|s|items|fields]; simpl;
    try match goal with
        | |- retrieve_non_string _ _ ?q _ _ ?h0 = _ =>
            destruct (retrieve_non_string_raises q h0) as (e & h' & ->);
            reflexivity
        end.
  unfold bind.
  destruct (retrieve svc self s top_k0 document_filter h) as [[r|e] h']; [|reflexivity].
  apply IH.
Qed.

Lemma dict_set_keys (d : ResultMap) (key : string) (value : list Chunk) (q : string) :
  In q (map fst (dict_set d key value)) <-> q = key \/ In q (map fst d).
Proof.
  induction d as [|[k0 v0] d IH]; simpl.
  - intuition congruence.
  - destruct (String.eqb k0 key) eqn:E; simpl.
    + apply String.eqb_eq in E. subst. intuition congruence.
    + rewrite IH. intuition congruence.
Qed.

Lemma dict_set_NoDup (d : ResultMap) (key : string) (value : list Chunk) :
  NoDup (map fst d) -> NoDup (map fst (dict_set d key value)).
Proof.
  induction d as [|[k0 v0] d IH]; simpl; intros H.
  - constructor; [intros []|constructor].
  - inversion H as [|? ? Hn Hd]; subst.
    destruct (String.eqb k0 key) eqn:E; simpl.
    + now constructor.
    + constructor; [|now apply IH].
      rewrite dict_set_keys. intros [->|Hin]; [|contradiction].
      now rewrite String.eqb_refl in E.
Qed.

Lemma dict_get_set_same (d : ResultMap) (key : string) (value : list Chunk) :
  dict_get key (dict_set d key value) = Some value.
Proof.
  induction d as [|[k0 v0] d IH]; simpl.
  - now rewrite String.eqb_refl.
  - destruct (String.eqb k0 key) eqn:E; simpl; now rewrite E.
Qed.

Lemma dict_get_set_other (d : ResultMap) (key q : string) (value : list Chunk) :
  q <> key -> dict_get q (dict_set d key value) = dict_get q d.
Proof.
  intros Hne. induction d as [|[k0 v0] d IH]; simpl.
  - destruct (String.eqb key q) eqn:E; [|reflexivity].
    apply String.eqb_eq in E. congruence.
  - destruct (String.eqb k0 key) eqn:E; simpl.
    + apply String.eqb_eq in E. subst k0.
      destruct (String.eqb key q) eqn:E'; [|reflexivity].
      apply String.eqb_eq in E'. congruence.
    + now rewrite IH.
Qed.

Lemma dict_set_length (d : ResultMap) (key : string) (value : list Chunk) :
  (List.length (dict_set d key value) <= S (List.length d))%nat.
Proof.
  induction d as [|[k0 v0] d IH]; simpl; [lia|].
  destruct (String.eqb k0 key); simpl; lia.
Qed.

Lemma embedded_texts_app (e1 e2 : list event) :
  embedded_texts (e1 ++ e2) = (embedded_texts e1 ++ embedded_texts e2)%list.
Proof.
  induction e1 as [|ev e1 IH]; [reflexivity|].
  destruct ev; simpl; now rewrite ?IH.
Qed.

Lemma search_count_app (e1 e2 : list event) :
  search_count (e1 ++ e2) = (search_count e1 + search_count e2)%nat.
Proof.
  induction e1 as [|ev e1 IH]; [reflexivity|].
  destruct ev; simpl; now rewrite ?IH.
Qed.

(** The loop over strings, from any result map with distinct keys. *)
Lemma retrieve_loop_strings (qs : list string) :
  forall (d0 d : ResultMap) (h h' : history),
    retrieve_loop svc self (map PyStr qs) top_k0 document_filter d0 h = (Return d, h') ->
    NoDup (map fst d0) ->
    NoDup (map fst d) /\
    (forall q, In q (map fst d) <-> In q (map fst d0) \/ In q qs) /\
    (forall q, ~ In q qs -> dict_get q d = dict_get q d0) /\
    (List.length d <= List.length d0 + List.length qs)%nat /\
    exists evs,
      h' = (h ++ evs)%list /\
      embedded_texts evs = map PyStr qs /\
      search_count evs = List.length qs.
Proof.
  induction qs as [|q0 qs IH]; intros d0 d h h' Hrun Hnd.
  - simpl in Hrun. unfold ret in Hrun. injection Hrun as <- <-.
    split; [assumption|]. split; [simpl; tauto|]. split; [reflexivity|].
    split; [simpl; lia|]. exists []. now rewrite app_nil_r.
  - simpl in Hrun. unfold bind in Hrun.
    destruct (retrieve svc self q0 top_k0 document_filter h) as [[r|e] h1] eqn:Er;
      [|discriminate].
    destruct (retrieve_events _ _ _ _ Er) as (emb & ->).
    destruct (IH _ _ _ _ Hrun (dict_set_NoDup d0 q0 r Hnd))
      as (Hnd' & Hkeys & Hget & Hlen & evs & -> & Hemb & Hcnt).
    split; [|split; [|split; [|split]]].
    + exact Hnd'.
    + intros q. rewrite Hkeys, dict_set_keys. simpl. intuition.
    + intros q Hq. simpl in Hq. rewrite Hget by tauto.
      apply dict_get_set_other. intros ->. apply Hq. now left.
    + pose proof (dict_set_length d0 q0 r). simpl. lia.
    + eexists. split; [rewrite <- app_assoc; reflexivity|].
      simpl. now rewrite Hemb, Hcnt.
Qed.

End Retrieval.

(** ** The retriever: claims *)

Section RetrieverClaims.

Import SemanticRetriever.


(** C10.  When [retrieve_for_multiple_queries] returns a map for a list
    of query strings, it has called the embedder once per element of the
    list, in order, and the store as many times; the keys of the map are
    distinct and are exactly the strings of the list, so the map has at
    most as many entries as the list; and the value under a key is what
    the retrieval at the last occurrence of that string returned (an
    empty sequence included). *)
Theorem retrieve_for_multiple_queries_map (svc : services) (self : t)
  (top_k0 : option Z) (document_filter : option string)
  (qs : list string) (d : ResultMap) (h h' : history) :
  retrieve_for_multiple_queries svc self (map PyStr qs) top_k0 document_filter h
  = (Return d, h') ->
  (exists evs,
      h' = (h ++ evs)%list /\
      embedded_texts evs = map PyStr qs /\
      search_count evs = List.length qs) /\
  NoDup (map fst d) /\
  (forall q, In q (map fst d) <-> In q qs) /\
  (List.length d <= List.length qs)%nat /\
  (forall pre q post,
      qs = (pre ++ q :: post)%list -> ~ In q post ->
      exists d1 h1 r h2,
        retrieve_for_multiple_queries svc self (map PyStr pre) top_k0
          document_filter h = (Return d1, h1) /\
        retrieve svc self q top_k0 document_filter h1 = (Return r, h2) /\
        dict_get q d = Some r).
Proof.
  unfold retrieve_for_multiple_queries. intros Hrun.
  destruct (retrieve_loop_strings svc self top_k0 document_filter qs [] d h h'
              Hrun (NoDup_nil _))
    as (Hnd & Hkeys & _ & Hlen & Hev).
  split; [exact Hev|]. split; [exact Hnd|]. split; [|split].
  - intros q. rewrite Hkeys. simpl. tauto.
  - simpl in Hlen. exact Hlen.
  - intros pre q post -> Hlast.
    rewrite map_app, retrieve_loop_app in Hrun.
    destruct (retrieve_loop svc self (map PyStr pre) top_k0 document_filter [] h)
      as [[d1|e] h1] eqn:Epre; [|discriminate].
    destruct (retrieve_loop_strings svc self top_k0 document_filter pre [] d1 h h1
                Epre (NoDup_nil _)) as (Hnd1 & _).
    simpl in Hrun. unfold bind in Hrun.
    destruct (retrieve svc self q top_k0 document_filter h1) as [[r|e] h2] eqn:Eq;
      [|discriminate].
    destruct (retrieve_loop_strings svc self top_k0 document_filter post _ d h2 h'
                Hrun (dict_set_NoDup d1 q r Hnd1)) as (_ & _ & Hget & _).
    exists d1, h1, r, h2. split; [reflexivity|]. split; [exact Eq|].
    rewrite (Hget q Hlast). apply dict_get_set_same.
Qed.

(** Three queries, the first and the last equal: two keys, and the key
    asked twice holds the empty answer of its second retrieval, not the
    chunk of its first. *)
Lemma retrieve_for_multiple_queries_map_witness :
  exists d1 h1 r h2,
    retrieve_for_multiple_queries Samples.synthesis_down (mk 5 (7 # 10))
      (map PyStr ["a"; "b"]) None None [] = (Return d1, h1) /\
    retrieve Samples.synthesis_down (mk 5 (7 # 10)) "a" None None h1 = (Return r, h2) /\
    dict_get "a" [("a", []); ("b", [])] = Some r.
Proof.
  apply (proj2 (proj2 (proj2 (proj2
           (retrieve_for_multiple_queries_map Samples.synthesis_down (mk 5 (7 # 10))
              None None ["a"; "b"; "a"] [("a", []); ("b", [])] [] _ eq_refl))))
           ["a"; "b"] "a" []).
  - reflexivity.
  - simpl. tauto.
Defined.

(** C5.  An exception raised by the embedder or by the chunk store
    while a query is retrieved is raised by [retrieve]; an exception
    raised by [retrieve] for one query of the list, the queries before it
    having been retrieved, is raised by [retrieve_for_multiple_queries];
    and an exception raised there makes [query_documents] fail with
    status 500 and the text of that exception, instead of a response. *)
Theorem retrieval_fault_propagates (svc : services) :
  (forall self top_k0 document_filter query h e,
      generate_single_embedding svc h (PyStr query) = Raise e ->
      fst (retrieve svc self query top_k0 document_filter h) = Raise e) /\
  (forall self top_k0 document_filter query h emb e,
      generate_single_embedding svc h (PyStr query) = Return emb ->
      vector_store_search svc (h ++ [EvEmbed (PyStr query)])%list emb
        (effective_top_k self top_k0) document_filter (similarity_threshold self)
      = Raise e ->
      fst (retrieve svc self query top_k0 document_filter h) = Raise e) /\
  (forall self top_k0 document_filter pre query post h d1 h1 e h2,
      retrieve_for_multiple_queries svc self pre top_k0 document_filter h
      = (Return d1, h1) ->
      retrieve svc self query top_k0 document_filter h1 = (Raise e, h2) ->
      retrieve_for_multiple_queries svc self (pre ++ PyStr query :: post)
        top_k0 document_filter h = (Raise e, h2)) /\
  (forall app request h analysis is_complex sub_questions h1 queries e h2,
      Main.plan svc (Main.question request) h
      = (Return (analysis, is_complex, sub_questions), h1) ->
      py_iter sub_questions = Return queries ->
      retrieve_for_multiple_queries svc (Main.retriever app) queries None
        (Main.document_filter request) h1 = (Raise e, h2) ->
      Main.query_documents svc app request h
      = (Raise (mkExn (HTTPException 500) ("Query failed: " ++ exn_str e)), h2)).
Proof.
  split; [|split; [|split]].
  - intros self top_k0 f query h e He. rewrite retrieve_unfold, He. reflexivity.
  - intros self top_k0 f query h emb e He Hs.
    rewrite retrieve_unfold, He, Hs. reflexivity.
  - intros self top_k0 f pre query post h d1 h1 e h2 Hpre Hq.
    unfold retrieve_for_multiple_queries in *.
    rewrite retrieve_loop_app, Hpre. simpl. unfold bind. now rewrite Hq.
  - intros app request h analysis is_complex sub_questions h1 queries e h2
      Hplan Hiter Hret.
    unfold Main.query_documents, Main.query_body, bind.
    rewrite Hplan. unfold lift. rewrite Hiter, Hret. reflexivity.
Qed.

(** With an embedder that cannot be reached the endpoint fails with
    status 500. *)
Lemma retrieval_fault_propagates_witness :
  Main.query_documents Samples.embedder_down Main.startup Samples.request []
  = (Raise (mkExn (HTTPException 500) "Query failed: Connection error."),
     [EvInvoke Classifier [("query", "What is X and what is Y?")];
      EvEmbed (PyStr "What is X and what is Y?")]).
Proof.
  apply (proj2 (proj2 (proj2 (retrieval_fault_propagates Samples.embedder_down)))
           Main.startup Samples.request []
           (PyDict [("is_complex", PyBool false); ("reasoning", PyStr "one question")])
           (PyBool false) (PyList [PyStr "What is X and what is Y?"])
           [EvInvoke Classifier [("query", "What is X and what is Y?")]]
           [PyStr "What is X and what is Y?"] Samples.connection_error).
  - vm_compute. reflexivity.
  - reflexivity.
  - vm_compute. reflexivity.
Defined.

End RetrieverClaims.

(** ** The synthesizer: claims *)

Section SynthesizerClaims.

Import AnswerSynthesizer.

Lemma format_sources_loop_map (chunks : list Chunk) :
  forall sources0 : list Source,
    format_sources_loop chunks sources0
    = (sources0 ++ map format_source chunks)%list.
Proof.
  induction chunks as [|chunk rest IH]; intros acc; simpl.
  - now rewrite app_nil_r.
  - rewrite IH, <- app_assoc. reflexivity.
Qed.

Lemma format_sources_map (chunks : list Chunk) :
  _format_sources chunks = map format_source chunks.
Proof. unfold _format_sources. now rewrite format_sources_loop_map. Qed.

(** C9.  When the model call succeeds, [synthesize] returns a result
    whose [sources] has one entry per input chunk, in input order: entry
    [n] holds the document name, page number and content type of chunk
    [n] (with the defaults "Unknown", "N/A" and "text" for missing keys)
    and its similarity rounded to three decimals: there is an integer [k]
    with [k / 1000] at most half a thousandth from the similarity of the
    chunk ([0] when the key is missing), [k] even when the similarity
    lies half way, and the entry holds a double nearest to [k / 1000].
    [context_used] is the number of input chunks, and the sources are the
    same for every model, question, context and answer text. *)
Theorem synthesize_sources_projection (svc : services) (question context : string)
  (chunks : list Chunk) (h : history) (response : string) :
  chain_invoke svc h Synthesizer [("context", context); ("question", question)]
  = Return response ->
  exists r : SynthesisResult,
    fst (synthesize svc question context chunks h) = Return r /\
    List.length (sources r) = List.length chunks /\
    (forall (n : nat) (chunk : Chunk),
        nth_error chunks n = Some chunk ->
        exists (src : Source) (k : Z),
          nth_error (sources r) n = Some src /\
          src_document_name src
          = match document_name chunk with Some name => name | None => "Unknown" end /\
          src_page_number src
          = match page_number chunk with Some p => p | None => PgStr "N/A" end /\
          src_content_type src
          = match content_type chunk with Some name => name | None => "text" end /\
          (Qabs (inject_Z k / 1000
                 - match similarity chunk with Some x => x | None => 0 end)
           <= 1 # 2000)%Q /\
          ((Qabs (inject_Z k / 1000
                  - match similarity chunk with Some x => x | None => 0 end)
            == 1 # 2000)%Q -> Z.even k = true) /\
          nearest_binary64 (inject_Z k / 1000) (src_similarity src)) /\
    context_used r = Z.of_nat (List.length chunks) /\
    (forall svc' question' context' h' response',
        chain_invoke svc' h' Synthesizer
          [("context", context'); ("question", question')] = Return response' ->
        exists r' : SynthesisResult,
          fst (synthesize svc' question' context' chunks h') = Return r' /\
          sources r' = sources r).
Proof.
  intros Hok. unfold synthesize, invoke. rewrite Hok. cbn [fst].
  eexists. split; [reflexivity|]. cbn [answer sources context_used].
  rewrite format_sources_map.
  split; [apply length_map|]. split; [|split; [reflexivity|]].
  - intros n chunk Hn.
    destruct (round3_spec (get_default (similarity chunk) 0%Q)) as (k & Hk & He & Hd).
    exists (format_source chunk), k.
    split; [rewrite nth_error_map, Hn; reflexivity|].
    split; [reflexivity|]. split; [reflexivity|]. split; [reflexivity|].
    split; [exact Hk|]. split; [exact He|exact Hd].
  - intros svc' question' context' h' response' Hok'. rewrite Hok'.
    eexists. split; reflexivity.
Qed.

(** The similarity 0.7126 is listed as the double nearest to 0.713. *)
Lemma synthesize_sources_projection_witness :
  exists r : SynthesisResult,
    fst (synthesize Samples.empty_decomposition "q" "ctx"
           [Samples.unrounded; Samples.other] []) = Return r /\
    List.length (sources r) = 2%nat /\
    (exists src : Source,
        nth_error (sources r) 0 = Some src /\
        src_document_name src = "d.pdf" /\
        src_page_number src = PgInt 3 /\
        src_content_type src = "text" /\
        nearest_binary64 (inject_Z 713 / 1000) (src_similarity src)) /\
    context_used r = 2.
Proof.
  destruct (synthesize_sources_projection Samples.empty_decomposition "q" "ctx"
              [Samples.unrounded; Samples.other] [] _ eq_refl)
    as (r & Hr & Hl & Hn & Hc & _).
  exists r. split; [exact Hr|]. split; [exact Hl|]. split; [|exact Hc].
  destruct (Hn 0%nat Samples.unrounded eq_refl)
    as (src & k & Hs & Hd & Hp & Ht & Hk & _ & Hb).
  exists src. split; [exact Hs|]. split; [exact Hd|]. split; [exact Hp|].
  split; [exact Ht|].
  assert (Ek : k = 713).
  { cbn [Samples.unrounded similarity] in Hk.
    apply Qabs_Qle_condition in Hk. destruct Hk as [H1 H2].
    unfold Qle, Qminus, Qplus, Qopp, Qdiv, Qmult, Qinv, inject_Z in H1, H2.
    cbn in H1, H2. lia. }
  rewrite <- Ek. exact Hb.
Defined.

(** The text of a model that answered is returned without the white
    space around it. *)
Lemma synthesize_answer (svc : services) (question context : string)
  (chunks : list Chunk) (h : history) (response : string) :
  chain_invoke svc h Synthesizer [("context", context); ("question", question)]
  = Return response ->
  exists r : SynthesisResult,
    fst (synthesize svc question context chunks h) = Return r /\
    answer r = strip response.
Proof.
  intros Hok. unfold synthesize, invoke. rewrite Hok. cbn [fst].
  eexists. split; reflexivity.
Qed.

(** What the listed similarities of the samples are: 0.7126 gives the
    double of 0.713, and 0.0625, half way, gives the double of 0.062. *)
Example format_sources_rounds :
  map (fun src => Qred (src_similarity src))
      (_format_sources [Samples.unrounded; Samples.half_way])
  = [(6422133068630327 # 9007199254740992)%Q;
     (1116892707587883 # 18014398509481984)%Q].
Proof. vm_compute. reflexivity. Qed.







End SynthesizerClaims.

(** ** The classifier and the decomposer: claims *)

Section AgentClaims.

(** The one way out of [analyze] that is not a result: the model call
    itself raises [json.JSONDecodeError]. *)
Lemma analyze_raises_iff (svc : services) (query : string) (h : history) :
  (exists e, fst (QueryAnalyzer.analyze svc query h) = Raise e) <->
  (exists e, chain_invoke svc h Classifier [("query", query)] = Raise e /\
             is_JSONDecodeError e = true).
Proof.
  unfold QueryAnalyzer.analyze, invoke.
  destruct (chain_invoke svc h Classifier [("query", query)]) as [response|e].
  - split.
    + destruct (QueryAnalyzer.parse svc response) as [v|e0]; cbn [fst].
      * intros [e H]. discriminate.
      * unfold QueryAnalyzer.handlers. destruct (is_JSONDecodeError e0);
          intros [e H]; discriminate.
    + intros [e [H _]]. discriminate.
  - unfold QueryAnalyzer.handlers. cbn [fst]. split.
    + destruct (is_JSONDecodeError e) eqn:E.
      * intros _. now exists e.
      * intros [e0 H]. discriminate.
    + intros [e0 [H E]]. injection H as <-. rewrite E. now eexists.
Qed.

(** A reply that cannot be parsed, or lacks a field, and any exception of
    the model call other than [json.JSONDecodeError], give
    [is_complex = False]. *)
Lemma analyze_defaults_to_simple (svc : services) (query : string) (h : history) :
  match chain_invoke svc h Classifier [("query", query)] with
  | Return response =>
      forall e, QueryAnalyzer.parse svc response = Raise e ->
      exists v, fst (QueryAnalyzer.analyze svc query h) = Return v /\
                py_getitem v "is_complex" = Return (PyBool false)
  | Raise e =>
      is_JSONDecodeError e = false ->
      exists v, fst (QueryAnalyzer.analyze svc query h) = Return v /\
                py_getitem v "is_complex" = Return (PyBool false)
  end.
Proof.
  unfold QueryAnalyzer.analyze, invoke.
  destruct (chain_invoke svc h Classifier [("query", query)]) as [response|e].
  - intros e He. rewrite He. unfold QueryAnalyzer.handlers.
    destruct (is_JSONDecodeError e); eexists; split; reflexivity.
  - intros E. unfold QueryAnalyzer.handlers. rewrite E.
    eexists; split; reflexivity.
Qed.

(** C6 fails on the code: when the client of the language model raises
    [json.JSONDecodeError] from the call itself, the handler of that
    class reads the variable [response], which was never assigned, and
    [analyze] raises [UnboundLocalError] instead of returning
    [is_complex = False]. *)
Theorem analyze_raises_on_client_decode_failure :
  QueryAnalyzer.analyze Samples.client_decode_failure "What is X and what is Y?" []
  = (Raise (mkExn UnboundLocalError
       "cannot access local variable 'response' where it is not associated with a value"),
     [EvInvoke Classifier [("query", "What is X and what is Y?")]]).
Proof. reflexivity. Qed.

(** A reply that is not JSON, or JSON that is not an object, or whose
    [sub_questions] has no length, and any exception of the model call
    other than [json.JSONDecodeError], give [[query]]. *)
Lemma decompose_falls_back (svc : services) (query : string) (h : history) :
  match chain_invoke svc h Decomposer [("query", query)] with
  | Return response =>
      forall e, QueryDecomposer.parse svc response = Raise e ->
      fst (QueryDecomposer.decompose svc query h) = Return (PyList [PyStr query])
  | Raise e =>
      is_JSONDecodeError e = false ->
      fst (QueryDecomposer.decompose svc query h) = Return (PyList [PyStr query])
  end.
Proof.
  unfold QueryDecomposer.decompose, invoke.
  destruct (chain_invoke svc h Decomposer [("query", query)]) as [response|e].
  - intros e He. rewrite He. unfold QueryDecomposer.handlers.
    destruct (is_JSONDecodeError e); reflexivity.
  - intros E. unfold QueryDecomposer.handlers. now rewrite E.
Qed.

(** A JSON object is returned as its [sub_questions] are, the empty
    list when the key is missing. *)
Lemma decompose_object (svc : services) (query response : string) (h : history)
  (fields : list (string * pyval)) (items : list pyval) :
  chain_invoke svc h Decomposer [("query", query)] = Return response ->
  json_loads svc response = Return (PyDict fields) ->
  get_default (lookup "sub_questions" fields) (PyList []) = PyList items ->
  fst (QueryDecomposer.decompose svc query h) = Return (PyList items).
Proof.
  intros Hc Hl Hg. unfold QueryDecomposer.decompose, invoke. rewrite Hc.
  unfold QueryDecomposer.parse. rewrite Hl. simpl. rewrite Hg. reflexivity.
Qed.

(** C4 fails on the code: when the model answers with the JSON object
    [{"sub_questions": []}], [decompose] returns the empty list, not a
    sequence with at least one element. *)
Theorem decompose_returns_empty_sequence :
  QueryDecomposer.decompose Samples.empty_decomposition "What is X and what is Y?" []
  = (Return (PyList []),
     [EvInvoke Decomposer [("query", "What is X and what is Y?")]]).
Proof. reflexivity. Qed.

(** The same defect as in [analyze]: an exception of class
    [json.JSONDecodeError] raised by the model call leaves [decompose]
    as [UnboundLocalError]. *)
Lemma decompose_raises_on_client_decode_failure :
  fst (QueryDecomposer.decompose Samples.client_decode_failure "q" [])
  = Raise (mkExn UnboundLocalError
      "cannot access local variable 'response' where it is not associated with a value").
Proof. reflexivity. Qed.

(** With the empty list of sub-questions nothing is retrieved and the
    answer is synthesized from the sentence for an empty context. *)
Lemma empty_decomposition_retrieves_nothing :
  embedded_texts
    (snd (Main.query_documents Samples.empty_decomposition Main.startup
            Samples.request [])) = [].
Proof. reflexivity. Qed.

End AgentClaims.

(** ** Rounding *)

Section Rounding.

Lemma round_half_even_close (q : Q) :
  2 * Z.abs (round_half_even q * Zpos (Qden q) - Qnum q) <= Zpos (Qden q).
Proof.
  unfold round_half_even.
  pose proof (Z.div_mod (Qnum q) (Zpos (Qden q)) ltac:(lia)) as Hdm.
  pose proof (Z.mod_pos_bound (Qnum q) (Zpos (Qden q)) ltac:(lia)) as Hb.
  set (d := Zpos (Qden q)) in *. set (n := Qnum q) in *.
  set (fl := n / d) in *. set (r := n mod d) in *.
  destruct (2 * r <? d) eqn:E1.
  - apply Z.ltb_lt in E1. nia.
  - apply Z.ltb_ge in E1. destruct (d <? 2 * r) eqn:E2.
    + apply Z.ltb_lt in E2. nia.
    + apply Z.ltb_ge in E2. destruct (Z.even fl); nia.
Qed.

End Rounding.


(** * Further properties of the aggregator *)

Section AggregatorExtras.

Import ContextAggregator.

Lemma run_seen_contents (p : list Chunk) (s : string) :
  In s (fst (run p)) <-> In s (map content p).
Proof.
  destruct (run_invariant p) as (Hseen & _ & _ & Hall).
  rewrite Hseen. symmetry. apply Hall.
Qed.

(** Chunks with distinct contents pass the deduplication unchanged. *)
Lemma run_distinct (p : list Chunk) :
  NoDup (map content p) -> snd (run p) = p.
Proof.
  induction p as [|x p IH] using rev_ind; intros Hnd; [reflexivity|].
  rewrite map_app in Hnd. cbn in Hnd.
  assert (Hp : NoDup (map content p)) by now apply NoDup_app_remove_r in Hnd.
  assert (Hx : ~ In (content x) (map content p)).
  { apply NoDup_remove_2 in Hnd. now rewrite app_nil_r in Hnd. }
  rewrite run_snoc. specialize (IH Hp).
  pose proof (run_seen_contents p (content x)) as Hs.
  destruct (run p) as [sn al]. cbn [fst snd] in *. subst al.
  unfold collect_chunk. destruct (seen (content x) sn) eqn:E.
  - apply seen_In in E. tauto.
  - reflexivity.
Qed.

(** Sorting a sequence that is already in descending order changes
    nothing. *)
Lemma sort_desc_sorted_id (l : list Chunk) :
  StronglySorted descending l -> sort_desc l = l.
Proof.
  induction l as [|x l IH]; intros Hs; [reflexivity|].
  inversion Hs as [|? ? Hl Hx]; subst. simpl. rewrite (IH Hl).
  destruct l as [|y l']; [reflexivity|]. simpl.
  destruct (Qlt_le_dec (sort_key x) (sort_key y)) as [Hlt|Hle]; [|reflexivity].
  inversion Hx as [|? ? Hy _]; subst. unfold descending in Hy.
  exfalso. apply (Qlt_irrefl (sort_key x)). eapply Qlt_le_trans; eassumption.
Qed.

Lemma pack_acc (max_chars : Z) (l : list Chunk) :
  forall (total : Z) (acc : list Chunk),
    pack max_chars total acc l = (acc ++ pack max_chars total [] l)%list.
Proof.
  induction l as [|c l IH]; intros total acc; simpl.
  - now rewrite app_nil_r.
  - destruct (total + chunk_chars c <=? max_chars); [|now rewrite app_nil_r].
    rewrite (IH _ (acc ++ [c])%list), (IH _ [c]), <- app_assoc. reflexivity.
Qed.

(** Packing what was packed keeps all of it. *)
Lemma pack_idempotent (max_chars : Z) (l : list Chunk) :
  forall total : Z,
    pack max_chars total [] (pack max_chars total [] l) = pack max_chars total [] l.
Proof.
  induction l as [|c l IH]; intros total; simpl; [reflexivity|].
  destruct (total + chunk_chars c <=? max_chars) eqn:E; [|reflexivity].
  rewrite (pack_acc _ _ _ [c]). simpl. rewrite E.
  rewrite (pack_acc _ _ _ [c]), IH. reflexivity.
Qed.

(** A larger budget keeps what the smaller one kept, and may add to it. *)
Lemma pack_monotone (max1 max2 : Z) (l : list Chunk) :
  max1 <= max2 ->
  forall total : Z,
  exists more, pack max2 total [] l = (pack max1 total [] l ++ more)%list.
Proof.
  intros Hle. induction l as [|c l IH]; intros total; simpl.
  - now exists [].
  - destruct (total + chunk_chars c <=? max1) eqn:E1.
    + apply Z.leb_le in E1.
      assert (E2 : (total + chunk_chars c <=? max2) = true) by (apply Z.leb_le; lia).
      rewrite E2. destruct (IH (total + chunk_chars c)) as (more & Hm).
      exists more. rewrite (pack_acc _ _ _ [c]), (pack_acc max1 _ _ [c]), Hm.
      now rewrite <- app_assoc.
    + eexists. reflexivity.
Qed.

Lemma flatten_single (key : string) (l : list Chunk) : flatten [(key, l)] = l.
Proof. unfold flatten. simpl. apply app_nil_r. Qed.

Lemma aggregate_descending (self : t) (results : ResultMap) :
  StronglySorted descending (aggregate self results).
Proof.
  destruct (aggregate_prefix self results) as (rest & Hs & _).
  apply (StronglySorted_app_l descending _ rest). rewrite <- Hs.
  apply sort_desc_sorted.
Qed.

(** X1.  Aggregating the result of [aggregate] again, under any key and
    with the same budget, returns it unchanged. *)
Theorem aggregate_idempotent (self : t) (results : ResultMap) (key : string) :
  aggregate self [(key, aggregate self results)] = aggregate self results.
Proof.
  unfold aggregate at 1.
  rewrite deduplicated_run, flatten_single.
  rewrite (run_distinct _ (aggregate_NoDup self results)).
  rewrite (sort_desc_sorted_id _ (aggregate_descending self results)).
  unfold aggregate. apply pack_idempotent.
Qed.

(** X2.  Raising the budget only extends the result: what [aggregate]
    returns under [max_context_tokens = t1] is an initial segment of what
    it returns under any [t2 >= t1]. *)
Theorem aggregate_budget_monotone (t1 t2 : Z) (results : ResultMap) :
  t1 <= t2 ->
  exists more,
    aggregate (mk t2) results = (aggregate (mk t1) results ++ more)%list.
Proof.
  intros Hle. unfold aggregate. cbn [max_context_tokens].
  apply pack_monotone. lia.
Qed.

Lemma aggregate_budget_monotone_witness :
  exists more,
    aggregate (mk 2048) Samples.over_budget
    = (aggregate (mk 1250) Samples.over_budget ++ more)%list.
Proof.
  apply (aggregate_budget_monotone 1250 2048 Samples.over_budget).
  apply Z.leb_le. vm_compute. reflexivity.
Defined.

(** X3.  The keys of the result map and the way the chunks are grouped
    under them do not matter: two result maps whose chunks, read in
    iteration order, are the same sequence aggregate to the same result. *)
Theorem aggregate_depends_on_chunk_sequence (self : t) (r1 r2 : ResultMap) :
  flatten r1 = flatten r2 -> aggregate self r1 = aggregate self r2.
Proof.
  intros H. unfold aggregate. now rewrite !deduplicated_run, H.
Qed.

Lemma aggregate_depends_on_chunk_sequence_witness :
  aggregate default Samples.duplicated
  = aggregate default
      [("all", [Samples.same_low; Samples.other; Samples.same_high; Samples.tie])].
Proof.
  apply (aggregate_depends_on_chunk_sequence default Samples.duplicated).
  reflexivity.
Defined.

Lemma sorted_head_is_top (c : Chunk) (l sorted : list Chunk) :
  Permutation sorted l ->
  StronglySorted descending sorted ->
  In c l ->
  (forall c', In c' l -> (sort_key c <= sort_key c')%Q -> c' = c) ->
  exists rest, sorted = c :: rest.
Proof.
  intros Hperm Hs Hin Htop.
  apply (Permutation_in _ (Permutation_sym Hperm)) in Hin.
  destruct sorted as [|x rest]; [contradiction|].
  exists rest. f_equal. destruct Hin as [Hin|Hin]; [assumption|].
  inversion Hs as [|? ? _ Hx]; subst.
  rewrite Forall_forall in Hx. apply Htop.
  - apply (Permutation_in _ Hperm). now left.
  - exact (Hx c Hin).
Qed.

(** X4.  Packing starts with the best-ranked chunk and gives up at once
    when that chunk alone is larger than the budget: if one deduplicated
    chunk ranks strictly above all others and has more than
    [4 * max_context_tokens] characters, [aggregate] returns nothing,
    whatever the sizes of the other chunks. *)
Theorem aggregate_oversized_top_chunk (self : t) (results : ResultMap) (c : Chunk) :
  In c (deduplicated results) ->
  (forall c', In c' (deduplicated results) ->
              (sort_key c <= sort_key c')%Q -> c' = c) ->
  4 * max_context_tokens self < chunk_chars c ->
  aggregate self results = [].
Proof.
  intros Hin Htop Hbig.
  destruct (sorted_head_is_top c (deduplicated results)
              (sort_desc (deduplicated results))
              (sort_desc_perm _) (sort_desc_sorted _) Hin Htop) as (rest & Hs).
  unfold aggregate. rewrite Hs. cbn [pack].
  destruct (0 + chunk_chars c <=? max_context_tokens self * 4) eqn:E; [|reflexivity].
  apply Z.leb_le in E. lia.
Qed.

Lemma aggregate_oversized_top_chunk_witness :
  aggregate (mk 1)
    [("q", [mkChunk "aaaaa" None None None (Some (9 # 10));
            mkChunk "cc" None None None (Some (7 # 10))])] = [].
Proof.
  apply (aggregate_oversized_top_chunk (mk 1) _
           (mkChunk "aaaaa" None None None (Some (9 # 10)))).
  - left. reflexivity.
  - intros c' [<-|[<-|[]]] Hle; [reflexivity|].
    exfalso. revert Hle. vm_compute. intros H. apply H. reflexivity.
  - apply Z.ltb_lt. vm_compute. reflexivity.
Defined.

(** X5.  [format_context] returns the sentence "No relevant context
    found." exactly when it is given no chunks: a context built from at
    least one chunk never equals it. *)
Theorem format_context_sentinel_iff (chunks : list Chunk) :
  format_context chunks = "No relevant context found." <-> chunks = [].
Proof.
  split; [|intros ->; reflexivity].
  destruct chunks as [|c rest]; [reflexivity|].
  unfold format_context. rewrite format_parts_blocks. simpl.
  destruct (numbered_blocks 2 rest); unfold source_block; simpl; discriminate.
Qed.

End AggregatorExtras.

(** * Further properties of the retriever *)

Section RetrieverExtras.

Import SemanticRetriever.

Lemma dict_set_key_order (d : ResultMap) (key : string) (value : list Chunk) :
  map fst (dict_set d key value)
  = if existsb (String.eqb key) (map fst d)
    then map fst d
    else (map fst d ++ [key])%list.
Proof.
  induction d as [|[k0 v0] d IH]; simpl; [reflexivity|].
  rewrite (String.eqb_sym key k0).
  destruct (String.eqb k0 key) eqn:E; simpl; [reflexivity|].
  rewrite IH. now destruct (existsb (String.eqb key) (map fst d)).
Qed.

Lemma retrieve_loop_key_order (svc : services) (self : t) (top_k0 : option Z)
  (document_filter : option string) (qs : list string) :
  forall (d0 d : ResultMap) (h h' : history),
    retrieve_loop svc self (map PyStr qs) top_k0 document_filter d0 h = (Return d, h') ->
    map fst d = (map fst d0 ++ first_occurrences_from (map fst d0) qs)%list.
Proof.
  induction qs as [|q qs IH]; intros d0 d h h' Hrun; simpl in Hrun.
  - unfold ret in Hrun. injection Hrun as <- _. simpl. now rewrite app_nil_r.
  - unfold bind in Hrun.
    destruct (retrieve svc self q top_k0 document_filter h) as [[r|e] h1];
      [|discriminate].
    rewrite (IH _ _ _ _ Hrun), dict_set_key_order. simpl.
    destruct (existsb (String.eqb q) (map fst d0)); [reflexivity|].
    now rewrite <- app_assoc.
Qed.

(** X6.  The keys of the map returned by [retrieve_for_multiple_queries]
    stand in the order in which the queries were first submitted: a query
    asked again keeps the place of its first occurrence.  This is the order
    in which [aggregate] later reads the chunks. *)
Theorem retrieve_for_multiple_queries_key_order (svc : services) (self : t)
  (top_k0 : option Z) (document_filter : option string) (qs : list string)
  (d : ResultMap) (h h' : history) :
  retrieve_for_multiple_queries svc self (map PyStr qs) top_k0 document_filter h
  = (Return d, h') ->
  map fst d = first_occurrences qs.
Proof.
  unfold retrieve_for_multiple_queries. intros Hrun.
  now rewrite (retrieve_loop_key_order _ _ _ _ _ _ _ _ _ Hrun).
Qed.

Lemma retrieve_for_multiple_queries_key_order_witness :
  map fst [("b", @nil Chunk); ("a", @nil Chunk)] = first_occurrences ["b"; "a"; "b"].
Proof.
  eapply (retrieve_for_multiple_queries_key_order Samples.synthesis_down
            (mk 5 (7 # 10)) None None ["b"; "a"; "b"] _ []).
  vm_compute. reflexivity.
Defined.

Lemma retrieve_trace (svc : services) (self : t) (top_k0 : option Z)
  (document_filter : option string) (query : string) (h : history) :
  exists evs,
    snd (retrieve svc self query top_k0 document_filter h) = (h ++ evs)%list /\
    embedded_texts evs = [PyStr query] /\
    (search_count evs <= 1)%nat /\
    forall a, invocations a evs = 0%nat.
Proof.
  rewrite retrieve_unfold.
  destruct (generate_single_embedding svc h (PyStr query)) as [emb|e].
  - eexists. split; [cbn [snd]; rewrite <- app_assoc; reflexivity|].
    simpl. repeat split; auto.
  - eexists. split; [reflexivity|]. simpl. repeat split; auto.
Qed.

(** X7.  When the retrieval of one query raises, the loop stops there:
    the queries after it are never sent to the embedder or to the store. *)
Theorem retrieve_for_multiple_queries_stops_at_fault (svc : services) (self : t)
  (top_k0 : option Z) (document_filter : option string)
  (pre : list string) (query : string) (post : list pyval)
  (d1 : ResultMap) (h h1 h2 : history) (e : exn) :
  retrieve_for_multiple_queries svc self (map PyStr pre) top_k0 document_filter h
  = (Return d1, h1) ->
  retrieve svc self query top_k0 document_filter h1 = (Raise e, h2) ->
  exists evs,
    retrieve_for_multiple_queries svc self (map PyStr pre ++ PyStr query :: post)
      top_k0 document_filter h = (Raise e, (h ++ evs)%list) /\
    embedded_texts evs = map PyStr (pre ++ [query]) /\
    (search_count evs <= List.length pre + 1)%nat.
Proof.
  unfold retrieve_for_multiple_queries. intros Hpre Hq.
  destruct (retrieve_loop_strings svc self top_k0 document_filter pre [] d1 h h1
              Hpre (NoDup_nil _)) as (_ & _ & _ & _ & evs1 & -> & Hemb & Hcnt).
  destruct (retrieve_trace svc self top_k0 document_filter query (h ++ evs1)%list)
    as (evs2 & Hh & Hemb2 & Hcnt2 & _).
  rewrite Hq in Hh. cbn [snd] in Hh. subst h2.
  exists (evs1 ++ evs2)%list. split; [|split].
  - rewrite retrieve_loop_app, Hpre. simpl. unfold bind. rewrite Hq.
    now rewrite app_assoc.
  - rewrite embedded_texts_app, Hemb, Hemb2, map_app. reflexivity.
  - rewrite search_count_app, Hcnt. lia.
Qed.

Lemma retrieve_for_multiple_queries_stops_at_fault_witness :
  exists evs,
    retrieve_for_multiple_queries MoreSamples.embedder_fails_later (mk 5 (7 # 10))
      (map PyStr ["a"] ++ PyStr "b" :: [PyStr "c"; PyStr "d"]) None None []
    = (Raise Samples.connection_error, ([] ++ evs)%list) /\
    embedded_texts evs = map PyStr (["a"] ++ ["b"]) /\
    (search_count evs <= List.length ["a"] + 1)%nat.
Proof.
  eapply (retrieve_for_multiple_queries_stops_at_fault
            MoreSamples.embedder_fails_later (mk 5 (7 # 10)) None None
            ["a"] "b" [PyStr "c"; PyStr "d"]).
  - vm_compute. reflexivity.
  - vm_compute. reflexivity.
Defined.

End RetrieverExtras.

(** * Further properties of the classifier and the decomposer *)

Section AgentExtras.

Lemma analyze_trace (svc : services) (query : string) (h : history) :
  snd (QueryAnalyzer.analyze svc query h)
  = (h ++ [EvInvoke Classifier [("query", query)]])%list.
Proof.
  unfold QueryAnalyzer.analyze, invoke.
  destruct (chain_invoke svc h Classifier [("query", query)]) as [response|e];
    [|reflexivity].
  destruct (QueryAnalyzer.parse svc response); reflexivity.
Qed.

Lemma decompose_trace (svc : services) (query : string) (h : history) :
  snd (QueryDecomposer.decompose svc query h)
  = (h ++ [EvInvoke Decomposer [("query", query)]])%list.
Proof.
  unfold QueryDecomposer.decompose, invoke.
  destruct (chain_invoke svc h Decomposer [("query", query)]) as [response|e];
    [|reflexivity].
  destruct (QueryDecomposer.parse svc response); reflexivity.
Qed.

Lemma analyze_handlers_keys (response : option string) (e : exn) (v : pyval) :
  QueryAnalyzer.handlers response e = Return v ->
  exists msg,
    v = PyDict [("is_complex", PyBool false); ("reasoning", PyStr msg)].
Proof.
  unfold QueryAnalyzer.handlers.
  destruct (is_JSONDecodeError e); [destruct response; [|discriminate]|];
    intros H; injection H as <-; eexists; reflexivity.
Qed.

(** X8.  [analyze] calls the model once.  It either returns a dictionary
    in which both ['is_complex'] and ['reasoning'] can be read, or it
    raises [UnboundLocalError]; it raises only when the model call itself
    raised an exception of class [json.JSONDecodeError]. *)
Theorem analyze_outcome_shape (svc : services) (query : string) (h : history) :
  snd (QueryAnalyzer.analyze svc query h)
  = (h ++ [EvInvoke Classifier [("query", query)]])%list /\
  match fst (QueryAnalyzer.analyze svc query h) with
  | Return v =>
      exists c r,
        py_getitem v "is_complex" = Return c /\ py_getitem v "reasoning" = Return r
  | Raise e =>
      class_of e = UnboundLocalError /\
      exists e0,
        chain_invoke svc h Classifier [("query", query)] = Raise e0 /\
        is_JSONDecodeError e0 = true
  end.
Proof.
  split; [apply analyze_trace|].
  unfold QueryAnalyzer.analyze, invoke.
  destruct (chain_invoke svc h Classifier [("query", query)]) as [response|e].
  - destruct (QueryAnalyzer.parse svc response) as [v|e0] eqn:Ep; cbn [fst].
    + unfold QueryAnalyzer.parse in Ep.
      destruct (json_loads svc response) as [v0|]; [|discriminate]. simpl in Ep.
      destruct (py_getitem v0 "is_complex") as [c|] eqn:Ec; [|discriminate].
      simpl in Ep.
      destruct (py_getitem v0 "reasoning") as [r|] eqn:Er; [|discriminate].
      simpl in Ep. injection Ep as <-. now exists c, r.
    + destruct (QueryAnalyzer.handlers (Some response) e0) as [v|e1] eqn:Eh.
      * destruct (analyze_handlers_keys _ _ _ Eh) as (msg & ->).
        do 2 eexists. split; reflexivity.
      * unfold QueryAnalyzer.handlers in Eh.
        destruct (is_JSONDecodeError e0); discriminate.
  - cbn [fst]. unfold QueryAnalyzer.handlers.
    destruct (is_JSONDecodeError e) eqn:E.
    + split; [reflexivity|]. now exists e.
    + do 2 eexists. split; reflexivity.
Qed.

(** X9.  The safe default of [analyze]: an exception of the model call
    of any class but [json.JSONDecodeError], a reply that [json.loads]
    rejects, and a reply that is JSON but not an object holding both
    fields, all give [is_complex = False] with a reasoning text. *)
Theorem analyze_safe_default (svc : services) (query : string) (h : history) :
  (forall e,
      chain_invoke svc h Classifier [("query", query)] = Raise e ->
      is_JSONDecodeError e = false ->
      fst (QueryAnalyzer.analyze svc query h)
      = Return (PyDict [("is_complex", PyBool false);
                        ("reasoning", PyStr ("Error: " ++ exn_str e))])) /\
  (forall response e,
      chain_invoke svc h Classifier [("query", query)] = Return response ->
      json_loads svc response = Raise e ->
      fst (QueryAnalyzer.analyze svc query h)
      = Return (PyDict [("is_complex", PyBool false);
                        ("reasoning",
                         PyStr (if is_JSONDecodeError e
                                then "Failed to parse response"
                                else "Error: " ++ exn_str e))])) /\
  (forall response v,
      chain_invoke svc h Classifier [("query", query)] = Return response ->
      json_loads svc response = Return v ->
      (forall fields, v = PyDict fields ->
         lookup "is_complex" fields = None \/ lookup "reasoning" fields = None) ->
      exists msg,
        fst (QueryAnalyzer.analyze svc query h)
        = Return (PyDict [("is_complex", PyBool false);
                          ("reasoning", PyStr ("Error: " ++ msg))])).
Proof.
  unfold QueryAnalyzer.analyze, invoke. split; [|split].
  - intros e He E. rewrite He. cbn [fst]. unfold QueryAnalyzer.handlers.
    now rewrite E.
  - intros response e Hr Hl. rewrite Hr. unfold QueryAnalyzer.parse.
    rewrite Hl. cbn [rbind fst]. unfold QueryAnalyzer.handlers.
    destruct (is_JSONDecodeError e); reflexivity.
  - intros response v Hr Hl Hv. rewrite Hr. unfold QueryAnalyzer.parse.
    rewrite Hl. cbn [rbind].
    destruct v as [|b|n|q|s|items|fields];
      try (eexists; reflexivity).
    unfold py_getitem.
    destruct (lookup "is_complex" fields) as [c|] eqn:Ec.
    + destruct (lookup "reasoning" fields) as [r|] eqn:Er.
      * destruct (Hv fields eq_refl); congruence.
      * eexists. reflexivity.
    + eexists. reflexivity.
Qed.

Lemma analyze_safe_default_witness :
  fst (QueryAnalyzer.analyze MoreSamples.model_down "What is X?" [])
  = Return (PyDict [("is_complex", PyBool false);
                    ("reasoning", PyStr "Error: Connection error.")]).
Proof.
  apply (proj1 (analyze_safe_default MoreSamples.model_down "What is X?" [])
           Samples.connection_error); reflexivity.
Defined.

(** X10.  [analyze] does not check the types of the fields: a reply that
    parses to an object holding ['is_complex'] and ['reasoning'] is
    returned as parsed, whatever the two values are. *)
Theorem analyze_passes_payload_through (svc : services) (query : string)
  (h : history) (response : string) (fields : list (string * pyval))
  (c r : pyval) :
  chain_invoke svc h Classifier [("query", query)] = Return response ->
  json_loads svc response = Return (PyDict fields) ->
  lookup "is_complex" fields = Some c ->
  lookup "reasoning" fields = Some r ->
  fst (QueryAnalyzer.analyze svc query h) = Return (PyDict fields).
Proof.
  intros Hr Hl Hc Hrs. unfold QueryAnalyzer.analyze, invoke. rewrite Hr.
  unfold QueryAnalyzer.parse. rewrite Hl. cbn [rbind py_getitem].
  rewrite Hc. cbn [rbind]. rewrite Hrs. reflexivity.
Qed.

Lemma analyze_passes_payload_through_witness :
  fst (QueryAnalyzer.analyze Samples.empty_decomposition "What is X?" [])
  = Return (PyDict [("is_complex", PyBool true);
                    ("reasoning", PyStr "two questions")]).
Proof.
  apply (analyze_passes_payload_through Samples.empty_decomposition "What is X?" []
           Samples.complex_text _ (PyBool true) (PyStr "two questions"));
    reflexivity.
Defined.

Lemma sized_len (v : pyval) : sized v -> exists n, py_len v = Return n.
Proof. destruct v; simpl; intros H; try contradiction; eexists; reflexivity. Qed.

Lemma sized_iter (v : pyval) : sized v -> exists items, py_iter v = Return items.
Proof. destruct v; simpl; intros H; try contradiction; eexists; reflexivity. Qed.

Lemma len_sized (v : pyval) (n : Z) : py_len v = Return n -> sized v.
Proof. destruct v; simpl; intros H; try discriminate; exact I. Qed.

(** X11.  [decompose] calls the model once.  Whatever it returns has a
    length and can be iterated (a list, a string or a dictionary), so the
    caller's [len(sub_questions)] and the loop of the retriever accept it;
    it raises only [UnboundLocalError], and only when the model call itself
    raised an exception of class [json.JSONDecodeError]. *)
Theorem decompose_outcome_shape (svc : services) (query : string) (h : history) :
  snd (QueryDecomposer.decompose svc query h)
  = (h ++ [EvInvoke Decomposer [("query", query)]])%list /\
  match fst (QueryDecomposer.decompose svc query h) with
  | Return v =>
      (exists n, py_len v = Return n) /\ (exists items, py_iter v = Return items)
  | Raise e =>
      class_of e = UnboundLocalError /\
      exists e0,
        chain_invoke svc h Decomposer [("query", query)] = Raise e0 /\
        is_JSONDecodeError e0 = true
  end.
Proof.
  split; [apply decompose_trace|].
  unfold QueryDecomposer.decompose, invoke.
  destruct (chain_invoke svc h Decomposer [("query", query)]) as [response|e].
  - destruct (QueryDecomposer.parse svc response) as [v|e0] eqn:Ep; cbn [fst].
    + unfold QueryDecomposer.parse in Ep.
      destruct (json_loads svc response) as [v0|]; [|discriminate]. simpl in Ep.
      destruct (py_get v0 "sub_questions" (PyList [])) as [sq|]; [|discriminate].
      simpl in Ep. destruct (py_len sq) as [n|] eqn:El; [|discriminate].
      simpl in Ep. destruct (py_iter sq) as [items|] eqn:Ei; [|discriminate].
      simpl in Ep. injection Ep as <-. split; eexists; eassumption.
    + unfold QueryDecomposer.handlers.
      destruct (is_JSONDecodeError e0); split; eexists; reflexivity.
  - cbn [fst]. unfold QueryDecomposer.handlers.
    destruct (is_JSONDecodeError e) eqn:E.
    + split; [reflexivity|]. now exists e.
    + split; eexists; reflexivity.
Qed.

(** X12.  The fallback of [decompose]: an exception of the model call of
    any class but [json.JSONDecodeError], a reply that [json.loads]
    rejects, a reply that is JSON but not an object, and an object whose
    ['sub_questions'] has no length (a number, a boolean, [null]) all give
    the one-element list [[query]]. *)
Theorem decompose_fallback (svc : services) (query : string) (h : history) :
  (forall e,
      chain_invoke svc h Decomposer [("query", query)] = Raise e ->
      is_JSONDecodeError e = false ->
      fst (QueryDecomposer.decompose svc query h) = Return (PyList [PyStr query])) /\
  (forall response e,
      chain_invoke svc h Decomposer [("query", query)] = Return response ->
      json_loads svc response = Raise e ->
      fst (QueryDecomposer.decompose svc query h) = Return (PyList [PyStr query])) /\
  (forall response v,
      chain_invoke svc h Decomposer [("query", query)] = Return response ->
      json_loads svc response = Return v ->
      (forall fields, v <> PyDict fields) ->
      fst (QueryDecomposer.decompose svc query h) = Return (PyList [PyStr query])) /\
  (forall response fields sq,
      chain_invoke svc h Decomposer [("query", query)] = Return response ->
      json_loads svc response = Return (PyDict fields) ->
      lookup "sub_questions" fields = Some sq ->
      ~ sized sq ->
      fst (QueryDecomposer.decompose svc query h) = Return (PyList [PyStr query])).
Proof.
  unfold QueryDecomposer.decompose, invoke. split; [|split; [|split]].
  - intros e He E. rewrite He. cbn [fst]. unfold QueryDecomposer.handlers.
    now rewrite E.
  - intros response e Hr Hl. rewrite Hr. unfold QueryDecomposer.parse.
    rewrite Hl. cbn [rbind fst]. unfold QueryDecomposer.handlers.
    destruct (is_JSONDecodeError e); reflexivity.
  - intros response v Hr Hl Hv. rewrite Hr. unfold QueryDecomposer.parse.
    rewrite Hl. cbn [rbind].
    destruct v as [|b|n|q|s|items|fields]; try reflexivity.
    destruct (Hv fields eq_refl).
  - intros response fields sq Hr Hl Hs Hn. rewrite Hr.
    unfold QueryDecomposer.parse. rewrite Hl. cbn [rbind py_get].
    rewrite Hs. cbn [get_default rbind].
    destruct sq; simpl in Hn; try tauto; reflexivity.
Qed.

Lemma decompose_fallback_witness :
  fst (QueryDecomposer.decompose MoreSamples.model_down "What is X?" [])
  = Return (PyList [PyStr "What is X?"]).
Proof.
  apply (proj1 (decompose_fallback MoreSamples.model_down "What is X?" [])
           Samples.connection_error); reflexivity.
Defined.

(** X13.  [decompose] does not check what the model listed: when the
    reply is an object, the value under ['sub_questions'] is returned as
    it is whenever it has a length, be it a list of any values (the empty
    list included), a string or a dictionary; without that key the result
    is the empty list. *)
Theorem decompose_passes_value_through (svc : services) (query : string)
  (h : history) (response : string) (fields : list (string * pyval)) :
  chain_invoke svc h Decomposer [("query", query)] = Return response ->
  json_loads svc response = Return (PyDict fields) ->
  (forall sq, lookup "sub_questions" fields = Some sq -> sized sq ->
     fst (QueryDecomposer.decompose svc query h) = Return sq) /\
  (lookup "sub_questions" fields = None ->
     fst (QueryDecomposer.decompose svc query h) = Return (PyList [])).
Proof.
  intros Hr Hl. unfold QueryDecomposer.decompose, invoke. rewrite Hr.
  unfold QueryDecomposer.parse. rewrite Hl. cbn [rbind py_get]. split.
  - intros sq Hs Hsz. rewrite Hs. cbn [get_default].
    destruct sq; simpl in Hsz; try contradiction; reflexivity.
  - intros Hs. rewrite Hs. reflexivity.
Qed.

Lemma decompose_passes_value_through_witness :
  fst (QueryDecomposer.decompose Samples.empty_decomposition "What is X?" [])
  = Return (PyList []).
Proof.
  apply (proj1 (decompose_passes_value_through Samples.empty_decomposition
                  "What is X?" [] Samples.empty_decomposition_text
                  [("sub_questions", PyList [])] eq_refl eq_refl)
           (PyList [])).
  - reflexivity.
  - exact I.
Defined.

End AgentExtras.

(** * Further properties of the synthesizer and of the endpoint *)

Section EndpointExtras.

Import AnswerSynthesizer.

(** [synthesize] raises nothing and calls the model once. *)
Lemma synthesize_outcome (svc : services) (question context : string)
  (chunks : list Chunk) (h : history) :
  exists r : SynthesisResult,
    synthesize svc question context chunks h
    = (Return r,
       (h ++ [EvInvoke Synthesizer [("context", context); ("question", question)]])%list) /\
    context_used r = Z.of_nat (List.length (sources r)) /\
    (List.length (sources r) = List.length chunks \/ sources r = []).
Proof.
  unfold synthesize, invoke.
  destruct (chain_invoke svc h Synthesizer _) as [response|e]; eexists;
    (split; [reflexivity|]); cbn [context_used sources error_result].
  - rewrite format_sources_map, length_map. split; [reflexivity|now left].
  - split; [reflexivity|now right].
Qed.


Lemma round_half_even_range (q : Q) (lo hi : Z) :
  (inject_Z lo <= q)%Q -> (q <= inject_Z hi)%Q ->
  lo <= round_half_even q <= hi.
Proof.
  intros Hlo Hhi. pose proof (round_half_even_close q) as H.
  destruct q as [n d]. unfold Qle in *. cbn [Qnum Qden inject_Z] in *.
  revert H. generalize (round_half_even (n # d)). intros z H. nia.
Qed.

(** On the unit interval [round3] stays in the interval, and is away
    from its argument by at most half a thousandth and the rounding error
    of a double. *)
Lemma round3_unit_range (x : Q) :
  (0 <= x)%Q -> (x <= 1)%Q ->
  (Qabs (round3 x - x) <= (1 # 2000) + 2 ^ (-53))%Q /\
  (0 <= round3 x)%Q /\ (round3 x <= 1)%Q.
Proof.
  intros H0 H1.
  assert (Hr : 0 <= round_half_even (x * 1000) <= 1000).
  { apply round_half_even_range.
    - change (inject_Z 0) with (0 * 1000)%Q. apply Qmult_le_compat_r; [assumption|].
      discriminate.
    - change (inject_Z 1000) with (1 * 1000)%Q. apply Qmult_le_compat_r; [assumption|].
      discriminate. }
  destruct (round_half_even_bounds (x * 1000)) as [Hl Hu].
  unfold round3. set (k := round_half_even (x * 1000)) in *.
  assert (Hd : (inject_Z k / 1000 == inject_Z k * (1 # 1000))%Q) by reflexivity.
  assert (Hk0 : (inject_Z 0 <= inject_Z k)%Q) by (rewrite <- Zle_Qle; lia).
  assert (Hk1 : (inject_Z k <= inject_Z 1000)%Q) by (rewrite <- Zle_Qle; lia).
  change (inject_Z 0) with 0%Q in Hk0. change (inject_Z 1000) with 1000%Q in Hk1.
  set (d := (inject_Z k / 1000)%Q) in *.
  assert (Hunit : (0 <= d <= 1)%Q) by (split; lra).
  pose proof (nearest_double_unit_error _ Hunit) as He.
  pose proof (nearest_double_unit _ Hunit) as [Hn0 Hn1].
  apply Qabs_Qle_condition in He. destruct He as [He1 He2].
  split; [|split; assumption].
  apply Qabs_Qle_condition. split; lra.
Qed.

(** X15.  For a chunk whose similarity lies between 0 and 1 ([0] when
    the chunk has none), the similarity listed for its source lies
    between 0 and 1 too, and differs from it by at most half a
    thousandth plus [2 ^ -53], the rounding error of the double that
    holds the decimal. *)
Theorem format_sources_similarity_range (chunks : list Chunk) (n : nat)
  (chunk : Chunk) (src : Source) :
  nth_error chunks n = Some chunk ->
  nth_error (_format_sources chunks) n = Some src ->
  let x := match similarity chunk with Some q => q | None => 0%Q end in
  (0 <= x)%Q -> (x <= 1)%Q ->
  (Qabs (src_similarity src - x) <= (1 # 2000) + 2 ^ (-53))%Q /\
  (0 <= src_similarity src)%Q /\ (src_similarity src <= 1)%Q.
Proof.
  intros Hc Hs. rewrite format_sources_map, nth_error_map, Hc in Hs.
  injection Hs as <-. cbn [src_similarity format_source].
  apply round3_unit_range.
Qed.

(** The similarity 0.0625 lies half way between 0.062 and 0.063; the
    double listed is the one nearest to 0.062. *)
Lemma format_sources_similarity_range_witness :
  exists src : Source,
    nth_error (_format_sources [Samples.unrounded; Samples.half_way]) 1 = Some src /\
    Qred (src_similarity src) = (1116892707587883 # 18014398509481984)%Q /\
    (Qabs (src_similarity src - (625 # 10000)) <= (1 # 2000) + 2 ^ (-53))%Q /\
    (0 <= src_similarity src)%Q /\ (src_similarity src <= 1)%Q.
Proof.
  eexists. split; [reflexivity|]. split; [vm_compute; reflexivity|].
  apply (format_sources_similarity_range
           [Samples.unrounded; Samples.half_way] 1 Samples.half_way _
           eq_refl eq_refl).
  - vm_compute. discriminate.
  - vm_compute. discriminate.
Defined.

Lemma invocations_app (a : agent) (e1 e2 : list event) :
  invocations a (e1 ++ e2) = (invocations a e1 + invocations a e2)%nat.
Proof.
  induction e1 as [|ev e1 IH]; [reflexivity|].
  destruct ev; simpl; try assumption.
  destruct (agent_eqb a a0); simpl; now rewrite IH.
Qed.

Lemma retrieve_non_string_trace (svc : services) (self : SemanticRetriever.t)
  (top_k0 : option Z) (document_filter : option string) (query : pyval) (h : history) :
  exists evs,
    snd (SemanticRetriever.retrieve_non_string svc self query top_k0 document_filter h)
    = (h ++ evs)%list /\
    forall a, invocations a evs = 0%nat.
Proof.
  unfold SemanticRetriever.retrieve_non_string, bind, embed, search, lift.
  destruct (generate_single_embedding svc h query) as [emb|e].
  - destruct (vector_store_search svc _ emb _ _ _); cbn [snd];
      eexists; (split; [rewrite <- app_assoc; reflexivity|]); reflexivity.
  - eexists. split; [reflexivity|]. reflexivity.
Qed.

(** The retriever never calls the language model. *)
Lemma retrieve_loop_trace (svc : services) (self : SemanticRetriever.t)
  (top_k0 : option Z) (document_filter : option string) (queries : list pyval) :
  forall (d0 : ResultMap) (h : history),
  exists evs,
    snd (SemanticRetriever.retrieve_loop svc self queries top_k0 document_filter d0 h)
    = (h ++ evs)%list /\
    forall a, invocations a evs = 0%nat.
Proof.
  induction queries as [|x queries IH]; intros d0 h.
  - exists []. simpl. now rewrite app_nil_r.
  - destruct x as [|b|n|q|s|items|fields]; simpl;
      try apply retrieve_non_string_trace.
    unfold bind.
    destruct (retrieve_trace svc self top_k0 document_filter s h)
      as (evs1 & Hh & _ & _ & Hinv).
    destruct (SemanticRetriever.retrieve svc self s top_k0 document_filter h)
      as [[r|e] h1]; cbn [snd] in Hh; subst h1.
    + destruct (IH (SemanticRetriever.dict_set d0 s r) (h ++ evs1)%list)
        as (evs2 & -> & Hinv2).
      exists (evs1 ++ evs2)%list. split; [now rewrite app_assoc|].
      intros a. now rewrite invocations_app, Hinv, Hinv2.
    + exists evs1. split; [reflexivity|assumption].
Qed.

Lemma plan_trace (svc : services) (question0 : string) (h : history) :
  exists evs,
    snd (Main.plan svc question0 h) = (h ++ evs)%list /\
    invocations Classifier evs = 1%nat /\
    (invocations Decomposer evs <= 1)%nat /\
    invocations Synthesizer evs = 0%nat.
Proof.
  unfold Main.plan, bind, lift, ret.
  pose proof (analyze_trace svc question0 h) as Ha.
  destruct (QueryAnalyzer.analyze svc question0 h) as [[v|e] h1];
    cbn [snd] in Ha; subst h1.
  - destruct (py_getitem v "is_complex") as [c|e].
    + destruct (truthy c).
      * pose proof (decompose_trace svc question0
                      (h ++ [EvInvoke Classifier [("query", question0)]])%list) as Hd.
        destruct (QueryDecomposer.decompose svc question0 _) as [[s|e] h2];
          cbn [snd] in Hd; subst h2.
        -- destruct (py_len s); cbn [snd]; rewrite <- app_assoc;
             eexists; (split; [reflexivity|]); simpl; lia.
        -- rewrite <- app_assoc. eexists. split; [reflexivity|]. simpl. lia.
      * eexists. split; [reflexivity|]. simpl. lia.
    + eexists. split; [reflexivity|]. simpl. lia.
  - eexists. split; [reflexivity|]. simpl. lia.
Qed.

Lemma agent_eqb_refl (a : agent) : agent_eqb a a = true.
Proof. now destruct a. Qed.

Lemma no_invocations (evs : list event) :
  (forall a, invocations a evs = 0%nat) ->
  forall a inputs, ~ In (EvInvoke a inputs) evs.
Proof.
  induction evs as [|ev evs IH]; intros H a inputs; simpl; [tauto|].
  intros [Heq|Hin].
  - subst ev. specialize (H a). simpl in H. rewrite agent_eqb_refl in H.
    discriminate.
  - apply IH with (a := a) (inputs := inputs); [|exact Hin].
    intros b. specialize (H b). destruct ev as [c inputs0| |]; simpl in H;
      try exact H.
    destruct (agent_eqb b c); [discriminate|exact H].
Qed.

(** X16.  In one run of [query_documents] the classifier chain is called
    exactly once, and the decomposer and synthesizer chains at most once
    each: no path of the endpoint repeats a model call.  The retriever
    never calls the language model: a run of
    [retrieve_for_multiple_queries] adds no call of a chain to the
    history. *)
Theorem query_documents_model_calls (svc : services) (app : Main.components)
  (request : Main.QueryRequest) (h : history) :
  (exists evs,
      snd (Main.query_documents svc app request h) = (h ++ evs)%list /\
      invocations Classifier evs = 1%nat /\
      (invocations Decomposer evs <= 1)%nat /\
      (invocations Synthesizer evs <= 1)%nat) /\
  (forall (self : SemanticRetriever.t) (queries : list pyval) (top_k0 : option Z)
          (document_filter : option string) (h0 : history),
      exists evs,
        snd (SemanticRetriever.retrieve_for_multiple_queries svc self queries
               top_k0 document_filter h0) = (h0 ++ evs)%list /\
        forall a inputs, ~ In (EvInvoke a inputs) evs).
Proof.
  split.
  2:{ intros self queries top_k0 document_filter h0.
      unfold SemanticRetriever.retrieve_for_multiple_queries.
      destruct (retrieve_loop_trace svc self top_k0 document_filter queries [] h0)
        as (evs & Hr & Hinv).
      exists evs. split; [exact Hr|]. now apply no_invocations. }
  assert (Hbody : exists evs,
             snd (Main.query_body svc app request h) = (h ++ evs)%list /\
             invocations Classifier evs = 1%nat /\
             (invocations Decomposer evs <= 1)%nat /\
             (invocations Synthesizer evs <= 1)%nat).
  { unfold Main.query_body, bind.
    destruct (plan_trace svc (Main.question request) h) as (evs1 & Hp & Hc & Hd & Hs).
    destruct (Main.plan svc (Main.question request) h) as [[[[analysis c] sq]|e] h1];
      cbn [snd] in Hp; subst h1.
    2:{ exists evs1. repeat split; try assumption; lia. }
    unfold lift. destruct (py_iter sq) as [queries|e].
    2:{ exists evs1. repeat split; try assumption; lia. }
    unfold SemanticRetriever.retrieve_for_multiple_queries.
    destruct (retrieve_loop_trace svc (Main.retriever app) None
                (Main.document_filter request) queries [] (h ++ evs1)%list)
      as (evs2 & Hr & Hinv).
    destruct (SemanticRetriever.retrieve_loop svc (Main.retriever app) queries None
                (Main.document_filter request) [] (h ++ evs1)%list)
      as [[results|e] h2]; cbn [snd] in Hr; subst h2.
    2:{ exists (evs1 ++ evs2)%list. rewrite app_assoc.
        split; [reflexivity|]. rewrite !invocations_app, !Hinv. lia. }
    match goal with
    | |- context [synthesize svc ?q ?ctx ?ch ?hh] =>
        destruct (synthesize_outcome svc q ctx ch hh) as (r & -> & _)
    end.
    eexists. split.
    - destruct (Main.respond svc _ _ _ _ _ r); cbn [snd];
        rewrite <- !app_assoc; reflexivity.
    - rewrite !invocations_app, !Hinv. simpl. lia. }
  destruct Hbody as (evs & Hb & H1 & H2 & H3).
  exists evs. split; [|auto].
  unfold Main.query_documents.
  destruct (Main.query_body svc app request h) as [[resp|e] h']; exact Hb.
Qed.


End EndpointExtras.

Section SimplePath.

Lemma plan_simple (svc : services) (question0 : string) (h : history) (v c : pyval) :
  fst (QueryAnalyzer.analyze svc question0 h) = Return v ->
  py_getitem v "is_complex" = Return c ->
  truthy c = false ->
  Main.plan svc question0 h
  = (Return (v, c, PyList [PyStr question0]),
     (h ++ [EvInvoke Classifier [("query", question0)]])%list).
Proof.
  intros Ha Hc Ht. unfold Main.plan, bind, lift, ret.
  pose proof (analyze_trace svc question0 h) as Hh.
  destruct (QueryAnalyzer.analyze svc question0 h) as [r h1].
  cbn [fst snd] in *. subst r h1. now rewrite Hc, Ht.
Qed.

(** X18.  A question whose classification is not truthy is never sent to
    the decomposer: the original question is the only text embedded, at
    most one search is made, and a response, when there is one, carries no
    sub-questions. *)
Theorem simple_question_path (svc : services) (app : Main.components)
  (request : Main.QueryRequest) (h : history) (v c : pyval) :
  fst (QueryAnalyzer.analyze svc (Main.question request) h) = Return v ->
  py_getitem v "is_complex" = Return c ->
  truthy c = false ->
  (exists evs,
      snd (Main.query_documents svc app request h) = (h ++ evs)%list /\
      invocations Decomposer evs = 0%nat /\
      embedded_texts evs = [PyStr (Main.question request)] /\
      (search_count evs <= 1)%nat) /\
  (forall response,
      fst (Main.query_documents svc app request h) = Return response ->
      Main.resp_sub_questions response = None).
Proof.
  intros Ha Hc Ht.
  pose proof (plan_simple svc _ h v c Ha Hc Ht) as Hp.
  unfold Main.query_documents, Main.query_body, bind, lift.
  rewrite Hp. cbn [py_iter].
  unfold SemanticRetriever.retrieve_for_multiple_queries.
  cbn [SemanticRetriever.retrieve_loop]. unfold bind, ret.
  set (h1 := (h ++ [EvInvoke Classifier [("query", Main.question request)]])%list).
  destruct (retrieve_trace svc (Main.retriever app) None (Main.document_filter request)
              (Main.question request) h1) as (evs2 & Hh & Hemb & Hcnt & Hinv).
  destruct (SemanticRetriever.retrieve svc (Main.retriever app) (Main.question request)
              None (Main.document_filter request) h1) as [[r|e] h2];
    cbn [snd] in Hh; subst h2.
  - match goal with
    | |- context [AnswerSynthesizer.synthesize svc ?q ?ctx ?ch ?hh] =>
        destruct (synthesize_outcome svc q ctx ch hh) as (sr & -> & _)
    end.
    unfold Main.respond. rewrite Ht.
    destruct (py_getitem v "reasoning") as [reasoning|e]; cbn [rbind].
    + destruct (Main.validate_bool svc c) as [b|]; cbn [Main.validate_sub_questions].
      * split.
        -- eexists. split; [cbn [snd]; unfold h1; rewrite <- !app_assoc; reflexivity|].
           rewrite !invocations_app, !embedded_texts_app, !search_count_app, Hinv, Hemb.
           simpl. repeat split; lia.
        -- cbn [fst]. intros response H. injection H as <-. reflexivity.
      * split.
        -- eexists. split; [cbn [snd]; unfold h1; rewrite <- !app_assoc; reflexivity|].
           rewrite !invocations_app, !embedded_texts_app, !search_count_app, Hinv, Hemb.
           simpl. repeat split; lia.
        -- cbn [fst]. discriminate.
    + split.
      * eexists. split; [cbn [snd]; unfold h1; rewrite <- !app_assoc; reflexivity|].
        rewrite !invocations_app, !embedded_texts_app, !search_count_app, Hinv, Hemb.
        simpl. repeat split; lia.
      * cbn [fst]. discriminate.
  - split.
    + eexists. split; [cbn [snd]; unfold h1; rewrite <- !app_assoc; reflexivity|].
      rewrite !invocations_app, !embedded_texts_app, !search_count_app, Hinv, Hemb.
      simpl. repeat split; lia.
    + cbn [fst]. discriminate.
Qed.

Lemma simple_question_path_witness :
  exists evs,
    snd (Main.query_documents Samples.synthesis_down Main.startup Samples.request [])
    = ([] ++ evs)%list /\
    invocations Decomposer evs = 0%nat /\
    embedded_texts evs = [PyStr (Main.question Samples.request)] /\
    (search_count evs <= 1)%nat.
Proof.
  apply (proj1 (simple_question_path Samples.synthesis_down Main.startup
                  Samples.request []
                  (PyDict [("is_complex", PyBool false);
                           ("reasoning", PyStr "one question")])
                  (PyBool false) eq_refl eq_refl eq_refl)).
Defined.

End SimplePath.

(** * Properties of chunking *)

Section ChunkerProperties.

Import DocumentChunker.

Lemma lookup_set_same (d : pydict) (key : string) (v : pyval) :
  lookup key (pydict_set d key v) = Some v.
Proof.
  induction d as [|[k0 v0] d IH]; simpl.
  - now rewrite String.eqb_refl.
  - destruct (String.eqb k0 key) eqn:E; simpl; now rewrite E.
Qed.

Lemma lookup_set_other (d : pydict) (key k : string) (v : pyval) :
  key <> k -> lookup key (pydict_set d k v) = lookup key d.
Proof.
  intros Hne. induction d as [|[k0 v0] d IH]; simpl.
  - destruct (String.eqb k key) eqn:E; [|reflexivity].
    apply String.eqb_eq in E. congruence.
  - destruct (String.eqb k0 k) eqn:E; simpl.
    + apply String.eqb_eq in E. subst k0.
      destruct (String.eqb k key) eqn:E'; [|reflexivity].
      apply String.eqb_eq in E'. congruence.
    + now rewrite IH.
Qed.

Lemma lookup_not_in (d : pydict) (key : string) :
  ~ In key (map fst d) -> lookup key d = None.
Proof.
  induction d as [|[k0 v0] d IH]; simpl; intros H; [reflexivity|].
  destruct (String.eqb k0 key) eqn:E.
  - apply String.eqb_eq in E. tauto.
  - apply IH. tauto.
Qed.

(** Setting entries never removes a key. *)
Lemma lookup_set_keeps (d : pydict) (key k : string) (v v0 : pyval) :
  lookup key d = Some v0 -> exists v', lookup key (pydict_set d k v) = Some v'.
Proof.
  intros H. destruct (string_dec key k) as [->|Hne].
  - rewrite lookup_set_same. eauto.
  - rewrite lookup_set_other by assumption. eauto.
Qed.

Lemma lookup_update_keeps (extra : pydict) :
  forall (d : pydict) (key : string) (v0 : pyval),
    lookup key d = Some v0 -> exists v', lookup key (pydict_update d extra) = Some v'.
Proof.
  unfold pydict_update.
  induction extra as [|[k v] extra IH]; intros d key v0 H; simpl.
  - eauto.
  - destruct (lookup_set_keeps d key k v v0 H) as (v' & Hv'). eapply IH, Hv'.
Qed.

(** With distinct keys in [extra], an entry of [extra] wins over [d]. *)
Lemma lookup_update (extra : pydict) :
  NoDup (map fst extra) ->
  forall (d : pydict) (key : string),
    lookup key (pydict_update d extra)
    = match lookup key extra with
      | Some v => Some v
      | None => lookup key d
      end.
Proof.
  unfold pydict_update.
  induction extra as [|[k v] extra IH]; intros Hnd d key; simpl; [reflexivity|].
  inversion Hnd as [|? ? Hk Hnd']; subst. rewrite (IH Hnd').
  destruct (String.eqb k key) eqn:E.
  - apply String.eqb_eq in E. subst k.
    rewrite (lookup_not_in extra key Hk). apply lookup_set_same.
  - destruct (lookup key extra); [reflexivity|].
    apply lookup_set_other. intros ->. now rewrite String.eqb_refl in E.
Qed.

Lemma split_loop_group (document_name : string) (pn ct bm : pyval)
  (texts : list string) :
  forall (idx : Z) (acc out : list RawChunk),
    split_loop document_name pn ct bm idx texts acc = Return out ->
    (texts = [] /\ out = acc) \/
    exists extra,
      bm = PyDict extra /\
      out = (acc ++ text_group document_name pn ct extra idx texts)%list.
Proof.
  induction texts as [|text rest IH]; intros idx acc out H; simpl in H.
  - left. injection H as <-. now split.
  - right. destruct bm as [| | | | | |extra]; try discriminate. simpl in H.
    exists extra. split; [reflexivity|].
    destruct (IH _ _ _ H) as [[-> ->]|(extra' & Heq & ->)].
    + reflexivity.
    + injection Heq as <-. simpl. now rewrite <- app_assoc.
Qed.

Lemma chunk_block_group (self : t) (document_name : string) (block : pydict)
  (acc out : list RawChunk) :
  chunk_block self document_name block acc = Return out ->
  exists group,
    out = (acc ++ group)%list /\ block_chunks self document_name block group.
Proof.
  unfold chunk_block, block_chunks, py_getitem.
  destruct (lookup "content" block) as [content0|]; [|discriminate].
  destruct (lookup "content_type" block) as [ct|]; [|discriminate].
  cbn [rbind]. destruct (is_table ct) eqn:Et.
  - destruct (get_default (lookup "metadata" block) (PyDict []))
      as [| | | | | |extra] eqn:Em; try discriminate.
    cbn [as_mapping rbind]. intros H. injection H as <-.
    eexists. split; [reflexivity|].
    exists content0, ct. rewrite Et. repeat split. now exists extra.
  - destruct (split_text self content0) as [texts|e] eqn:Es; [|discriminate].
    cbn [rbind]. intros H.
    destruct (split_loop_group _ _ _ _ _ _ _ _ H) as [[-> ->]|(extra & Hm & ->)].
    + exists []. split; [now rewrite app_nil_r|].
      exists content0, ct. rewrite Et. repeat split. exists []. split; [assumption|].
      now left.
    + eexists. split; [reflexivity|].
      exists content0, ct. rewrite Et. repeat split. exists texts.
      split; [assumption|]. right. now exists extra.
Qed.

Lemma blocks_loop_groups (self : t) (document_name : string) (blocks : list pydict) :
  forall (acc out : list RawChunk),
    blocks_loop self document_name blocks acc = Return out ->
    exists groups,
      out = (acc ++ List.concat groups)%list /\
      Forall2 (block_chunks self document_name) blocks groups.
Proof.
  induction blocks as [|block rest IH]; intros acc out H; simpl in H.
  - injection H as <-. exists []. split; [now rewrite app_nil_r|constructor].
  - destruct (chunk_block self document_name block acc) as [acc'|e] eqn:Eb;
      [|discriminate].
    cbn [rbind] in H.
    destruct (chunk_block_group _ _ _ _ _ Eb) as (group & -> & Hg).
    destruct (IH _ _ H) as (groups & -> & Hgs).
    exists (group :: groups). split; [simpl; now rewrite <- app_assoc|].
    now constructor.
Qed.

(** Every chunk of a block carries the four standard fields. *)
Lemma block_chunks_keys (self : t) (document_name : string) (block : pydict)
  (group : list RawChunk) (c : RawChunk) (key : string) :
  block_chunks self document_name block group ->
  In c group ->
  In key ["document_name"; "page_number"; "content_type"; "chunk_index"] ->
  exists v, lookup key (raw_metadata c) = Some v.
Proof.
  intros (content0 & ct & _ & _ & Hb) Hc Hk. cbn zeta in Hb.
  assert (Hbase : forall idx extra,
             exists v,
               lookup key (text_metadata document_name
                             (get_default (lookup "page_number" block) PyNone)
                             ct idx extra) = Some v).
  { intros idx extra. unfold text_metadata.
    destruct Hk as [<-|[<-|[<-|[<-|[]]]]];
      eapply lookup_update_keeps; reflexivity. }
  destruct (is_table ct).
  - destruct Hb as (extra & _ & ->). destruct Hc as [<-|[]]. cbn [raw_metadata].
    unfold table_metadata.
    destruct Hk as [<-|[<-|[<-|[<-|[]]]]];
      eapply lookup_update_keeps; reflexivity.
  - destruct Hb as (texts & _ & [[_ ->]|(extra & _ & ->)]); [contradiction|].
    clear - Hc Hbase. revert Hc. generalize 0 at 1.
    induction texts as [|text rest IH]; intros idx Hc; [contradiction|].
    destruct Hc as [<-|Hc]; [apply Hbase|]. eapply IH, Hc.
Qed.

(** X19.  Every chunk returned by [chunk_content_blocks] records, under
    ['total_chunks'], the number of chunks returned (a value of that name in
    the metadata of a block is overwritten), and carries the fields
    ['document_name'], ['page_number'], ['content_type'] and
    ['chunk_index']. *)
Theorem chunk_content_blocks_fields (self : t) (blocks : list pydict)
  (document_name : string) (chunks : list RawChunk) (c : RawChunk) :
  chunk_content_blocks self blocks document_name = Return chunks ->
  In c chunks ->
  lookup "total_chunks" (raw_metadata c)
  = Some (PyInt (Z.of_nat (List.length chunks))) /\
  forall key,
    In key ["document_name"; "page_number"; "content_type"; "chunk_index"] ->
    exists v, lookup key (raw_metadata c) = Some v.
Proof.
  unfold chunk_content_blocks. intros H Hc.
  destruct (blocks_loop self document_name blocks []) as [all|e] eqn:Eb;
    [|discriminate].
  cbn [rbind] in H. injection H as <-. rewrite length_map.
  apply in_map_iff in Hc. destruct Hc as (c0 & <- & Hc0).
  split; [apply lookup_set_same|].
  intros key Hk. cbn [set_total raw_metadata].
  destruct (blocks_loop_groups _ _ _ _ _ Eb) as (groups & -> & Hgs).
  simpl in Hc0. apply in_concat in Hc0. destruct Hc0 as (group & Hg & Hcg).
  assert (Hblock : exists block, block_chunks self document_name block group).
  { clear - Hgs Hg. induction Hgs as [|b g bs gs Hbg _ IH]; [contradiction|].
    destruct Hg as [<-|Hg]; [now exists b | now apply IH]. }
  destruct Hblock as (block & Hb).
  destruct (block_chunks_keys _ _ _ _ _ key Hb Hcg Hk) as (v & Hv).
  eapply lookup_set_keeps, Hv.
Qed.

Lemma chunk_content_blocks_fields_witness :
  lookup "total_chunks" (raw_metadata IngestSamples.second_chunk)
  = Some (PyInt (Z.of_nat (List.length IngestSamples.chunked))).
Proof.
  apply (proj1 (chunk_content_blocks_fields IngestSamples.chunker
                  [IngestSamples.page_block; IngestSamples.table] "doc.pdf"
                  IngestSamples.chunked IngestSamples.second_chunk
                  eq_refl (or_intror (or_introl eq_refl)))).
Defined.

End ChunkerProperties.

Section ChunkerStructure.

Import DocumentChunker.

Lemma text_group_contents (document_name : string) (pn ct : pyval) (extra : pydict)
  (texts : list string) :
  forall idx : Z,
    map raw_content (text_group document_name pn ct extra idx texts) = map PyStr texts.
Proof.
  induction texts as [|text rest IH]; intros idx; simpl; [reflexivity|].
  now rewrite IH.
Qed.

Lemma text_group_nth (document_name : string) (pn ct : pyval) (extra : pydict)
  (texts : list string) :
  forall (idx : Z) (i : nat) (c : RawChunk),
    nth_error (text_group document_name pn ct extra idx texts) i = Some c ->
    exists text,
      nth_error texts i = Some text /\
      c = mkRaw (PyStr text)
            (text_metadata document_name pn ct (idx + Z.of_nat i) extra).
Proof.
  induction texts as [|text rest IH]; intros idx i c H.
  - destruct i; discriminate.
  - destruct i as [|i]; simpl in H.
    + injection H as <-. exists text. split; [reflexivity|].
      now rewrite Z.add_0_r.
    + destruct (IH _ _ _ H) as (t & Ht & ->). exists t. split; [assumption|].
      do 2 f_equal. lia.
Qed.

Lemma set_total_content (n : Z) (l : list RawChunk) :
  map raw_content (map (set_total n) l) = map raw_content l.
Proof. rewrite map_map. reflexivity. Qed.

Lemma concat_map_map {A B : Type} (f : A -> B) (ls : list (list A)) :
  map f (List.concat ls) = List.concat (map (map f) ls).
Proof.
  induction ls as [|l ls IH]; simpl; [reflexivity|]. now rewrite map_app, IH.
Qed.

(** X20.  [chunk_content_blocks] goes through the blocks in order and
    keeps that order: a block whose content type is ['table'] gives one
    chunk holding its content unsplit, any other block gives one chunk
    per piece returned by the text splitter, in the order of the pieces
    (none when the splitter returns none). *)
Theorem chunk_content_blocks_contents (self : t) (blocks : list pydict)
  (document_name : string) (chunks : list RawChunk) :
  chunk_content_blocks self blocks document_name = Return chunks ->
  exists groups : list (list pyval),
    map raw_content chunks = List.concat groups /\
    Forall2
      (fun block group =>
         exists content0 content_type0,
           lookup "content" block = Some content0 /\
           lookup "content_type" block = Some content_type0 /\
           if is_table content_type0
           then group = [content0]
           else exists texts,
               split_text self content0 = Return texts /\ group = map PyStr texts)
      blocks groups.
Proof.
  unfold chunk_content_blocks. intros H.
  destruct (blocks_loop self document_name blocks []) as [all|e] eqn:Eb;
    [|discriminate].
  cbn [rbind] in H. injection H as <-.
  destruct (blocks_loop_groups _ _ _ _ _ Eb) as (groups & -> & Hgs).
  exists (map (map raw_content) groups). split.
  - rewrite set_total_content. simpl. apply concat_map_map.
  - clear Eb. induction Hgs as [|block group bs gs Hbg _ IH]; [constructor|].
    simpl. constructor; [|exact IH].
    destruct Hbg as (content0 & ct & Hc & Ht & Hb). cbn zeta in Hb.
    exists content0, ct. split; [assumption|]. split; [assumption|].
    destruct (is_table ct).
    + destruct Hb as (extra & _ & ->). reflexivity.
    + destruct Hb as (texts & Hs & [[-> ->]|(extra & _ & ->)]).
      * now exists [].
      * exists texts. split; [assumption|]. apply text_group_contents.
Qed.

Lemma chunk_content_blocks_contents_witness :
  exists groups : list (list pyval),
    map raw_content IngestSamples.chunked = List.concat groups /\
    Forall2
      (fun block group =>
         exists content0 content_type0,
           lookup "content" block = Some content0 /\
           lookup "content_type" block = Some content_type0 /\
           if is_table content_type0
           then group = [content0]
           else exists texts,
               split_text IngestSamples.chunker content0 = Return texts /\
               group = map PyStr texts)
      [IngestSamples.page_block; IngestSamples.table] groups.
Proof.
  apply (chunk_content_blocks_contents IngestSamples.chunker
           [IngestSamples.page_block; IngestSamples.table] "doc.pdf"
           IngestSamples.chunked eq_refl).
Defined.

(** X21.  The metadata of a chunk: the chunks come in one group per
    block, and in the group of a block whose metadata has distinct keys,
    every entry of that metadata other than ['total_chunks'] is found in
    the chunk unchanged; where the block's metadata does not use the name,
    ['document_name'] is the name given, ['content_type'] and
    ['page_number'] are those of the block ([None] without a page number),
    and ['chunk_index'] is the position of the chunk within its block,
    counted from 0. *)
Theorem chunk_content_blocks_metadata (self : t) (blocks : list pydict)
  (document_name : string) (chunks : list RawChunk) :
  chunk_content_blocks self blocks document_name = Return chunks ->
  exists groups : list (list RawChunk),
    chunks = List.concat groups /\
    Forall2
      (fun block group =>
         forall extra,
           get_default (lookup "metadata" block) (PyDict []) = PyDict extra ->
           NoDup (map fst extra) ->
           forall (i : nat) (c : RawChunk),
             nth_error group i = Some c ->
             (forall key v,
                 lookup key extra = Some v -> key <> "total_chunks" ->
                 lookup key (raw_metadata c) = Some v) /\
             (lookup "document_name" extra = None ->
              lookup "document_name" (raw_metadata c) = Some (PyStr document_name)) /\
             (lookup "content_type" extra = None ->
              lookup "content_type" (raw_metadata c) = lookup "content_type" block) /\
             (lookup "page_number" extra = None ->
              lookup "page_number" (raw_metadata c)
              = Some (get_default (lookup "page_number" block) PyNone)) /\
             (lookup "chunk_index" extra = None ->
              lookup "chunk_index" (raw_metadata c) = Some (PyInt (Z.of_nat i))))
      blocks groups.
Proof.
  unfold chunk_content_blocks. intros H.
  destruct (blocks_loop self document_name blocks []) as [all|e] eqn:Eb;
    [|discriminate].
  cbn [rbind] in H. injection H as <-.
  destruct (blocks_loop_groups _ _ _ _ _ Eb) as (groups & -> & Hgs).
  set (n := Z.of_nat (List.length ([] ++ List.concat groups))).
  exists (map (map (set_total n)) groups). split; [apply concat_map_map|].
  clearbody n. clear Eb.
  induction Hgs as [|block group bs gs Hbg _ IH]; [constructor|].
  simpl. constructor; [|exact IH].
  intros extra Hm Hnd i c Hi.
  rewrite nth_error_map in Hi.
  destruct (nth_error group i) as [c0|] eqn:Ec0; [|discriminate].
  injection Hi as <-. cbn [set_total raw_metadata].
  destruct Hbg as (content0 & ct & Hc & Ht & Hb). cbn zeta in Hb.
  rewrite Hm in Hb.
  assert (Hmeta : exists base,
             raw_metadata c0 = pydict_update base extra /\
             lookup "document_name" base = Some (PyStr document_name) /\
             lookup "content_type" base = Some ct /\
             lookup "page_number" base
             = Some (get_default (lookup "page_number" block) PyNone) /\
             lookup "chunk_index" base = Some (PyInt (Z.of_nat i))).
  { destruct (is_table ct).
    - destruct Hb as (extra' & Heq & ->). injection Heq as <-.
      destruct i as [|i]; [|destruct i; discriminate].
      injection Ec0 as <-. eexists. split; [reflexivity|]. repeat split.
    - destruct Hb as (texts & _ & [[_ ->]|(extra' & Heq & ->)]).
      + destruct i; discriminate.
      + injection Heq as <-.
        destruct (text_group_nth _ _ _ _ _ _ _ _ Ec0) as (text & _ & ->).
        eexists. split; [reflexivity|]. repeat split. }
  destruct Hmeta as (base & Hraw & Hd & Hct & Hpn & Hci). rewrite Hraw.
  assert (Hget : forall key, key <> "total_chunks" ->
             lookup key (pydict_set (pydict_update base extra) "total_chunks" (PyInt n))
             = match lookup key extra with
               | Some v => Some v
               | None => lookup key base
               end).
  { intros key Hk. rewrite lookup_set_other by assumption.
    now apply lookup_update. }
  split; [|split; [|split; [|split]]].
  - intros key v Hv Hk. now rewrite (Hget key Hk), Hv.
  - intros Hn. rewrite Hget by discriminate. now rewrite Hn.
  - intros Hn. rewrite Hget by discriminate. rewrite Hn, Hct. now symmetry.
  - intros Hn. rewrite Hget by discriminate. now rewrite Hn.
  - intros Hn. rewrite Hget by discriminate. now rewrite Hn.
Qed.

End ChunkerStructure.

Section ChunkerStructureWitness.

Import DocumentChunker.

Lemma chunk_content_blocks_metadata_witness :
  exists groups : list (list RawChunk),
    IngestSamples.chunked = List.concat groups /\
    Forall2
      (fun block group =>
         forall extra,
           get_default (lookup "metadata" block) (PyDict []) = PyDict extra ->
           NoDup (map fst extra) ->
           forall (i : nat) (c : RawChunk),
             nth_error group i = Some c ->
             (forall key v,
                 lookup key extra = Some v -> key <> "total_chunks" ->
                 lookup key (raw_metadata c) = Some v) /\
             (lookup "document_name" extra = None ->
              lookup "document_name" (raw_metadata c) = Some (PyStr "doc.pdf")) /\
             (lookup "content_type" extra = None ->
              lookup "content_type" (raw_metadata c) = lookup "content_type" block) /\
             (lookup "page_number" extra = None ->
              lookup "page_number" (raw_metadata c)
              = Some (get_default (lookup "page_number" block) PyNone)) /\
             (lookup "chunk_index" extra = None ->
              lookup "chunk_index" (raw_metadata c) = Some (PyInt (Z.of_nat i))))
      [IngestSamples.page_block; IngestSamples.table] groups.
Proof.
  apply (chunk_content_blocks_metadata IngestSamples.chunker
           [IngestSamples.page_block; IngestSamples.table] "doc.pdf"
           IngestSamples.chunked eq_refl).
Defined.

End ChunkerStructureWitness.

(** * Properties of the vector store *)

Section VectorStoreProperties.

Import WeaviateVectorStore.

Lemma prepare_objects_spec (chunks : list RawChunk) :
  forall (embeddings : list embedding) (acc objs : list data_object),
    prepare_objects chunks embeddings acc = Return objs ->
    exists new,
      objs = (acc ++ new)%list /\
      List.length new = Nat.min (List.length chunks) (List.length embeddings) /\
      forall (i : nat) (obj : data_object),
        nth_error new i = Some obj ->
        exists chunk vector,
          nth_error chunks i = Some chunk /\
          nth_error embeddings i = Some vector /\
          prepare_object chunk vector = Return obj.
Proof.
  induction chunks as [|chunk chunks IH]; intros embeddings acc objs H.
  - simpl in H. injection H as <-. exists []. rewrite app_nil_r.
    repeat split. intros [|i] obj Hi; discriminate.
  - destruct embeddings as [|vector embeddings].
    + simpl in H. injection H as <-. exists []. rewrite app_nil_r.
      repeat split. intros [|i] obj Hi; discriminate.
    + simpl in H. destruct (prepare_object chunk vector) as [obj0|e] eqn:Ep;
        [|discriminate].
      cbn [rbind] in H. destruct (IH _ _ _ H) as (new & -> & Hlen & Hnth).
      exists (obj0 :: new). split; [now rewrite <- app_assoc|].
      split; [simpl; now rewrite Hlen|].
      intros [|i] obj Hi; simpl in Hi.
      * injection Hi as <-. now exists chunk, vector.
      * apply Hnth, Hi.
Qed.

Lemma prepare_object_properties (chunk : RawChunk) (vector : embedding)
  (obj : data_object) :
  prepare_object chunk vector = Return obj ->
  obj_vector obj = vector /\
  lookup "content" (obj_properties obj) = Some (raw_content chunk) /\
  lookup "page_number" (obj_properties obj)
  = Some (or_zero (get_default (lookup "page_number" (raw_metadata chunk)) (PyInt 0))).
Proof.
  unfold prepare_object.
  destruct (py_getitem (PyDict (raw_metadata chunk)) "document_name"); [|discriminate].
  cbn [rbind].
  destruct (py_getitem (PyDict (raw_metadata chunk)) "content_type"); [|discriminate].
  cbn [rbind].
  destruct (py_getitem (PyDict (raw_metadata chunk)) "chunk_index"); [|discriminate].
  cbn [rbind].
  destruct (py_getitem (PyDict (raw_metadata chunk)) "total_chunks"); [|discriminate].
  cbn [rbind]. intros H. injection H as <-. repeat split.
Qed.

Lemma or_zero_not_none (v : pyval) : or_zero v <> PyNone.
Proof.
  unfold or_zero. destruct v as [|b|n|q|s|items|fields]; simpl; try discriminate.
  - destruct b; discriminate.
  - destruct (negb (n =? 0)); discriminate.
  - destruct (negb (Qeq_bool q 0)); discriminate.
  - destruct (negb (String.eqb s "")); discriminate.
  - destruct items; discriminate.
  - destruct fields; discriminate.
Qed.

(** X22.  The objects [add_chunks] prepares pair chunks and vectors in
    order and stop at the shorter of the two lists, without an error when
    the lengths differ.  Each object holds the content and the vector of
    its pair, and a page number that is never [None]: a chunk without a
    page number, or with [None] or 0, is stored with page 0; a chunk with
    another integer keeps it. *)
Theorem prepare_objects_pairs (chunks : list RawChunk) (embeddings : list embedding)
  (objs : list data_object) :
  prepare_objects chunks embeddings [] = Return objs ->
  List.length objs = Nat.min (List.length chunks) (List.length embeddings) /\
  forall (i : nat) (obj : data_object),
    nth_error objs i = Some obj ->
    exists chunk vector page,
      nth_error chunks i = Some chunk /\
      nth_error embeddings i = Some vector /\
      obj_vector obj = vector /\
      lookup "content" (obj_properties obj) = Some (raw_content chunk) /\
      lookup "page_number" (obj_properties obj) = Some page /\
      page <> PyNone /\
      (lookup "page_number" (raw_metadata chunk) = None \/
       lookup "page_number" (raw_metadata chunk) = Some PyNone ->
       page = PyInt 0) /\
      (forall n, lookup "page_number" (raw_metadata chunk) = Some (PyInt n) ->
                 page = PyInt n).
Proof.
  intros H. destruct (prepare_objects_spec _ _ _ _ H) as (new & -> & Hlen & Hnth).
  simpl. split; [exact Hlen|].
  intros i obj Hi. destruct (Hnth i obj Hi) as (chunk & vector & Hc & Hv & Hp).
  destruct (prepare_object_properties _ _ _ Hp) as (Hvec & Hcontent & Hpage).
  exists chunk, vector, (or_zero (get_default (lookup "page_number" (raw_metadata chunk))
                                   (PyInt 0))).
  repeat split; try assumption.
  - apply or_zero_not_none.
  - intros [Hn|Hn]; rewrite Hn; reflexivity.
  - intros n Hn. rewrite Hn. unfold or_zero. simpl.
    destruct (n =? 0) eqn:E; [|reflexivity].
    apply Z.eqb_eq in E. now subst.
Qed.

Lemma prepare_objects_pairs_witness :
  List.length
    [mkObject [("content", PyStr "| a | b |"); ("document_name", PyStr "doc.pdf");
               ("page_number", PyInt 0); ("content_type", PyStr "table");
               ("chunk_index", PyInt 0); ("total_chunks", PyInt 3)] [1%Q; 0%Q]]
  = Nat.min (List.length [IngestSamples.table_chunk; IngestSamples.second_chunk])
            (List.length [[1%Q; 0%Q]]).
Proof.
  apply (proj1 (prepare_objects_pairs
                  [IngestSamples.table_chunk; IngestSamples.second_chunk]
                  [[1%Q; 0%Q]] _ eq_refl)).
Defined.

(** Every chunk made by the chunker has the keys [add_chunks] subscripts. *)
Lemma chunked_has_stored_keys (self : DocumentChunker.t) (blocks : list pydict)
  (document_name : string) (chunks : list RawChunk) (c : RawChunk) (key : string) :
  DocumentChunker.chunk_content_blocks self blocks document_name = Return chunks ->
  In c chunks -> In key stored_keys ->
  exists v, lookup key (raw_metadata c) = Some v.
Proof.
  unfold DocumentChunker.chunk_content_blocks. intros H Hc Hk.
  destruct (DocumentChunker.blocks_loop self document_name blocks []) as [all|e] eqn:Eb;
    [|discriminate].
  cbn [rbind] in H. injection H as <-.
  apply in_map_iff in Hc. destruct Hc as (c0 & <- & Hc0).
  cbn [DocumentChunker.set_total raw_metadata].
  destruct (string_dec key "total_chunks") as [->|Hne];
    [rewrite lookup_set_same; eauto|].
  destruct (blocks_loop_groups _ _ _ _ _ Eb) as (groups & -> & Hgs).
  simpl in Hc0. apply in_concat in Hc0. destruct Hc0 as (group & Hg & Hcg).
  assert (Hblock : exists block, block_chunks self document_name block group).
  { clear - Hgs Hg. induction Hgs as [|b g bs gs Hbg _ IH]; [contradiction|].
    destruct Hg as [<-|Hg]; [now exists b | now apply IH]. }
  destruct Hblock as (block & Hb).
  assert (Hk' : In key ["document_name"; "page_number"; "content_type"; "chunk_index"]).
  { unfold stored_keys in Hk. simpl in *. intuition. }
  destruct (block_chunks_keys _ _ _ _ _ key Hb Hcg Hk') as (v & Hv).
  eapply lookup_set_keeps, Hv.
Qed.

Lemma prepare_object_total (chunk : RawChunk) (vector : embedding) :
  (forall key, In key stored_keys -> exists v, lookup key (raw_metadata chunk) = Some v) ->
  exists obj, prepare_object chunk vector = Return obj.
Proof.
  intros Hk. unfold prepare_object, py_getitem.
  destruct (Hk "document_name") as (v1 & ->); [simpl; tauto|].
  destruct (Hk "content_type") as (v2 & ->); [simpl; tauto|].
  destruct (Hk "chunk_index") as (v3 & ->); [simpl; tauto|].
  destruct (Hk "total_chunks") as (v4 & ->); [simpl; tauto|].
  cbn [rbind]. eauto.
Qed.

Lemma prepare_objects_total (chunks : list RawChunk) :
  (forall c key, In c chunks -> In key stored_keys ->
                 exists v, lookup key (raw_metadata c) = Some v) ->
  forall (embeddings : list embedding) (acc : list data_object),
  exists objs, prepare_objects chunks embeddings acc = Return objs.
Proof.
  induction chunks as [|chunk chunks IH]; intros Hk embeddings acc; simpl; [eauto|].
  destruct embeddings as [|vector embeddings]; [eauto|].
  destruct (prepare_object_total chunk vector) as (obj & ->).
  { intros key. apply Hk. now left. }
  cbn [rbind]. apply IH. intros c key Hc. apply Hk. now right.
Qed.

(** X23.  What the chunker returns can always be prepared for storage:
    on the chunks of [chunk_content_blocks], with any list of vectors, the
    preparation of [add_chunks] raises no [KeyError], and [add_chunks]
    fails only if the collection or the batch does. *)
Theorem add_chunks_accepts_chunker_output (self : DocumentChunker.t)
  (blocks : list pydict) (document_name : string) (chunks : list RawChunk)
  (embeddings : list embedding) (collections_get : result unit)
  (batch_insert : list data_object -> result unit) :
  DocumentChunker.chunk_content_blocks self blocks document_name = Return chunks ->
  exists objs,
    prepare_objects chunks embeddings [] = Return objs /\
    add_chunks collections_get batch_insert chunks embeddings
    = rbind collections_get (fun _ => batch_insert objs).
Proof.
  intros H.
  destruct (prepare_objects_total chunks) with (embeddings := embeddings) (acc := @nil data_object)
    as (objs & Hobjs).
  { intros c key Hc Hk. eapply chunked_has_stored_keys; eassumption. }
  exists objs. split; [assumption|]. unfold add_chunks. now rewrite Hobjs.
Qed.

Lemma add_chunks_accepts_chunker_output_witness :
  exists objs,
    prepare_objects IngestSamples.chunked [[1%Q; 0%Q]; [0%Q; 1%Q]; [1%Q; 1%Q]] []
    = Return objs /\
    add_chunks (Return tt) (fun _ => Return tt) IngestSamples.chunked
      [[1%Q; 0%Q]; [0%Q; 1%Q]; [1%Q; 1%Q]]
    = rbind (Return tt) (fun _ => (fun _ => Return tt) objs).
Proof.
  apply (add_chunks_accepts_chunker_output IngestSamples.chunker
           [IngestSamples.page_block; IngestSamples.table] "doc.pdf"
           IngestSamples.chunked _ (Return tt) (fun _ => Return tt) eq_refl).
Defined.

End VectorStoreProperties.

Section SearchProperties.

Import WeaviateVectorStore.

Lemma process_results_filter (objects : list found) (threshold : Q) :
  forall results : list Chunk,
    process_results objects threshold results
    = (results
         ++ map found_chunk
              (filter (fun obj => Qle_bool threshold (float_sub 1 (found_distance obj)))
                 objects))%list.
Proof.
  induction objects as [|obj rest IH]; intros results; simpl.
  - now rewrite app_nil_r.
  - destruct (Qle_bool threshold (float_sub 1 (found_distance obj))).
    + rewrite IH, <- app_assoc. reflexivity.
    + apply IH.
Qed.

(** X24.  [search] raises what the query to Weaviate raises.  Otherwise
    each object has a similarity, a double nearest to [1 - distance], and
    [search] returns, in the order received, one chunk for each object
    whose similarity is at least the threshold and none for the others;
    every chunk has all of its five fields and carries that similarity. *)
Theorem search_results
  (near_vector : embedding -> Z -> option string -> result (list found))
  (query_embedding : embedding) (top_k : Z) (document_filter : option string)
  (threshold : Q) :
  match near_vector query_embedding top_k
          (match document_filter with
           | Some (String c name) => Some (String c name)
           | _ => None
           end) with
  | Raise e =>
      search near_vector query_embedding top_k document_filter threshold = Raise e
  | Return objects =>
      exists (chunks : list Chunk) (sim : found -> Q),
        search near_vector query_embedding top_k document_filter threshold
        = Return chunks /\
        (forall obj, nearest_binary64 (1 - found_distance obj) (sim obj)) /\
        chunks
        = map (fun obj =>
                 mkChunk (found_content obj) (Some (found_document_name obj))
                   (Some (found_page_number obj)) (Some (found_content_type obj))
                   (Some (sim obj)))
            (filter (fun obj => Qle_bool threshold (sim obj)) objects) /\
        (List.length chunks <= List.length objects)%nat /\
        (forall c,
            In c chunks <->
            exists obj,
              In obj objects /\
              (threshold <= sim obj)%Q /\
              c = mkChunk (found_content obj) (Some (found_document_name obj))
                    (Some (found_page_number obj)) (Some (found_content_type obj))
                    (Some (sim obj)))
  end.
Proof.
  unfold search.
  assert (Hf : match document_filter with
               | Some (String c name) => Some (String c name)
               | _ => None
               end = effective_filter document_filter).
  { destruct document_filter as [[|c name]|]; reflexivity. }
  rewrite Hf.
  destruct (near_vector query_embedding top_k (effective_filter document_filter))
    as [objects|e]; [|reflexivity].
  cbn [rbind]. exists (process_results objects threshold []).
  exists (fun obj => float_sub 1 (found_distance obj)).
  split; [reflexivity|].
  rewrite process_results_filter. cbn [app]. split; [|split; [|split]].
  - intros obj. apply nearest_double_nearest.
  - reflexivity.
  - rewrite length_map. apply filter_length_le.
  - intros c. rewrite in_map_iff. split.
    + intros (obj & <- & Hin). apply filter_In in Hin. destruct Hin as [Hin Hle].
      exists obj. split; [assumption|]. split; [now apply Qle_bool_iff|reflexivity].
    + intros (obj & Hin & Hle & ->). exists obj. split; [reflexivity|].
      apply filter_In. split; [assumption|now apply Qle_bool_iff].
Qed.

(** The doubles of 0.1 and 0.9: an object at distance 0.1 passes the
    threshold 0.9, since [1 - 0.1] on doubles is the double of 0.9,
    while the rational [1 - distance] is below the threshold. *)
Example search_keeps_rounded_similarity :
  let distance := nearest_double (1 # 10) in
  let threshold := nearest_double (9 # 10) in
  Qle_bool threshold (1 - distance) = false /\
  option_map (map (fun c => option_map Qred (similarity c)))
    (match search (fun _ _ _ => Return [mkFound "text" "a.pdf" (PgInt 1) "text" distance])
             [1%Q; 0%Q] 5 None threshold with
     | Return chunks => Some chunks
     | Raise _ => None
     end)
  = Some [Some (8106479329266893 # 9007199254740992)%Q].
Proof. split; vm_compute; reflexivity. Qed.

Lemma StronglySorted_filter {A : Type} (R : A -> A -> Prop) (f : A -> bool)
  (l : list A) :
  StronglySorted R l -> StronglySorted R (filter f l).
Proof.
  induction 1 as [|x l Hs IH Hx]; simpl; [constructor|].
  destruct (f x); [|assumption].
  constructor; [assumption|].
  rewrite Forall_forall in *. intros y Hy. apply filter_In in Hy. now apply Hx.
Qed.

Lemma found_chunks_descending (objects : list found) :
  StronglySorted by_distance objects ->
  StronglySorted descending (map found_chunk objects).
Proof.
  induction 1 as [|x l Hs IH Hx]; simpl; [constructor|].
  constructor; [assumption|].
  rewrite Forall_forall in *. intros c Hc. apply in_map_iff in Hc.
  destruct Hc as (y & <- & Hy). specialize (Hx y Hy).
  unfold descending, by_distance, sort_key, found_chunk in *. cbn.
  unfold float_sub. apply nearest_double_mono. lra.
Qed.

(** X25.  When Weaviate returns the objects nearest first, the chunks
    [search] returns are in descending order of similarity, and the sort of
    the aggregator leaves them in the order of the store (equal
    similarities included). *)
Theorem search_keeps_ranking
  (near_vector : embedding -> Z -> option string -> result (list found))
  (query_embedding : embedding) (top_k : Z) (document_filter : option string)
  (threshold : Q) (objects : list found) :
  near_vector query_embedding top_k (effective_filter document_filter)
  = Return objects ->
  StronglySorted by_distance objects ->
  exists chunks,
    search near_vector query_embedding top_k document_filter threshold = Return chunks /\
    StronglySorted descending chunks /\
    ContextAggregator.sort_desc chunks = chunks.
Proof.
  intros Hnv Hs. unfold search. rewrite Hnv. cbn [rbind].
  eexists. split; [reflexivity|]. rewrite process_results_filter. cbn [app].
  assert (Hd : StronglySorted descending
                 (map found_chunk
                    (filter (fun obj =>
                               Qle_bool threshold (float_sub 1 (found_distance obj)))
                       objects))).
  { apply found_chunks_descending. now apply StronglySorted_filter. }
  split; [exact Hd|]. now apply sort_desc_sorted_id.
Qed.

Lemma search_keeps_ranking_witness :
  exists chunks,
    search (fun _ _ _ => Return [IngestSamples.near; IngestSamples.far]) [1%Q; 0%Q] 5
      None (1 # 2) = Return chunks /\
    StronglySorted descending chunks /\
    ContextAggregator.sort_desc chunks = chunks.
Proof.
  apply (search_keeps_ranking (fun _ _ _ => Return [IngestSamples.near; IngestSamples.far])
           [1%Q; 0%Q] 5 None (1 # 2) [IngestSamples.near; IngestSamples.far] eq_refl).
  repeat constructor. vm_compute. discriminate.
Defined.

End SearchProperties.

(** * Properties of [strip] *)

Section Strip.

Lemma is_space_codes (c : ascii) :
  is_space c = existsb (Nat.eqb (nat_of_ascii c)) white_codes.
Proof. destruct c as [[] [] [] [] [] [] [] []]; reflexivity. Qed.

Lemma is_space_iff (c : ascii) :
  is_space c = true <-> In (nat_of_ascii c) white_codes.
Proof.
  rewrite is_space_codes, existsb_exists. split.
  - intros (n & Hin & Heq). apply Nat.eqb_eq in Heq. now subst n.
  - intros Hin. exists (nat_of_ascii c). split; [exact Hin|apply Nat.eqb_refl].
Qed.

Lemma not_space_iff (c : ascii) :
  is_space c = false <-> ~ In (nat_of_ascii c) white_codes.
Proof.
  rewrite <- is_space_iff. destruct (is_space c); split; congruence.
Qed.

Lemma white_nil : white "".
Proof. constructor. Qed.

Lemma white_cons (c : ascii) (s : string) :
  white (String c s) <-> is_space c = true /\ white s.
Proof.
  unfold white. simpl. rewrite is_space_iff. split.
  - intros H. inversion H; subst. now split.
  - intros [H1 H2]. now constructor.
Qed.

Lemma append_nil_r (s : string) : s ++ "" = s.
Proof. induction s as [|c s IH]; simpl; [reflexivity|now rewrite IH]. Qed.

Lemma append_assoc (a b c : string) : (a ++ b) ++ c = a ++ b ++ c.
Proof. induction a as [|x a IH]; simpl; [reflexivity|now rewrite IH]. Qed.

Lemma lstrip_white (before s : string) :
  white before -> lstrip (before ++ s) = lstrip s.
Proof.
  induction before as [|c before IH]; simpl; intros H; [reflexivity|].
  apply white_cons in H. destruct H as [Hc H]. rewrite Hc. now apply IH.
Qed.

Lemma lstrip_spec (s : string) :
  exists before,
    s = before ++ lstrip s /\ white before /\
    forall c rest, lstrip s = String c rest -> is_space c = false.
Proof.
  induction s as [|c s (before & Hs & Hw & Hc)]; simpl.
  - exists "". split; [reflexivity|]. split; [apply white_nil|discriminate].
  - destruct (is_space c) eqn:E.
    + exists (String c before). simpl. split; [now rewrite <- Hs|].
      split; [now apply white_cons|exact Hc].
    + exists "". split; [reflexivity|]. split; [apply white_nil|].
      intros c0 rest H. injection H as <- _. exact E.
Qed.

Lemma rstrip_white_nil (after : string) : white after -> rstrip after = "".
Proof.
  induction after as [|c after IH]; simpl; intros H; [reflexivity|].
  apply white_cons in H. destruct H as [Hc H]. now rewrite IH, Hc.
Qed.

Lemma rstrip_white (s after : string) :
  white after -> rstrip (s ++ after) = rstrip s.
Proof.
  intros H. induction s as [|c s IH]; simpl.
  - now apply rstrip_white_nil.
  - now rewrite IH.
Qed.

Lemma rstrip_spec (s : string) :
  exists after,
    s = rstrip s ++ after /\ white after /\
    forall init c, rstrip s = init ++ String c "" -> is_space c = false.
Proof.
  induction s as [|c s (after & Hs & Hw & Hc)]; simpl.
  - exists "". split; [reflexivity|]. split; [apply white_nil|].
    intros [|x init] c H; discriminate.
  - destruct (rstrip s) as [|y r] eqn:Er.
    + simpl in Hs. destruct (is_space c) eqn:E.
      * exists (String c after). split; [now rewrite <- Hs|].
        split; [now apply white_cons|]. intros [|x init] c0 H; discriminate.
      * exists after. split; [simpl; f_equal; exact Hs|]. split; [exact Hw|].
        intros [|x init] c0 H; simpl in H.
        -- injection H as <-. exact E.
        -- injection H as _ H. destruct init; discriminate.
    + exists after. split; [simpl; f_equal; exact Hs|]. split; [exact Hw|].
      intros [|x init] c0 H; simpl in H; [discriminate|].
      injection H as _ H. now apply (Hc init).
Qed.

Lemma rstrip_head (c : ascii) (s : string) :
  is_space c = false -> exists r, rstrip (String c s) = String c r.
Proof.
  intros H. simpl. rewrite H. destruct (rstrip s); eauto.
Qed.

Lemma rstrip_fix (init : string) (c : ascii) :
  is_space c = false -> rstrip (init ++ String c "") = init ++ String c "".
Proof.
  intros H. induction init as [|x init IH]; simpl.
  - now rewrite H.
  - rewrite IH. destruct init; reflexivity.
Qed.

Lemma string_last (s : string) :
  s <> "" -> exists init c, s = init ++ String c "".
Proof.
  induction s as [|x s IH]; intros H; [contradiction|].
  destruct s as [|y s].
  - now exists "", x.
  - destruct IH as (init & c & Hs); [discriminate|].
    exists (String x init), c. simpl. now rewrite <- Hs.
Qed.

(** [strip] removes the white space of both ends, and nothing else. *)
Lemma strip_stripped_of (text : string) : stripped_of text (strip text).
Proof.
  unfold strip.
  destruct (lstrip_spec text) as (before & Hb & Hwb & Hhead).
  destruct (rstrip_spec (lstrip text)) as (after & Ha & Hwa & Hlast).
  exists before, after. split; [now rewrite <- Ha|].
  split; [exact Hwb|]. split; [exact Hwa|]. split.
  - intros c rest Hk. apply not_space_iff.
    destruct (lstrip text) as [|c' rest'] eqn:El; [discriminate|].
    pose proof (Hhead c' rest' eq_refl) as Hc'.
    destruct (rstrip_head c' rest' Hc') as (r & Hr).
    rewrite Hr in Hk. injection Hk as -> _. exact Hc'.
  - intros init c Hk. apply not_space_iff. now apply (Hlast init).
Qed.

Lemma stripped_of_unique (text kept : string) :
  stripped_of text kept -> kept = strip text.
Proof.
  intros (before & after & -> & Hwb & Hwa & Hhead & Hlast).
  unfold strip. rewrite (lstrip_white before _ Hwb).
  destruct kept as [|c rest].
  - simpl. replace after with (after ++ "") by apply append_nil_r.
    now rewrite (lstrip_white after "" Hwa).
  - pose proof (Hhead c rest eq_refl) as Hc. apply not_space_iff in Hc.
    simpl lstrip. rewrite Hc.
    change (String c (rest ++ after)) with (String c rest ++ after).
    rewrite (rstrip_white _ after Hwa).
    destruct (string_last (String c rest)) as (init & c2 & Hs); [discriminate|].
    rewrite Hs. symmetry. apply rstrip_fix. apply not_space_iff.
    now apply (Hlast init).
Qed.

End Strip.

(** * Properties of extraction *)

Section ExtractorProperties.

Import DocumentExtractor.

Lemma blank_text (text : string) :
  negb (String.eqb text "") && negb (String.eqb (strip text) "") = false ->
  strip text = "".
Proof.
  destruct (String.eqb text "") eqn:E1; simpl.
  - intros _. apply String.eqb_eq in E1. now subst.
  - destruct (String.eqb (strip text) "") eqn:E2; [|discriminate].
    intros _. now apply String.eqb_eq.
Qed.

Lemma nonblank_text (text : string) :
  negb (String.eqb text "") && negb (String.eqb (strip text) "") = true ->
  strip text <> "".
Proof.
  intros H. apply andb_prop in H. destruct H as [_ H].
  apply negb_true_iff, String.eqb_neq in H. exact H.
Qed.

Lemma text_loop_spec (pages : list (result string)) :
  forall (p : Z) (acc : list pydict),
  exists new,
    text_loop p pages acc = (acc ++ new)%list /\
    (forall b,
        In b new <->
        exists n text,
          nth_error pages n = Some (Return text) /\
          strip text <> "" /\
          (forall m, (m < n)%nat -> exists t, nth_error pages m = Some (Return t)) /\
          b = text_block (p + Z.of_nat n) text) /\
    Forall (fun b => p <= block_page b) new /\
    StronglySorted Z.lt (map block_page new).
Proof.
  induction pages as [|page rest IH]; intros p acc.
  - exists []. simpl. rewrite app_nil_r. split; [reflexivity|]. split; [|split].
    + intros b. split; [contradiction|].
      intros (n & text & Hn & _). destruct n; discriminate.
    + constructor.
    + constructor.
  - destruct page as [text|e].
    + simpl.
      destruct (negb (String.eqb text "") && negb (String.eqb (strip text) ""))
        eqn:Ec.
      * destruct (IH (p + 1) (acc ++ [text_block p text])%list)
          as (new & -> & Hin & Hge & Hs).
        exists (text_block p text :: new).
        split; [now rewrite <- app_assoc|]. split; [|split].
        -- intros b. split.
           ++ intros [<-|Hb].
              ** exists 0%nat, text. split; [reflexivity|].
                 split; [now apply nonblank_text|].
                 split; [intros m Hm; lia|]. now rewrite Z.add_0_r.
              ** apply Hin in Hb. destruct Hb as (n & t & Hn & Ht & Hbefore & ->).
                 exists (S n), t. split; [exact Hn|]. split; [exact Ht|]. split.
                 --- intros [|m] Hm; [now exists text|]. apply Hbefore. lia.
                 --- f_equal. lia.
           ++ intros (n & t & Hn & Ht & Hbefore & ->). destruct n as [|n].
              ** simpl in Hn. injection Hn as ->. left. now rewrite Z.add_0_r.
              ** right. apply Hin. exists n, t. split; [exact Hn|].
                 split; [exact Ht|]. split.
                 --- intros m Hm. apply (Hbefore (S m)). lia.
                 --- f_equal. lia.
        -- constructor; [cbn; lia|].
           eapply Forall_impl; [|exact Hge]. intros b Hb. cbn beta in *. lia.
        -- simpl. constructor; [assumption|].
           rewrite Forall_map. eapply Forall_impl; [|exact Hge].
           intros b Hb. cbn. cbn beta in Hb. lia.
      * destruct (IH (p + 1) acc) as (new & -> & Hin & Hge & Hs).
        exists new. split; [reflexivity|]. split; [|split].
        -- intros b. rewrite Hin. split.
           ++ intros (n & t & Hn & Ht & Hbefore & ->).
              exists (S n), t. split; [exact Hn|]. split; [exact Ht|]. split.
              ** intros [|m] Hm; [now exists text|]. apply Hbefore. lia.
              ** f_equal. lia.
           ++ intros (n & t & Hn & Ht & Hbefore & ->). destruct n as [|n].
              ** simpl in Hn. injection Hn as ->.
                 apply blank_text in Ec. contradiction.
              ** exists n, t. split; [exact Hn|]. split; [exact Ht|]. split.
                 --- intros m Hm. apply (Hbefore (S m)). lia.
                 --- f_equal. lia.
        -- eapply Forall_impl; [|exact Hge]. intros b Hb. cbn beta in *. lia.
        -- assumption.
    + exists []. simpl. rewrite app_nil_r. split; [reflexivity|]. split; [|split].
      * intros b. split; [contradiction|].
        intros (n & text & Hn & _ & Hbefore & _). destruct n as [|n].
        -- discriminate.
        -- destruct (Hbefore 0%nat) as (t & Ht); [lia|]. discriminate.
      * constructor.
      * constructor.
Qed.

(** X26.  [_extract_text] raises nothing.  A file that cannot be opened
    gives no block.  Otherwise the blocks are exactly those of the pages
    that have text other than white space and come before the first page
    whose reading fails: the block of such a page carries the text of the
    page without the white space at its two ends (the code points 9 to
    13, 28 to 32, 133 and 160) and the number of the page, counted from
    1, and the blocks are in ascending order of page number. *)
Theorem extract_text_blocks :
  (forall e, _extract_text (Raise e) = []) /\
  forall pages : list (result string),
    (forall b,
        In b (_extract_text (Return pages)) <->
        exists n text kept,
          nth_error pages n = Some (Return text) /\
          stripped_of text kept /\
          kept <> "" /\
          (forall m, (m < n)%nat -> exists t, nth_error pages m = Some (Return t)) /\
          b = [("content", PyStr kept); ("content_type", PyStr "text");
               ("page_number", PyInt (Z.of_nat n + 1));
               ("metadata", PyDict [("extraction_method", PyStr "pypdf")])]) /\
    StronglySorted Z.lt (map block_page (_extract_text (Return pages))).
Proof.
  split; [reflexivity|]. intros pages. unfold _extract_text.
  destruct (text_loop_spec pages 1 []) as (new & -> & Hin & _ & Hs).
  cbn [app]. split; [|exact Hs].
  intros b. rewrite Hin. split.
  - intros (n & text & Hn & Ht & Hb & ->).
    exists n, text, (strip text). split; [exact Hn|].
    split; [apply strip_stripped_of|]. split; [exact Ht|]. split; [exact Hb|].
    unfold text_block. do 3 f_equal. f_equal. f_equal. lia.
  - intros (n & text & kept & Hn & Hk & Ht & Hb & ->).
    apply stripped_of_unique in Hk. subst kept.
    exists n, text. split; [exact Hn|]. split; [exact Ht|]. split; [exact Hb|].
    unfold text_block. do 3 f_equal. f_equal. f_equal. lia.
Qed.

(** A page of no-break spaces gives no block; the page after it gives a
    block with its text, the line feed and the no-break space around it
    removed. *)
Example extract_text_strips_white_space :
  _extract_text
    (Return [Return (String (ascii_of_nat 160) (String (ascii_of_nat 160) ""));
             Return (String (ascii_of_nat 10)
                       ("two words" ++ String (ascii_of_nat 160) ""))])
  = [[("content", PyStr "two words"); ("content_type", PyStr "text");
      ("page_number", PyInt 2);
      ("metadata", PyDict [("extraction_method", PyStr "pypdf")])]].
Proof. reflexivity. Qed.

Lemma text_loop_extracted (pages : list (result string)) :
  forall (p : Z) (acc : list pydict),
    Forall extracted_block acc -> Forall extracted_block (text_loop p pages acc).
Proof.
  induction pages as [|[text|e] rest IH]; intros p acc Hacc; simpl; try assumption.
  destruct (negb (String.eqb text "") && negb (String.eqb (strip text) ""));
    apply IH; [|assumption].
  apply Forall_app. split; [assumption|]. constructor; [|constructor].
  repeat split; eexists; reflexivity.
Qed.

Lemma table_loop_extracted (tables : list table_df) :
  forall (idx : Z) (acc : list pydict),
    Forall extracted_block acc -> Forall extracted_block (table_loop idx tables acc).
Proof.
  induction tables as [|table rest IH]; intros idx acc Hacc; simpl; [assumption|].
  destruct (df_empty table); [now apply IH|].
  destruct (df_markdown table) as [markdown|e]; [|assumption].
  apply IH. apply Forall_app. split; [assumption|]. constructor; [|constructor].
  repeat split; eexists; reflexivity.
Qed.

Lemma object_loop_extracted (objs : list xobject) :
  forall (p : Z) (acc : list pydict),
    Forall extracted_block acc ->
    match object_loop p objs acc with
    | inl blocks => Forall extracted_block blocks
    | inr blocks => Forall extracted_block blocks
    end.
Proof.
  induction objs as [|obj rest IH]; intros p acc Hacc; simpl; [assumption|].
  destruct obj as [|e|[[[width height] ocr_text]|e]]; try assumption;
    try (now apply IH).
  destruct (negb (String.eqb ocr_text "")
            && (20 <? Z.of_nat (String.length (strip ocr_text))));
    apply IH; [|assumption].
  apply Forall_app. split; [assumption|]. constructor; [|constructor].
  repeat split; eexists; reflexivity.
Qed.

Lemma image_loop_extracted (pages : list image_page) :
  forall (p : Z) (acc : list pydict),
    Forall extracted_block acc -> Forall extracted_block (image_loop p pages acc).
Proof.
  induction pages as [|page rest IH]; intros p acc Hacc; simpl; [assumption|].
  destruct page as [e| |objs]; [assumption|now apply IH|].
  pose proof (object_loop_extracted objs p acc Hacc) as Ho.
  destruct (object_loop p objs acc); [assumption|now apply IH].
Qed.

Lemma extract_from_pdf_extracted (file : pdf) :
  Forall extracted_block (extract_from_pdf file).
Proof.
  unfold extract_from_pdf. cbn [app]. rewrite !Forall_app. repeat split.
  - unfold _extract_text. destruct (text_reader file); [|constructor].
    apply text_loop_extracted. constructor.
  - unfold _extract_tables. destruct (tabula_tables file); [|constructor].
    apply table_loop_extracted. constructor.
  - unfold _extract_images. destruct (image_reader file); [|constructor].
    apply image_loop_extracted. constructor.
Qed.

Lemma split_loop_returns (document_name : string) (pn ct : pyval) (extra : pydict)
  (texts : list string) :
  forall (idx : Z) (acc : list RawChunk),
  exists out,
    DocumentChunker.split_loop document_name pn ct (PyDict extra) idx texts acc
    = Return out.
Proof.
  induction texts as [|text rest IH]; intros idx acc; simpl; [eauto|]. apply IH.
Qed.

Lemma blocks_loop_returns (self : DocumentChunker.t) (document_name : string)
  (blocks : list pydict) :
  (forall text, exists pieces, DocumentChunker.split_text self (PyStr text) = Return pieces) ->
  Forall extracted_block blocks ->
  forall acc, exists out,
    DocumentChunker.blocks_loop self document_name blocks acc = Return out.
Proof.
  intros Hsplit Hwf. induction Hwf as [|block rest Hb _ IH]; intros acc; simpl; [eauto|].
  destruct Hb as ((text & Hc) & (kind & Hk) & (extra & Hm)).
  unfold DocumentChunker.chunk_block, py_getitem. rewrite Hc, Hk, Hm.
  cbn [rbind get_default as_mapping].
  destruct (DocumentChunker.is_table (PyStr kind)).
  - cbn [rbind]. apply IH.
  - destruct (Hsplit text) as (pieces & ->). cbn [rbind].
    destruct (split_loop_returns document_name
                (get_default (lookup "page_number" block) PyNone) (PyStr kind)
                extra pieces 0 acc) as (out & ->).
    cbn [rbind]. apply IH.
Qed.

(** X27.  Whatever [extract_from_pdf] returns can be chunked: every block
    it builds has a text, a content type and a metadata dictionary, so
    [chunk_content_blocks] raises neither [KeyError] nor [TypeError] on
    them and returns chunks whenever the text splitter returns pieces for
    every text. *)
Theorem chunker_accepts_extractor_output (file : pdf) (self : DocumentChunker.t)
  (document_name : string) :
  (forall text, exists pieces, DocumentChunker.split_text self (PyStr text) = Return pieces) ->
  exists chunks,
    DocumentChunker.chunk_content_blocks self (extract_from_pdf file) document_name
    = Return chunks.
Proof.
  intros Hsplit. unfold DocumentChunker.chunk_content_blocks.
  destruct (blocks_loop_returns self document_name (extract_from_pdf file) Hsplit
              (extract_from_pdf_extracted file) []) as (out & ->).
  cbn [rbind]. eauto.
Qed.

Lemma chunker_accepts_extractor_output_witness :
  exists chunks,
    DocumentChunker.chunk_content_blocks IngestSamples.chunker
      (extract_from_pdf IngestSamples.readable) "doc.pdf" = Return chunks.
Proof.
  apply (chunker_accepts_extractor_output IngestSamples.readable
           IngestSamples.chunker "doc.pdf").
  intros text. eexists. reflexivity.
Defined.

End ExtractorProperties.

(** * Properties of the ingestion endpoint *)

Section IngestProperties.

Import Ingest.

(** X28.  A file whose name does not end in ".pdf" (in lower case) is
    refused with status 400 before anything is saved, read or stored:
    the answer is the same whatever the collaborators would do. *)
Theorem ingest_refuses_other_names (e : env) (filename : string) :
  endswith filename ".pdf" = false ->
  ingest_document e filename
  = Raise (mkExn (HTTPException 400) "Only PDF files are supported").
Proof.
  intros H. unfold ingest_document, ingest_body. now rewrite H.
Qed.

Lemma ingest_refuses_other_names_witness :
  ingest_document IngestSamples.working "doc.PDF"
  = Raise (mkExn (HTTPException 400) "Only PDF files are supported").
Proof.
  apply (ingest_refuses_other_names IngestSamples.working "doc.PDF"). reflexivity.
Defined.

(** X29.  A saved PDF from which nothing can be read is answered with
    status 400, not 500: when opening the file fails for the text, the
    tables and the images alike, the three failures are swallowed and
    [ingest_document] reports "No content extracted from PDF". *)
Theorem ingest_unreadable_pdf (e : env) (filename : string) (e1 e2 e3 : exn) :
  endswith filename ".pdf" = true ->
  save_upload e = Return tt ->
  DocumentExtractor.text_reader (file e) = Raise e1 ->
  DocumentExtractor.tabula_tables (file e) = Raise e2 ->
  DocumentExtractor.image_reader (file e) = Raise e3 ->
  ingest_document e filename
  = Raise (mkExn (HTTPException 400) "No content extracted from PDF").
Proof.
  intros Hn Hs H1 H2 H3. unfold ingest_document, ingest_body.
  rewrite Hn, Hs. cbn [negb rbind].
  unfold DocumentExtractor.extract_from_pdf. rewrite H1, H2, H3. reflexivity.
Qed.

Lemma ingest_unreadable_pdf_witness :
  ingest_document IngestSamples.nothing_to_read "doc.pdf"
  = Raise (mkExn (HTTPException 400) "No content extracted from PDF").
Proof.
  apply (ingest_unreadable_pdf IngestSamples.nothing_to_read "doc.pdf"
           Samples.connection_error Samples.connection_error Samples.connection_error);
    reflexivity.
Defined.

(** X30.  What [ingest_document] can give.  Every failure is an
    [HTTPException].  A response has status "success", repeats the file
    name, which ends in ".pdf", and reports as [total_chunks] the number
    of chunks made of the extracted blocks; the embedder was given the
    contents of these chunks, and the batch that was stored is the one
    prepared from these chunks and the vectors the embedder returned, one
    object per pair of a chunk and its vector (fewer objects than chunks
    when the embedder returned fewer vectors). *)
Theorem ingest_outcome_shape (e : env) (filename : string) :
  match ingest_document e filename with
  | Raise ex => exists code, class_of ex = HTTPException code
  | Return response =>
      status response = "success" /\
      document_name response = filename /\
      endswith filename ".pdf" = true /\
      exists chunks embeddings objs,
        DocumentChunker.chunk_content_blocks (chunker e)
          (DocumentExtractor.extract_from_pdf (file e)) filename = Return chunks /\
        total_chunks response = Z.of_nat (List.length chunks) /\
        match chunks with
        | [] => embeddings = []
        | _ => encode e (map raw_content chunks) = Return embeddings
        end /\
        WeaviateVectorStore.prepare_objects chunks embeddings [] = Return objs /\
        batch_insert e objs = Return tt /\
        List.length objs = Nat.min (List.length chunks) (List.length embeddings) /\
        (forall (i : nat) (obj : WeaviateVectorStore.data_object),
            nth_error objs i = Some obj ->
            exists chunk vector,
              nth_error chunks i = Some chunk /\
              nth_error embeddings i = Some vector /\
              WeaviateVectorStore.prepare_object chunk vector = Return obj)
  end.
Proof.
  unfold ingest_document.
  destruct (ingest_body e filename) as [response|ex] eqn:Eb.
  - unfold ingest_body in Eb.
    destruct (endswith filename ".pdf") eqn:En; [|discriminate]. cbn [negb] in Eb.
    destruct (save_upload e); [|discriminate]. cbn [rbind] in Eb.
    destruct (DocumentExtractor.extract_from_pdf (file e)) as [|b bs] eqn:Ex;
      [discriminate|].
    destruct (DocumentChunker.chunk_content_blocks (chunker e) (b :: bs) filename)
      as [chunks|] eqn:Ec; [|discriminate].
    cbn [rbind] in Eb.
    destruct (generate_embeddings e (map raw_content chunks)) as [embeddings|] eqn:Eg;
      [|discriminate].
    cbn [rbind] in Eb. unfold WeaviateVectorStore.add_chunks in Eb.
    destruct (collections_get e); [|discriminate]. cbn [rbind] in Eb.
    destruct (WeaviateVectorStore.prepare_objects chunks embeddings []) as [objs|] eqn:Ep;
      [|discriminate].
    cbn [rbind] in Eb.
    destruct (batch_insert e objs) as [[]|] eqn:Ei; [|discriminate].
    cbn [rbind] in Eb. injection Eb as <-. cbn [status document_name total_chunks].
    split; [reflexivity|]. split; [reflexivity|]. split; [reflexivity|].
    exists chunks, embeddings, objs.
    destruct (prepare_objects_spec _ _ _ _ Ep) as (new & -> & Hlen & Hnth).
    cbn [app] in *.
    split; [reflexivity|]. split; [reflexivity|]. split.
    { unfold generate_embeddings in Eg. destruct chunks; [|exact Eg].
      simpl in Eg. now injection Eg as <-. }
    split; [exact Ep|]. split; [exact Ei|]. split; [exact Hlen|exact Hnth].
  - destruct (class_of ex) eqn:Ecl; cbn [class_of]; eauto.
Qed.

End IngestProperties.
